(** * NeuraX: the session crypto layer and the compute node

    A shallow embedding of [client/crypto_utils.py] (class [CryptoSession])
    and of the message handler, sandbox executor and relay connection loop
    of [compute/compute_node.py] (class [NeuraXComputeNode]), with the
    properties of these functions that the design document states.

    Layout:
    - [Py]        the Python values the code manipulates: exceptions,
                  results, bytes, the representation of [str];
    - [Base64]    [base64.urlsafe_b64encode] / [base64.urlsafe_b64decode],
                  with the proof that decoding inverts encoding;
    - [Platform]  what [crypto_utils.py] takes from outside: the entropy
                  source, RSA-OAEP and AES-GCM; the parameter checks of the
                  [cryptography] package are modelled around them;
    - [CryptoSession] and its methods;
    - [NodeHost]  what the compute node takes from outside, then the
                  handler, the sandbox executor and the connection loop;
    - [Ref]       a small executable instance of [Platform] and [NodeHost],
                  on which the statements are evaluated;
    - the properties. *)

From Stdlib Require Import ZArith NArith Lia List Strings.String Strings.Ascii Strings.Byte.
From stdpp Require Import base option list gmap strings pretty.

Local Open Scope string_scope.

(* ===================================================================== *)
(** ** Python values *)
(* ===================================================================== *)

Module Py.

(** The exception classes that the modelled code can see.  [binascii_Error]
    is a subclass of [ValueError] in Python; the code never relies on that
    (its handlers are [except InvalidTag] and [except Exception]), so the
    classes are kept apart here. *)
Inductive exn_class :=
  | ValueError
  | binascii_Error
  | UnicodeDecodeError
  | AttributeError
  | KeyError
  | TypeError
  | InvalidTag
  | JSONDecodeError
  | ConnectionError
  | asyncio_TimeoutError
  | InvalidStateError
  | OSError.

(** An exception object: its class and [str(e)]. *)
Record exn := Exn { exn_class_of : exn_class; exn_msg : string }.

(** The outcome of a Python call: a value, or a raised exception. *)
Inductive result (A : Type) :=
  | OK (a : A)
  | Raise (e : exn).
Arguments OK {A} a.
Arguments Raise {A} e.

Definition bind {A B} (r : result A) (k : A -> result B) : result B :=
  match r with
  | OK a => k a
  | Raise e => Raise e
  end.

Definition is_ok {A} (r : result A) : bool :=
  match r with OK _ => true | Raise _ => false end.

#[global] Instance exn_class_eq_dec : EqDecision exn_class.
Proof. solve_decision. Defined.

#[global] Instance exn_eq_dec : EqDecision exn.
Proof. solve_decision. Defined.

#[global] Instance byte_eq_dec : EqDecision byte := Byte.byte_eq_dec.

(** [bytes] objects. *)
Abbreviation bytes := (list byte).

(** The byte with value [n mod 256] (a store into an [unsigned char]). *)
Definition byte_of_N (n : N) : byte :=
  default x00 (Byte.of_N (n mod 256)).

(** [b[:n]] and [b[n:]] on [bytes]: slices never raise, they clip. *)
Definition slice_to (n : nat) (b : bytes) : bytes := firstn n b.
Definition slice_from (n : nat) (b : bytes) : bytes := skipn n b.

(** Truthiness of an optional [bytes] attribute, as tested by [if not x]:
    [None] and [b''] are both false. *)
Definition truthy (x : option bytes) : bool :=
  match x with
  | None => false
  | Some [] => false
  | Some (_ :: _) => true
  end.

(** *** The representation of [str]

    A [str] is represented by the bytes of its UTF-8 encoding, held in a
    Rocq [string]; a [string] represents a [str] exactly when
    [utf8_valid] accepts its bytes.  (A [str] holding a lone surrogate has
    no UTF-8 encoding and no representative: [str.encode] rejects it before
    any of the modelled code runs on it.)  With this representation
    [s.encode('utf-8')] returns the bytes of [s] and [b.decode('utf-8')]
    checks [b] with the strict decoder's automaton. *)

Inductive utf8_state :=
  | U_start                (* between characters *)
  | U_cont (more : nat)    (* [S more] generic continuation bytes missing *)
  | U_E0                   (* after E0: next is A0..BF *)
  | U_ED                   (* after ED: next is 80..9F *)
  | U_F0                   (* after F0: next is 90..BF *)
  | U_F4.                  (* after F4: next is 80..8F *)

Definition in_range (lo hi v : N) : bool := ((lo <=? v) && (v <=? hi))%N.

Definition utf8_step (st : utf8_state) (b : byte) : option utf8_state :=
  let v := Byte.to_N b in
  match st with
  | U_start =>
      if (v <? 0x80)%N then Some U_start
      else if in_range 0xC2 0xDF v then Some (U_cont 0)
      else if (v =? 0xE0)%N then Some U_E0
      else if (v =? 0xED)%N then Some U_ED
      else if in_range 0xE1 0xEF v then Some (U_cont 1)
      else if (v =? 0xF0)%N then Some U_F0
      else if in_range 0xF1 0xF3 v then Some (U_cont 2)
      else if (v =? 0xF4)%N then Some U_F4
      else None
  | U_cont more =>
      if in_range 0x80 0xBF v
      then Some (match more with O => U_start | S m => U_cont m end)
      else None
  | U_E0 => if in_range 0xA0 0xBF v then Some (U_cont 0) else None
  | U_ED => if in_range 0x80 0x9F v then Some (U_cont 0) else None
  | U_F0 => if in_range 0x90 0xBF v then Some (U_cont 1) else None
  | U_F4 => if in_range 0x80 0x8F v then Some (U_cont 1) else None
  end.

Fixpoint utf8_run (st : utf8_state) (b : bytes) : bool :=
  match b with
  | [] => match st with U_start => true | _ => false end
  | x :: b' =>
      match utf8_step st x with
      | Some st' => utf8_run st' b'
      | None => false
      end
  end.

Definition utf8_valid (b : bytes) : bool := utf8_run U_start b.

(** [s.encode('utf-8')] *)
Definition str_encode (s : string) : bytes := list_byte_of_string s.

(** [b.decode('utf-8')] (strict).  The message of the real exception also
    names the offending byte and its position. *)
Definition bytes_decode (b : bytes) : result string :=
  if utf8_valid b then OK (string_of_list_byte b)
  else Raise (Exn UnicodeDecodeError "'utf-8' codec can't decode bytes").

(** The strings that represent a [str]. *)
Definition is_str (s : string) : Prop := utf8_valid (str_encode s) = true.

Definition is_ascii (b : bytes) : Prop :=
  Forall (fun x => (Byte.to_N x < 0x80)%N) b.

End Py.
Export Py.

(* ===================================================================== *)
(** ** base64 *)
(* ===================================================================== *)

Module Base64.

Local Open Scope N_scope.

(** The standard alphabet, [table_b2a_base64] of CPython's [binascii]. *)
Definition table_b2a_base64 : bytes :=
  list_byte_of_string
    "ABCDEFGHIJKLMNOPQRSTUVWXYZabcdefghijklmnopqrstuvwxyz0123456789+/".

Definition BASE64_PAD : byte := "="%byte.

Definition b2a (sextet : N) : byte :=
  nth (N.to_nat sextet) table_b2a_base64 x00.

(** [table_a2b_base64]: the value of an alphabet character, [None] for
    every other byte. *)
Definition table_a2b_base64 (c : byte) : option N :=
  let v := Byte.to_N c in
  if in_range 65 90 v then Some (v - 65)          (* A-Z *)
  else if in_range 97 122 v then Some (v - 71)    (* a-z *)
  else if in_range 48 57 v then Some (v + 4)      (* 0-9 *)
  else if v =? 43 then Some 62                    (* + *)
  else if v =? 47 then Some 63                    (* / *)
  else None.

(** [binascii.b2a_base64(s, newline=False)]: three bytes give four
    characters, a last group of one or two bytes is padded with [=]. *)
Fixpoint b2a_base64 (s : bytes) : bytes :=
  match s with
  | [] => []
  | [a] =>
      let a := Byte.to_N a in
      [b2a (N.shiftr a 2); b2a (N.shiftl (N.land a 3) 4);
       BASE64_PAD; BASE64_PAD]
  | [a; b] =>
      let a := Byte.to_N a in
      let b := Byte.to_N b in
      [b2a (N.shiftr a 2);
       b2a (N.lor (N.shiftl (N.land a 3) 4) (N.shiftr b 4));
       b2a (N.shiftl (N.land b 15) 2);
       BASE64_PAD]
  | a :: b :: c :: rest =>
      let a := Byte.to_N a in
      let b := Byte.to_N b in
      let c := Byte.to_N c in
      b2a (N.shiftr a 2)
      :: b2a (N.lor (N.shiftl (N.land a 3) 4) (N.shiftr b 4))
      :: b2a (N.lor (N.shiftl (N.land b 15) 2) (N.shiftr c 6))
      :: b2a (N.land c 63)
      :: b2a_base64 rest
  end.

(** [binascii.a2b_base64(s)] in its default, non-strict mode.  The loop
    keeps the position in the current group of four ([quad_pos]), the bits
    left over from the previous character ([leftchar]), the number of pad
    characters seen in a row ([pads]) and the number of bytes already
    written ([written], used by one error message).  Bytes outside the
    alphabet are skipped; a complete pad sequence ends the parse. *)
Fixpoint a2b_loop (s : bytes) (quad_pos : nat) (leftchar : N) (pads : nat)
    (written : N) : result bytes :=
  match s with
  | [] =>
      match quad_pos with
      | O => OK []
      | 1%nat =>
          Raise (Exn binascii_Error
                   ("Invalid base64-encoded string: number of data characters ("
                    ++ pretty (written / 3 * 4 + 1)
                    ++ ") cannot be 1 more than a multiple of 4"))
      | _ => Raise (Exn binascii_Error "Incorrect padding")
      end
  | ch :: rest =>
      if decide (ch = BASE64_PAD) then
        if (2 <=? quad_pos)%nat then
          if (4 <=? quad_pos + S pads)%nat then OK []
          else a2b_loop rest quad_pos leftchar (S pads) written
        else a2b_loop rest quad_pos leftchar pads written
      else
        match table_a2b_base64 ch with
        | None => a2b_loop rest quad_pos leftchar pads written
        | Some v =>
            match quad_pos with
            | O => a2b_loop rest 1 v 0 written
            | 1%nat =>
                bind (a2b_loop rest 2 (N.land v 0x0f) 0 (written + 1))
                  (fun out =>
                     OK (byte_of_N (N.lor (N.shiftl leftchar 2) (N.shiftr v 4))
                         :: out))
            | 2%nat =>
                bind (a2b_loop rest 3 (N.land v 0x03) 0 (written + 1))
                  (fun out =>
                     OK (byte_of_N (N.lor (N.shiftl leftchar 4) (N.shiftr v 2))
                         :: out))
            | _ =>
                bind (a2b_loop rest 0 0 0 (written + 1))
                  (fun out =>
                     OK (byte_of_N (N.lor (N.shiftl leftchar 6) v) :: out))
            end
        end
  end.

Definition a2b_base64 (s : bytes) : result bytes := a2b_loop s 0 0 0 0.

(** [bytes.translate] with the two tables of the [base64] module. *)
Definition urlsafe_encode_translation (c : byte) : byte :=
  if decide (c = "+"%byte) then "-"%byte
  else if decide (c = "/"%byte) then "_"%byte
  else c.

Definition urlsafe_decode_translation (c : byte) : byte :=
  if decide (c = "-"%byte) then "+"%byte
  else if decide (c = "_"%byte) then "/"%byte
  else c.

(** [base64.urlsafe_b64encode(s)] *)
Definition urlsafe_b64encode (s : bytes) : bytes :=
  map urlsafe_encode_translation (b2a_base64 s).

(** [base64.urlsafe_b64decode(s)] for a [bytes] argument *)
Definition urlsafe_b64decode (s : bytes) : result bytes :=
  a2b_base64 (map urlsafe_decode_translation s).

End Base64.
Export Base64.

Example b64_foobar :
  urlsafe_b64encode (str_encode "foobar") = str_encode "Zm9vYmFy"
  /\ urlsafe_b64encode (str_encode "fo") = str_encode "Zm8="
  /\ urlsafe_b64encode [xfb; xff] = str_encode "-_8="
  /\ urlsafe_b64decode (str_encode "Zm9vYg==") = OK (str_encode "foob")
  /\ urlsafe_b64decode (str_encode "-_8=") = OK [xfb; xff]
  /\ urlsafe_b64decode (str_encode "") = OK []
  /\ urlsafe_b64decode (str_encode "Zm9v@Yg") =
       Raise (Exn binascii_Error "Incorrect padding")
  /\ urlsafe_b64decode (str_encode "Zm9vY") =
       Raise (Exn binascii_Error
                "Invalid base64-encoded string: number of data characters (5) cannot be 1 more than a multiple of 4").
Proof. vm_compute. repeat split. Qed.

(* ===================================================================== *)
(** ** Facts about bytes and base64 *)
(* ===================================================================== *)

Module BytesFacts.

Local Open Scope N_scope.

(** Every byte, for properties of one or two bytes that are settled by
    evaluation. *)
Definition all_bytes : bytes := map (fun n => byte_of_N (N.of_nat n)) (seq 0 256).

Definition for_all_bytes (f : byte -> bool) : bool := forallb f all_bytes.

Lemma byte_of_to_N (b : byte) : byte_of_N (Byte.to_N b) = b.
Proof.
  unfold byte_of_N.
  pose proof (Byte.to_N_bounded b) as Hb.
  rewrite N.mod_small by lia.
  now rewrite Byte.of_to_N.
Qed.

Lemma to_N_byte_of_N (n : N) : Byte.to_N (byte_of_N n) = n mod 256.
Proof.
  unfold byte_of_N.
  assert (Hlt : n mod 256 < 256) by (apply N.mod_lt; lia).
  destruct (Byte.of_N (n mod 256)) as [y|] eqn:E.
  - simpl. now apply Byte.to_of_N.
  - exfalso.
    pose proof (Byte.to_of_N_option_map (n mod 256)) as H.
    rewrite E in H. simpl in H.
    destruct (N.leb_spec (n mod 256) 255); [discriminate | lia].
Qed.

Lemma all_bytes_complete (b : byte) : In b all_bytes.
Proof.
  unfold all_bytes. apply in_map_iff.
  exists (N.to_nat (Byte.to_N b)). split.
  - rewrite N2Nat.id. apply byte_of_to_N.
  - apply in_seq. pose proof (Byte.to_N_bounded b). lia.
Qed.

Lemma for_all_bytes_spec (f : byte -> bool) :
  for_all_bytes f = true -> forall b, f b = true.
Proof.
  unfold for_all_bytes. rewrite forallb_forall.
  intros H b. apply H, all_bytes_complete.
Qed.

Lemma for_all_bytes2_spec (f : byte -> byte -> bool) :
  for_all_bytes (fun a => for_all_bytes (f a)) = true ->
  forall a b, f a b = true.
Proof.
  intros H a b.
  apply (for_all_bytes_spec (f a)).
  apply (for_all_bytes_spec (fun a => for_all_bytes (f a)) H).
Qed.

(** Induction on [bytes] three at a time, the recursion of [b2a_base64]. *)
Lemma bytes_ind3 (P : bytes -> Prop) :
  P [] ->
  (forall a, P [a]) ->
  (forall a b, P [a; b]) ->
  (forall a b c rest, P rest -> P (a :: b :: c :: rest)) ->
  forall s, P s.
Proof.
  intros H0 H1 H2 H3.
  fix IH 1.
  intros [|a [|b [|c rest]]].
  - exact H0.
  - apply H1.
  - apply H2.
  - apply H3, IH.
Qed.

End BytesFacts.
Import BytesFacts.

Module Base64Facts.

Local Open Scope N_scope.

(** The character written for a sextet, after both translations. *)
Definition wire_char (v : N) : byte :=
  urlsafe_decode_translation (urlsafe_encode_translation (b2a v)).

Definition sextets : list N := map N.of_nat (seq 0 64).

Lemma sextets_complete (v : N) : v < 64 -> In v sextets.
Proof.
  intros H. unfold sextets. apply in_map_iff.
  exists (N.to_nat v). split; [apply N2Nat.id | apply in_seq; lia].
Qed.

Lemma wire_char_value (v : N) :
  v < 64 -> table_a2b_base64 (wire_char v) = Some v.
Proof.
  intros H.
  assert (Hall : forallb
            (fun v => bool_decide (table_a2b_base64 (wire_char v) = Some v))
            sextets = true) by (vm_compute; reflexivity).
  rewrite forallb_forall in Hall.
  specialize (Hall v (sextets_complete v H)).
  now apply bool_decide_eq_true in Hall.
Qed.

Lemma wire_char_not_pad (v : N) : v < 64 -> wire_char v <> BASE64_PAD.
Proof.
  intros H.
  assert (Hall : forallb
            (fun v => bool_decide (wire_char v <> BASE64_PAD))
            sextets = true) by (vm_compute; reflexivity).
  rewrite forallb_forall in Hall.
  specialize (Hall v (sextets_complete v H)).
  now apply bool_decide_eq_true in Hall.
Qed.

(** The characters of the URL-safe alphabet are ASCII. *)
Lemma urlsafe_char_ascii (v : N) :
  v < 64 -> Byte.to_N (urlsafe_encode_translation (b2a v)) < 0x80.
Proof.
  intros H.
  assert (Hall : forallb
            (fun v => Byte.to_N (urlsafe_encode_translation (b2a v)) <? 0x80)
            sextets = true) by (vm_compute; reflexivity).
  rewrite forallb_forall in Hall.
  specialize (Hall v (sextets_complete v H)).
  now apply N.ltb_lt.
Qed.

(** The four sextets of a group. *)
Definition sx0 (a : byte) : N := N.shiftr (Byte.to_N a) 2.
Definition sx1 (a b : byte) : N :=
  N.lor (N.shiftl (N.land (Byte.to_N a) 3) 4) (N.shiftr (Byte.to_N b) 4).
Definition sx1_last (a : byte) : N := N.shiftl (N.land (Byte.to_N a) 3) 4.
Definition sx2 (b c : byte) : N :=
  N.lor (N.shiftl (N.land (Byte.to_N b) 15) 2) (N.shiftr (Byte.to_N c) 6).
Definition sx2_last (b : byte) : N := N.shiftl (N.land (Byte.to_N b) 15) 2.
Definition sx3 (c : byte) : N := N.land (Byte.to_N c) 63.

Lemma sextet_bounds (a b : byte) :
  sx0 a < 64 /\ sx1 a b < 64 /\ sx1_last a < 64 /\ sx2 a b < 64
  /\ sx2_last a < 64 /\ sx3 a < 64.
Proof.
  pose proof (for_all_bytes2_spec
    (fun a b => (sx0 a <? 64) && (sx1 a b <? 64) && (sx1_last a <? 64)
                && (sx2 a b <? 64) && (sx2_last a <? 64) && (sx3 a <? 64))) as H.
  specialize (H ltac:(vm_compute; reflexivity) a b).
  repeat (apply andb_prop in H; destruct H as [H ?]).
  repeat split; now apply N.ltb_lt.
Qed.

(** What the decoder rebuilds from two consecutive sextets. *)
Lemma rebuild_first (a b : byte) :
  byte_of_N (N.lor (N.shiftl (sx0 a) 2) (N.shiftr (sx1 a b) 4)) = a
  /\ byte_of_N (N.lor (N.shiftl (sx0 a) 2) (N.shiftr (sx1_last a) 4)) = a.
Proof.
  pose proof (for_all_bytes2_spec
    (fun a b =>
       bool_decide
         (byte_of_N (N.lor (N.shiftl (sx0 a) 2) (N.shiftr (sx1 a b) 4)) = a)
       && bool_decide
         (byte_of_N (N.lor (N.shiftl (sx0 a) 2) (N.shiftr (sx1_last a) 4)) = a)))
    as H.
  specialize (H ltac:(vm_compute; reflexivity) a b).
  apply andb_prop in H. destruct H as [H1 H2].
  split; now apply bool_decide_eq_true in H1, H2.
Qed.

Lemma carry_second (a b : byte) :
  N.land (sx1 a b) 0x0f = N.shiftr (Byte.to_N b) 4
  /\ N.land (sx1_last a) 0x0f = 0.
Proof.
  pose proof (for_all_bytes2_spec
    (fun a b =>
       (N.land (sx1 a b) 0x0f =? N.shiftr (Byte.to_N b) 4)
       && (N.land (sx1_last a) 0x0f =? 0))) as H.
  specialize (H ltac:(vm_compute; reflexivity) a b).
  apply andb_prop in H. destruct H as [H1 H2].
  split; now apply N.eqb_eq.
Qed.

Lemma rebuild_second (b c : byte) :
  byte_of_N (N.lor (N.shiftl (N.shiftr (Byte.to_N b) 4) 4)
                   (N.shiftr (sx2 b c) 2)) = b
  /\ byte_of_N (N.lor (N.shiftl (N.shiftr (Byte.to_N b) 4) 4)
                      (N.shiftr (sx2_last b) 2)) = b.
Proof.
  pose proof (for_all_bytes2_spec
    (fun b c =>
       bool_decide
         (byte_of_N (N.lor (N.shiftl (N.shiftr (Byte.to_N b) 4) 4)
                           (N.shiftr (sx2 b c) 2)) = b)
       && bool_decide
         (byte_of_N (N.lor (N.shiftl (N.shiftr (Byte.to_N b) 4) 4)
                           (N.shiftr (sx2_last b) 2)) = b))) as H.
  specialize (H ltac:(vm_compute; reflexivity) b c).
  apply andb_prop in H. destruct H as [H1 H2].
  split; now apply bool_decide_eq_true in H1, H2.
Qed.

Lemma rebuild_third (b c : byte) :
  byte_of_N (N.lor (N.shiftl (N.land (sx2 b c) 0x03) 6) (sx3 c)) = c.
Proof.
  pose proof (for_all_bytes2_spec
    (fun b c =>
       bool_decide
         (byte_of_N (N.lor (N.shiftl (N.land (sx2 b c) 0x03) 6) (sx3 c)) = c)))
    as H.
  specialize (H ltac:(vm_compute; reflexivity) b c).
  now apply bool_decide_eq_true in H.
Qed.

(** The text that [urlsafe_b64decode] hands to [a2b_base64] when it is
    given the output of [urlsafe_b64encode]. *)
Definition wire (s : bytes) : bytes :=
  map urlsafe_decode_translation (urlsafe_b64encode s).

Lemma wire_group (a b c : byte) (rest : bytes) :
  wire (a :: b :: c :: rest) =
  wire_char (sx0 a) :: wire_char (sx1 a b) :: wire_char (sx2 b c)
  :: wire_char (sx3 c) :: wire rest.
Proof. reflexivity. Qed.

Lemma wire_last1 (a : byte) :
  wire [a] = [wire_char (sx0 a); wire_char (sx1_last a); BASE64_PAD; BASE64_PAD].
Proof. reflexivity. Qed.

Lemma wire_last2 (a b : byte) :
  wire [a; b] =
  [wire_char (sx0 a); wire_char (sx1 a b); wire_char (sx2_last b); BASE64_PAD].
Proof. reflexivity. Qed.

(** One turn of the decoder's loop on an alphabet character. *)
Lemma a2b_loop_char (v : N) (rest : bytes) (q : nat) (l : N) (p : nat) (w : N) :
  v < 64 ->
  a2b_loop (wire_char v :: rest) q l p w =
  match q with
  | O => a2b_loop rest 1 v 0 w
  | 1%nat =>
      bind (a2b_loop rest 2 (N.land v 0x0f) 0 (w + 1))
        (fun out => OK (byte_of_N (N.lor (N.shiftl l 2) (N.shiftr v 4)) :: out))
  | 2%nat =>
      bind (a2b_loop rest 3 (N.land v 0x03) 0 (w + 1))
        (fun out => OK (byte_of_N (N.lor (N.shiftl l 4) (N.shiftr v 2)) :: out))
  | _ =>
      bind (a2b_loop rest 0 0 0 (w + 1))
        (fun out => OK (byte_of_N (N.lor (N.shiftl l 6) v) :: out))
  end.
Proof.
  intros Hv.
  change (a2b_loop (wire_char v :: rest) q l p w) with
    (if decide (wire_char v = BASE64_PAD) then
       if (2 <=? q)%nat then
         if (4 <=? q + S p)%nat then OK []
         else a2b_loop rest q l (S p) w
       else a2b_loop rest q l p w
     else
       match table_a2b_base64 (wire_char v) with
       | None => a2b_loop rest q l p w
       | Some v =>
           match q with
           | O => a2b_loop rest 1 v 0 w
           | 1%nat =>
               bind (a2b_loop rest 2 (N.land v 0x0f) 0 (w + 1))
                 (fun out =>
                    OK (byte_of_N (N.lor (N.shiftl l 2) (N.shiftr v 4)) :: out))
           | 2%nat =>
               bind (a2b_loop rest 3 (N.land v 0x03) 0 (w + 1))
                 (fun out =>
                    OK (byte_of_N (N.lor (N.shiftl l 4) (N.shiftr v 2)) :: out))
           | _ =>
               bind (a2b_loop rest 0 0 0 (w + 1))
                 (fun out => OK (byte_of_N (N.lor (N.shiftl l 6) v) :: out))
           end
       end).
  destruct (decide (wire_char v = BASE64_PAD)) as [E|_].
  - now apply wire_char_not_pad in E.
  - now rewrite (wire_char_value v Hv).
Qed.

(** One turn of the loop on a pad character. *)
Lemma a2b_loop_pad (rest : bytes) (q : nat) (l : N) (p : nat) (w : N) :
  a2b_loop (BASE64_PAD :: rest) q l p w =
  if (2 <=? q)%nat then
    if (4 <=? q + S p)%nat then OK []
    else a2b_loop rest q l (S p) w
  else a2b_loop rest q l p w.
Proof. reflexivity. Qed.

(** Decoding inverts encoding, from any count of bytes already written. *)
Lemma a2b_loop_wire (s : bytes) :
  forall w, a2b_loop (wire s) 0 0 0 w = OK s.
Proof.
  induction s as [|a|a b|a b c rest IH] using bytes_ind3; intros w.
  - reflexivity.
  - rewrite wire_last1.
    destruct (sextet_bounds a a) as (H0 & _ & H1 & _).
    rewrite (a2b_loop_char _ _ _ _ _ _ H0), (a2b_loop_char _ _ _ _ _ _ H1).
    rewrite !a2b_loop_pad. cbn [Nat.leb Nat.add bind].
    now rewrite (proj2 (rebuild_first a a)).
  - rewrite wire_last2.
    destruct (sextet_bounds a b) as (H0 & H1 & _).
    destruct (sextet_bounds b b) as (_ & _ & _ & _ & H2 & _).
    rewrite (a2b_loop_char _ _ _ _ _ _ H0), (a2b_loop_char _ _ _ _ _ _ H1),
      (a2b_loop_char _ _ _ _ _ _ H2).
    rewrite a2b_loop_pad. cbn [Nat.leb Nat.add bind].
    rewrite (proj1 (carry_second a b)).
    rewrite (proj1 (rebuild_first a b)), (proj2 (rebuild_second b b)).
    reflexivity.
  - rewrite wire_group.
    destruct (sextet_bounds a b) as (H0 & H1 & _).
    destruct (sextet_bounds b c) as (_ & _ & _ & H2 & _).
    destruct (sextet_bounds c c) as (_ & _ & _ & _ & _ & H3).
    rewrite (a2b_loop_char _ _ _ _ _ _ H0), (a2b_loop_char _ _ _ _ _ _ H1),
      (a2b_loop_char _ _ _ _ _ _ H2), (a2b_loop_char _ _ _ _ _ _ H3).
    rewrite IH. cbn [bind].
    rewrite (proj1 (carry_second a b)).
    rewrite (proj1 (rebuild_first a b)), (proj1 (rebuild_second b c)),
      (rebuild_third b c).
    reflexivity.
Qed.

(** [urlsafe_b64decode(urlsafe_b64encode(s)) == s] *)
Lemma urlsafe_b64decode_encode (s : bytes) :
  urlsafe_b64decode (urlsafe_b64encode s) = OK s.
Proof. apply (a2b_loop_wire s 0). Qed.

(** The output of [urlsafe_b64encode] is ASCII text. *)
Lemma urlsafe_b64encode_ascii (s : bytes) : is_ascii (urlsafe_b64encode s).
Proof.
  assert (Hpad : Byte.to_N (urlsafe_encode_translation BASE64_PAD) < 0x80)
    by (vm_compute; reflexivity).
  unfold is_ascii.
  induction s as [|a|a b|a b c rest IH] using bytes_ind3.
  - constructor.
  - destruct (sextet_bounds a a) as (H0 & _ & H1 & _).
    repeat constructor;
      first [exact Hpad | apply urlsafe_char_ascii; assumption].
  - destruct (sextet_bounds a b) as (H0 & H1 & _).
    destruct (sextet_bounds b b) as (_ & _ & _ & _ & H2 & _).
    repeat constructor;
      first [exact Hpad | apply urlsafe_char_ascii; assumption].
  - destruct (sextet_bounds a b) as (H0 & H1 & _).
    destruct (sextet_bounds b c) as (_ & _ & _ & H2 & _).
    destruct (sextet_bounds c c) as (_ & _ & _ & _ & _ & H3).
    change (urlsafe_b64encode (a :: b :: c :: rest)) with
      (urlsafe_encode_translation (b2a (sx0 a))
       :: urlsafe_encode_translation (b2a (sx1 a b))
       :: urlsafe_encode_translation (b2a (sx2 b c))
       :: urlsafe_encode_translation (b2a (sx3 c))
       :: urlsafe_b64encode rest).
    repeat (constructor; [apply urlsafe_char_ascii; assumption|]).
    exact IH.
Qed.

End Base64Facts.

Module StrFacts.

(** ASCII bytes are valid UTF-8. *)
Lemma utf8_valid_ascii (b : bytes) : is_ascii b -> utf8_valid b = true.
Proof.
  unfold utf8_valid. induction 1 as [|x b Hx _ IH]; [reflexivity|].
  cbn [utf8_run utf8_step].
  apply N.ltb_lt in Hx. now rewrite Hx.
Qed.

Lemma bytes_decode_ascii (b : bytes) :
  is_ascii b -> bytes_decode b = OK (string_of_list_byte b).
Proof.
  intros H. unfold bytes_decode. now rewrite utf8_valid_ascii.
Qed.

(** Decoding what [str.encode] produced gives the [str] back, and encoding a
    decoded text gives its bytes back. *)
Lemma bytes_decode_encode (s : string) :
  is_str s -> bytes_decode (str_encode s) = OK s.
Proof.
  unfold is_str, bytes_decode, str_encode. intros ->.
  now rewrite string_of_list_byte_of_string.
Qed.

Lemma str_encode_decode (b : bytes) (s : string) :
  bytes_decode b = OK s -> str_encode s = b.
Proof.
  unfold bytes_decode, str_encode.
  destruct (utf8_valid b); [|discriminate].
  intros [= <-]. apply list_byte_of_string_of_list_byte.
Qed.

End StrFacts.

(* ===================================================================== *)
(** ** client/crypto_utils.py *)
(* ===================================================================== *)

Notation "'let!' x := e 'in' k" := (bind e (fun x => k))
  (at level 10, x name, e at level 100, k at level 200, only parsing).

(** [try: body except InvalidTag: raise replacement except Exception: raise] *)
Definition reraise_InvalidTag_as {A} (replacement : exn) (body : result A)
    : result A :=
  match body with
  | OK a => OK a
  | Raise e =>
      if decide (exn_class_of e = InvalidTag) then Raise replacement
      else Raise e
  end.

(** The bit [j] of the byte at index [i] inverted; [bs] itself when [i] is
    out of range. *)
Definition flip_byte (j : N) (b : byte) : byte :=
  byte_of_N (N.lxor (Byte.to_N b) (N.shiftl 1 j)).

Fixpoint flip_bit (i : nat) (j : N) (bs : bytes) : bytes :=
  match bs with
  | [] => []
  | b :: rest =>
      match i with
      | O => flip_byte j b :: rest
      | S i' => b :: flip_bit i' j rest
      end
  end.

(** The attributes of an [RSAPublicKey] object of the [cryptography]
    package that are methods or properties of its public interface. *)
Inductive RSAPublicKey_attr :=
  | attr_encrypt
  | attr_key_size
  | attr_public_numbers
  | attr_public_bytes
  | attr_verify
  | attr_recover_data_from_signature.

(** Attribute lookup [key.<name>] on an [RSAPublicKey]. *)
Definition RSAPublicKey_getattr (name : string) : result RSAPublicKey_attr :=
  if decide (name = "encrypt") then OK attr_encrypt
  else if decide (name = "key_size") then OK attr_key_size
  else if decide (name = "public_numbers") then OK attr_public_numbers
  else if decide (name = "public_bytes") then OK attr_public_bytes
  else if decide (name = "verify") then OK attr_verify
  else if decide (name = "recover_data_from_signature")
       then OK attr_recover_data_from_signature
  else Raise (Exn AttributeError
                ("'RSAPublicKey' object has no attribute '" ++ name ++ "'")).

Definition not_ready_error : exn :=
  Exn ValueError "AES key not initialized. Perform key exchange first.".

Definition integrity_error : exn :=
  Exn ValueError "Decryption failed: data integrity check failed".

(** *** What the code takes from outside

    The operating system's entropy source, the RSA primitives of the
    [cryptography] package and the GCM transformation are an interface of
    the development.  [World] is the state of everything outside the Python
    process that the calls read or change. *)
Class Platform := {
  World : Type;
  (** [os.urandom(n)] *)
  os_urandom : nat -> World -> bytes * World;
  RSAPrivateKey : Type;
  RSAPublicKey : Type;
  (** [rsa.generate_private_key(public_exponent=65537, key_size=2048, ...)] *)
  rsa_generate_private_key : World -> RSAPrivateKey * World;
  (** [private_key.public_key()] *)
  rsa_public_key : RSAPrivateKey -> RSAPublicKey;
  (** [public_key.public_bytes(Encoding.PEM, PublicFormat.SubjectPublicKeyInfo)] *)
  rsa_public_bytes : RSAPublicKey -> bytes;
  (** [serialization.load_pem_public_key(data)] *)
  load_pem_public_key : bytes -> result RSAPublicKey;
  (** [public_key.encrypt(m, OAEP(MGF1(SHA256), SHA256, None))]; the padding
      is randomised. *)
  rsa_oaep_encrypt : RSAPublicKey -> bytes -> World -> result bytes * World;
  (** [private_key.decrypt(c, OAEP(MGF1(SHA256), SHA256, None))] *)
  rsa_oaep_decrypt : RSAPrivateKey -> bytes -> result bytes;
  (** AES-GCM proper, for a key and a nonce of lengths the package accepts:
      [gcm_seal key nonce plaintext] is the ciphertext followed by the
      16-byte tag, [gcm_open key nonce data] is [None] when the tag does
      not validate. *)
  gcm_seal : bytes -> bytes -> bytes -> bytes;
  gcm_open : bytes -> bytes -> bytes -> option bytes;
}.

Section Crypto.

Context `{Platform}.

(** *** [cryptography.hazmat.primitives.ciphers.aead.AESGCM]

    The parameter checks that the package makes around the cipher.  (It also
    refuses data longer than [2**31 - 1] bytes with [OverflowError];
    payloads of that size are outside this model.) *)

Definition aes_key_ok (key : bytes) : bool :=
  (length key =? 16)%nat || (length key =? 24)%nat || (length key =? 32)%nat.

Definition nonce_ok (nonce : bytes) : bool :=
  (8 <=? length nonce)%nat && (length nonce <=? 128)%nat.

(** [AESGCM(key)]: the object keeps the key. *)
Definition AESGCM (key : bytes) : result bytes :=
  if aes_key_ok key then OK key
  else Raise (Exn ValueError "AESGCM key must be 128, 192, or 256 bits.").

Definition check_params (nonce : bytes) : result unit :=
  if nonce_ok nonce then OK tt
  else Raise (Exn ValueError "Nonce must be between 8 and 128 bytes").

(** [aesgcm.encrypt(nonce, data, None)] *)
Definition AESGCM_encrypt (aesgcm nonce data : bytes) : result bytes :=
  let! _ := check_params nonce in
  OK (gcm_seal aesgcm nonce data).

(** [aesgcm.decrypt(nonce, data, None)] *)
Definition AESGCM_decrypt (aesgcm nonce data : bytes) : result bytes :=
  let! _ := check_params nonce in
  if (length data <? 16)%nat then Raise (Exn InvalidTag "")
  else match gcm_open aesgcm nonce data with
       | Some plaintext => OK plaintext
       | None => Raise (Exn InvalidTag "")
       end.

(** *** class [CryptoSession] *)

Record CryptoSession := {
  private_key : RSAPrivateKey;
  public_key : RSAPublicKey;
  aes_key : option bytes;
}.

Definition set_aes_key (self : CryptoSession) (k : bytes) : CryptoSession :=
  {| private_key := private_key self;
     public_key := public_key self;
     aes_key := Some k |}.

(** [CryptoSession.__init__] *)
Definition CryptoSession_init (w : World) : CryptoSession * World :=
  let '(sk, w1) := rsa_generate_private_key w in
  ({| private_key := sk; public_key := rsa_public_key sk; aes_key := None |},
   w1).

(** A method call that passes [encoding=] and [format=]: only
    [public_bytes] takes these keywords. *)
Definition call_with_encoding_format (attr : RSAPublicKey_attr)
    (key : RSAPublicKey) : result bytes :=
  match attr with
  | attr_public_bytes => OK (rsa_public_bytes key)
  | attr_key_size =>
      Raise (Exn TypeError "'int' object is not callable")
  | _ => Raise (Exn TypeError "got an unexpected keyword argument 'encoding'")
  end.

(** [CryptoSession.get_public_key_pem]: the method it calls on the key is
    named [serialize]. *)
Definition get_public_key_pem (self : CryptoSession) : result string :=
  let! serialize := RSAPublicKey_getattr "serialize" in
  let! public_pem := call_with_encoding_format serialize (public_key self) in
  bytes_decode public_pem.

(** [CryptoSession.decrypt_rsa]: the handler logs and re-raises. *)
Definition decrypt_rsa (self : CryptoSession) (encrypted_data : bytes)
    : result bytes :=
  rsa_oaep_decrypt (private_key self) encrypted_data.

(** [CryptoSession.exchange_aes_key]: the outcome and the object after the
    call. *)
Definition exchange_aes_key (self : CryptoSession) (encrypted_aes_key : string)
    : result unit * CryptoSession :=
  match urlsafe_b64decode (str_encode encrypted_aes_key) with
  | Raise e => (Raise e, self)
  | OK encrypted_bytes =>
      match decrypt_rsa self encrypted_bytes with
      | Raise e => (Raise e, self)
      | OK aes_key_bytes => (OK tt, set_aes_key self aes_key_bytes)
      end
  end.

(** [CryptoSession.generate_and_encrypt_aes_key]: the key is stored before
    the peer's public key is loaded. *)
Definition generate_and_encrypt_aes_key (self : CryptoSession)
    (remote_public_key_pem : string) (w : World)
    : result string * CryptoSession * World :=
  let '(aes_key_bytes, w1) := os_urandom 32 w in
  let self1 := set_aes_key self aes_key_bytes in
  match load_pem_public_key (str_encode remote_public_key_pem) with
  | Raise e => (Raise e, self1, w1)
  | OK remote_pub_key =>
      match rsa_oaep_encrypt remote_pub_key aes_key_bytes w1 with
      | (Raise e, w2) => (Raise e, self1, w2)
      | (OK encrypted_aes, w2) =>
          (bytes_decode (urlsafe_b64encode encrypted_aes), self1, w2)
      end
  end.

(** [CryptoSession.encrypt_payload] *)
Definition encrypt_payload (self : CryptoSession) (plaintext : string)
    (w : World) : result string * World :=
  if negb (truthy (aes_key self)) then (Raise not_ready_error, w)
  else
    let key := default [] (aes_key self) in
    let plaintext_bytes := str_encode plaintext in
    let '(nonce, w1) := os_urandom 12 w in
    (let! aesgcm := AESGCM key in
     let! ciphertext := AESGCM_encrypt aesgcm nonce plaintext_bytes in
     let full_ciphertext := (nonce ++ ciphertext)%list in
     bytes_decode (urlsafe_b64encode full_ciphertext),
     w1).

(** [CryptoSession.decrypt_payload] *)
Definition decrypt_payload (self : CryptoSession) (encrypted_b64 : string)
    : result string :=
  if negb (truthy (aes_key self)) then Raise not_ready_error
  else
    let key := default [] (aes_key self) in
    reraise_InvalidTag_as integrity_error
      (let! full_ciphertext := urlsafe_b64decode (str_encode encrypted_b64) in
       let nonce := slice_to 12 full_ciphertext in
       let ciphertext := slice_from 12 full_ciphertext in
       let! aesgcm := AESGCM key in
       let! plaintext_bytes := AESGCM_decrypt aesgcm nonce ciphertext in
       bytes_decode plaintext_bytes).

End Crypto.

(* ===================================================================== *)
(** ** compute/compute_node.py *)
(* ===================================================================== *)

(** JSON documents, as [json.loads] builds them and [json.dumps] takes
    them.  A number is kept as an integer: the only non-integer number the
    handler produces is the measured duration, which stays in clock ticks. *)
#[warnings="-register-all"]
Inductive json :=
  | JNull
  | JBool (b : bool)
  | JNum (z : Z)
  | JStr (s : string)
  | JList (l : list json)
  | JDict (d : list (string * json)).

Fixpoint assoc (key : string) (d : list (string * json)) : option json :=
  match d with
  | [] => None
  | (k, v) :: d' => if decide (k = key) then Some v else assoc key d'
  end.

(** [data.get(key)]: [AttributeError] unless [data] is a dict. *)
Definition json_get (data : json) (key : string) : result (option json) :=
  match data with
  | JDict d => OK (assoc key d)
  | _ => Raise (Exn AttributeError "object has no attribute 'get'")
  end.

(** [data.get(key, dflt)] *)
Definition json_get_default (data : json) (key : string) (dflt : json)
    : result json :=
  let! v := json_get data key in
  OK (default dflt v).

(** [data[key]] on a dict *)
Definition json_getitem (data : json) (key : string) : result json :=
  match data with
  | JDict d =>
      match assoc key d with
      | Some v => OK v
      | None => Raise (Exn KeyError ("'" ++ key ++ "'"))
      end
  | _ => Raise (Exn TypeError "indices must be integers or slices, not str")
  end.

(** [v == 'literal'] for the value of a [get] *)
Definition py_eq_str (v : option json) (literal : string) : bool :=
  match v with
  | Some (JStr s) => bool_decide (s = literal)
  | _ => false
  end.

(** [len(v)] *)
Definition py_len (v : json) : result nat :=
  match v with
  | JStr s => OK (String.length s)
  | JList l => OK (length l)
  | JDict d => OK (length d)
  | _ => Raise (Exn TypeError "object has no len()")
  end.

(** The result dictionary of [_execute_in_sandbox] and [_run_command]. *)
Record ExecutionResult := {
  exit_code : Z;
  stdout : string;
  stderr : string;
  execution_time : Z;
}.

(** What the node does to the outside, in order. *)
Inductive io_event {Channel : Type} :=
  | EvSend (channel : Channel) (text : string)   (* channel.send(text) *)
  | EvClose (channel : Channel)                  (* channel.close() *)
  | EvConnect (url : string)                     (* sio.connect(url, ...) *)
  | EvSleep (seconds : Z).                       (* asyncio.sleep(seconds) *)
Arguments io_event : clear implicits.

(** The libraries and the host of the compute node: the JSON codec, the
    clock, the data channel and peer connection of the transport, the
    temporary file, the child process, the relay client. *)
Class NodeHost `{Platform} := {
  json_loads : string -> result json;
  json_dumps : json -> string;
  (** [time.time()] *)
  time_time : World -> Z;
  PeerConnection : Type;
  Channel : Type;
  (** [await channel.send(text)]: the call and the [await] of what it
      returned.  Where [send] is a plain method, as that of aiortc's
      [RTCDataChannel] is, the text is sent and the [await] raises
      [TypeError]. *)
  channel_send : Channel -> string -> World -> result unit * World;
  (** [await channel.close()], likewise *)
  channel_close : Channel -> World -> result unit * World;
  (** [with tempfile.NamedTemporaryFile(mode='w', suffix='.py',
      delete=False) as f: f.write(code)], giving [f.name] *)
  write_temp_file : json -> World -> result string * World;
  (** [await asyncio.wait_for(self._run_command(cmd), timeout=35.0)], giving
      the return code and the two decoded streams; the time limit raises
      [asyncio.TimeoutError] *)
  run_command_wait_for :
    list string -> World -> result (Z * string * string) * World;
  (** [os.unlink(path)], whose errors the caller discards *)
  os_unlink : string -> World -> World;
  (** [await self.sio.connect(url, transports=[...], wait_timeout=10)] *)
  sio_connect : string -> World -> result unit * World;
  (** [await asyncio.sleep(seconds)] *)
  asyncio_sleep : Z -> World -> World;
}.

Section ComputeNode.

Context `{NodeHost}.

(** One entry of [self.sessions]. *)
Record session_data := {
  pc : PeerConnection;
  channel : Channel;
  crypto : CryptoSession;
  remote_public_key : option json;
}.

(** The attributes of [NeuraXComputeNode] that the modelled methods use. *)
Record NeuraXComputeNode := {
  signaling_url : string;
  reconnect_count : nat;
  docker_available : bool;
  sessions : gmap string session_data;
}.

(** The node, the world around it, and what it has done to the world. *)
Record NodeSt := {
  node : NeuraXComputeNode;
  world : World;
  trace : list (io_event Channel);
}.

(** A computation of the node: it may change the state and may raise; what
    it changed before raising stays changed. *)
Definition NodeM (A : Type) : Type := NodeSt -> result A * NodeSt.

Definition ret {A} (a : A) : NodeM A := fun st => (OK a, st).

Definition bindM {A B} (m : NodeM A) (k : A -> NodeM B) : NodeM B :=
  fun st =>
    match m st with
    | (OK a, st') => k a st'
    | (Raise e, st') => (Raise e, st')
    end.

Definition lift {A} (r : result A) : NodeM A := fun st => (r, st).

Definition get_node : NodeM NeuraXComputeNode := fun st => (OK (node st), st).

Definition set_sessions (f : gmap string session_data -> gmap string session_data)
    : NodeM unit :=
  fun st =>
    (OK tt,
     {| node := {| signaling_url := signaling_url (node st);
                   reconnect_count := reconnect_count (node st);
                   docker_available := docker_available (node st);
                   sessions := f (sessions (node st)) |};
        world := world st;
        trace := trace st |}).

Definition incr_reconnect_count : NodeM unit :=
  fun st =>
    (OK tt,
     {| node := {| signaling_url := signaling_url (node st);
                   reconnect_count := S (reconnect_count (node st));
                   docker_available := docker_available (node st);
                   sessions := sessions (node st) |};
        world := world st;
        trace := trace st |}).

(** What the node's [connect] handler does to the attributes above:
    [self.reconnect_count = 0] ([self.connected], which it sets too, is
    not one of them). *)
Definition reset_reconnect_count : NodeM unit :=
  fun st =>
    (OK tt,
     {| node := {| signaling_url := signaling_url (node st);
                   reconnect_count := 0;
                   docker_available := docker_available (node st);
                   sessions := sessions (node st) |};
        world := world st;
        trace := trace st |}).

(** An operation of the host, recorded in the trace. *)
Definition host_call {A} (ev : io_event Channel)
    (op : World -> result A * World) : NodeM A :=
  fun st =>
    let '(r, w') := op (world st) in
    (r, {| node := node st; world := w'; trace := trace st ++ [ev] |}).

(** An operation on the world that leaves no event. *)
Definition world_call {A} (op : World -> result A * World) : NodeM A :=
  fun st =>
    let '(r, w') := op (world st) in
    (r, {| node := node st; world := w'; trace := trace st |}).

End ComputeNode.

Notation "'let*' x := e 'in' k" := (bindM e (fun x => k))
  (at level 10, x name, e at level 100, k at level 200, only parsing).

Section ComputeNodeMethods.

Context `{NodeHost}.

Local Open Scope Z_scope.

(** *** [NeuraXComputeNode._execute_in_sandbox] *)

Definition docker_cmd (temp_file : string) : list string :=
  ["docker"; "run"; "--rm";
   "--cpus=1";
   "--memory=1g";
   "--network=none";
   "--ulimit"; "nofile=1024:1024";
   "--timeout=30";
   "--read-only";
   "-v"; (temp_file ++ ":/tmp/task.py:ro")%string;
   "-v"; "/tmp:/tmp:rw";
   "python:3.10";
   "python"; "/tmp/task.py"].

Definition docker_unavailable_result : ExecutionResult :=
  {| exit_code := -1;
     stdout := "";
     stderr := "Docker not available. Please install Docker to enable sandbox execution.";
     execution_time := 0 |}.

(** The two handlers of the outer [try]:
    [except asyncio.TimeoutError] and [except Exception as e]. *)
Definition could_not_execute (e : exn) (start_time now : Z) : ExecutionResult :=
  if decide (exn_class_of e = asyncio_TimeoutError) then
    {| exit_code := -1;
       stdout := "";
       stderr := "Execution timeout (30 seconds)";
       execution_time := now - start_time |}
  else
    {| exit_code := -1;
       stdout := "";
       stderr := ("Execution error: " ++ exn_msg e)%string;
       execution_time := now - start_time |}.

Definition _execute_in_sandbox (code task_type : json)
    : NodeM ExecutionResult :=
  fun st =>
    let start_time := time_time (world st) in
    if negb (docker_available (node st)) then
      (OK docker_unavailable_result, st)
    else
      match world_call (write_temp_file code) st with
      | (Raise e, st1) =>
          (OK (could_not_execute e start_time (time_time (world st1))), st1)
      | (OK temp_file, st1) =>
          let '(r, st2) :=
            world_call (run_command_wait_for (docker_cmd temp_file)) st1 in
          let finished := time_time (world st2) in
          (* finally: os.unlink(temp_file) *)
          let st3 := {| node := node st2;
                        world := os_unlink temp_file (world st2);
                        trace := trace st2 |} in
          match r with
          | OK (returncode, out, err) =>
              (OK {| exit_code := returncode;
                     stdout := out;
                     stderr := err;
                     execution_time := finished - start_time |}, st3)
          | Raise e =>
              (OK (could_not_execute e start_time (time_time (world st3))),
               st3)
          end
      end.

(** *** [NeuraXComputeNode._handle_message] *)

Definition with_remote_public_key (v : json) (sd : session_data)
    : session_data :=
  {| pc := pc sd; channel := channel sd; crypto := crypto sd;
     remote_public_key := Some v |}.

Definition with_crypto (c : CryptoSession) (sd : session_data)
    : session_data :=
  {| pc := pc sd; channel := channel sd; crypto := c;
     remote_public_key := remote_public_key sd |}.

(** A mutation of the session's entry of [self.sessions]. *)
Definition update_session (session_id : string)
    (f : session_data -> session_data) : NodeM unit :=
  set_sessions (alter f session_id).

(** An argument on which the callee calls [.encode('utf-8')]. *)
Definition str_arg (v : json) : result string :=
  match v with
  | JStr s => OK s
  | _ => Raise (Exn AttributeError "object has no attribute 'encode'")
  end.

(** [crypto.exchange_aes_key(v)] on the session's [CryptoSession] object. *)
Definition session_exchange_aes_key (session_id : string) (sd : session_data)
    (v : json) : NodeM unit :=
  let* encrypted_aes_key := lift (str_arg v) in
  let '(r, crypto') := exchange_aes_key (crypto sd) encrypted_aes_key in
  let* _ := update_session session_id (with_crypto crypto') in
  lift r.

(** [crypto.decrypt_payload(v)]: the key is tested before [v] is used. *)
Definition session_decrypt_payload (sd : session_data) (v : json)
    : result string :=
  match v with
  | JStr s => decrypt_payload (crypto sd) s
  | _ =>
      if negb (truthy (aes_key (crypto sd))) then Raise not_ready_error
      else str_arg v
  end.

Definition send (ch : Channel) (message : json) : NodeM unit :=
  let text := json_dumps message in
  host_call (EvSend ch text) (channel_send ch text).

Definition handle_key_exchange (session_id : string) (sd : session_data)
    (data : json) : NodeM unit :=
  let* action := lift (json_get data "action") in
  if py_eq_str action "send_public_key" then
    let* remote := lift (json_getitem data "public_key") in
    let* _ := update_session session_id (with_remote_public_key remote) in
    let* public_key_pem := lift (get_public_key_pem (crypto sd)) in
    send (channel sd)
      (JDict [("type", JStr "key_exchange");
              ("action", JStr "send_public_key");
              ("public_key", JStr public_key_pem)])
  else if py_eq_str action "send_aes_key" then
    let* encrypted_aes_b64 := lift (json_getitem data "encrypted_aes_key") in
    let* _ := session_exchange_aes_key session_id sd encrypted_aes_b64 in
    send (channel sd)
      (JDict [("type", JStr "key_exchange");
              ("action", JStr "aes_key_received")])
  else ret tt.

Definition handle_encrypted_task (session_id : string) (sd : session_data)
    (data : json) : NodeM unit :=
  let* encrypted_data := lift (json_getitem data "encrypted_data") in
  let* plaintext := lift (session_decrypt_payload sd encrypted_data) in
  let* task_json := lift (json_loads plaintext) in
  let* code := lift (json_get_default task_json "code" (JStr "")) in
  let* task_type :=
    lift (json_get_default task_json "type" (JStr "python_code")) in
  (* the log line evaluates len(code) *)
  let* _ := lift (py_len code) in
  let* result := _execute_in_sandbox code task_type in
  let result_json :=
    json_dumps
      (JDict [("exit_code", JNum (exit_code result));
              ("stdout", JStr (stdout result));
              ("stderr", JStr (stderr result));
              ("execution_time", JNum (execution_time result))]) in
  let* encrypted_result :=
    world_call (encrypt_payload (crypto sd) result_json) in
  let* _ :=
    send (channel sd)
      (JDict [("type", JStr "encrypted_result");
              ("encrypted_data", JStr encrypted_result)]) in
  let* _ := host_call (EvClose (channel sd)) (channel_close (channel sd)) in
  set_sessions (delete session_id).

(** The body of the [try] block. *)
Definition handle_message_body (session_id message : string) : NodeM unit :=
  let* data := lift (json_loads message) in
  let* msg_type := lift (json_get data "type") in
  let* self := get_node in
  match sessions self !! session_id with
  | None => ret tt
  | Some sd =>
      if py_eq_str msg_type "key_exchange" then
        handle_key_exchange session_id sd data
      else if py_eq_str msg_type "encrypted_task" then
        handle_encrypted_task session_id sd data
      else ret tt
  end.

(** [_handle_message]: [except Exception] logs the error and returns. *)
Definition _handle_message (session_id message : string) (st : NodeSt)
    : NodeSt :=
  snd (handle_message_body session_id message st).

(** *** [NeuraXComputeNode.connect_to_signaling] *)

(** The [for attempt in range(max_retries)] loop, from the attempts that
    remain and the current [retry_delay].  When the connection is made, the
    relay client runs the node's [connect] handler before [sio.connect]
    returns. *)
Fixpoint connect_attempts (attempts : list nat) (max_retries : nat)
    (retry_delay : Z) : NodeM unit :=
  match attempts with
  | [] => ret tt
  | attempt :: rest =>
      fun st =>
        let url := signaling_url (node st) in
        match host_call (EvConnect url) (sio_connect url) st with
        | (OK _, st1) => reset_reconnect_count st1
        | (Raise e, st1) =>
            let '(_, st2) := incr_reconnect_count st1 in
            if (attempt <? max_retries - 1)%nat then
              let '(_, st3) :=
                host_call (A := unit) (EvSleep retry_delay)
                  (fun w => (OK tt, asyncio_sleep retry_delay w)) st2 in
              connect_attempts rest max_retries (Z.min (retry_delay * 2) 30)
                st3
            else
              (Raise (Exn ConnectionError
                        ("Signaling connection failed: " ++ exn_msg e)%string),
               st2)
        end
  end.

Definition connect_to_signaling : NodeM unit :=
  let max_retries := 5%nat in
  let retry_delay := 5 in
  connect_attempts (seq 0 max_retries) max_retries retry_delay.

End ComputeNodeMethods.

(* ===================================================================== *)
(** ** A reference instance of the outside *)
(* ===================================================================== *)

(** An executable stand-in for the platform and the host, small enough to
    evaluate the code on concrete inputs: a scripted world, a one-byte
    stream cipher with a checksum tag in place of AES-GCM, a key-tagging
    scheme in place of RSA-OAEP, and a JSON codec for flat objects. *)
Module Ref.

(** The world: the position in the entropy stream, the clock, and the
    outcomes that the host will give to the calls that reach it. *)
Record world := {
  cursor : nat;
  clock : Z;
  tempfile_script : result string;
  run_script : result (Z * string * string);
  connect_script : list (result unit);
}.

Definition entropy (i : nat) : byte := byte_of_N (N.of_nat (7 * i + 3)).

Definition urandom (n : nat) (w : world) : bytes * world :=
  (map entropy (seq (cursor w) n),
   {| cursor := cursor w + n; clock := clock w;
      tempfile_script := tempfile_script w; run_script := run_script w;
      connect_script := connect_script w |}).

Definition byte_xor (a b : byte) : byte :=
  byte_of_N (N.lxor (Byte.to_N a) (Byte.to_N b)).

Definition xor_all (init : byte) (l : bytes) : byte :=
  fold_right byte_xor init l.

(** The pad of the stream cipher: every byte of the key and the nonce. *)
Definition pad (key nonce : bytes) : byte := xor_all x00 (key ++ nonce).

Definition tag (key nonce body : bytes) : bytes :=
  xor_all (pad key nonce) body :: repeat x00 15.

Definition seal (key nonce plaintext : bytes) : bytes :=
  let body := map (byte_xor (pad key nonce)) plaintext in
  body ++ tag key nonce body.

Definition open (key nonce data : bytes) : option bytes :=
  let n := (length data - 16)%nat in
  let body := firstn n data in
  if decide (skipn n data = tag key nonce body)
  then Some (map (byte_xor (pad key nonce)) body)
  else None.

(** Keys are numbers; a ciphertext names the key it was made for. *)
Definition rsa_encrypt (pk : nat) (m : bytes) (w : world)
    : result bytes * world :=
  (OK (byte_of_N (N.of_nat pk) :: m), w).

Definition rsa_decrypt (sk : nat) (c : bytes) : result bytes :=
  match c with
  | b :: m =>
      if decide (b = byte_of_N (N.of_nat sk)) then OK m
      else Raise (Exn ValueError "Decryption failed")
  | [] => Raise (Exn ValueError "Ciphertext length must be equal to key size.")
  end.

Definition keygen (w : world) : nat * world :=
  (cursor w,
   {| cursor := S (cursor w); clock := clock w;
      tempfile_script := tempfile_script w; run_script := run_script w;
      connect_script := connect_script w |}).

Definition public_bytes (pk : nat) : bytes :=
  str_encode "-----BEGIN PUBLIC KEY-----" ++ [byte_of_N (N.of_nat pk)].

Definition load_pem (data : bytes) : result nat :=
  match last data with
  | Some b => OK (N.to_nat (Byte.to_N b))
  | None => Raise (Exn ValueError "Unable to load PEM file")
  end.

#[export] Instance platform : Platform := {|
  World := world;
  os_urandom := urandom;
  RSAPrivateKey := nat;
  RSAPublicKey := nat;
  rsa_generate_private_key := keygen;
  rsa_public_key := fun sk => sk;
  rsa_public_bytes := public_bytes;
  load_pem_public_key := load_pem;
  rsa_oaep_encrypt := rsa_encrypt;
  rsa_oaep_decrypt := rsa_decrypt;
  gcm_seal := seal;
  gcm_open := open;
|}.

(** *** JSON for flat objects

    [loads] reads an object whose members are strings without escapes,
    written with the separators of [json.dumps]; every other text is
    reported as malformed.  [dumps] writes the dictionaries the handler
    builds. *)

Definition quote : ascii := ascii_of_nat 34.

(** The characters up to the next double quote, and what follows it. *)
Fixpoint until_quote (s : string) : option (string * string) :=
  match s with
  | EmptyString => None
  | String c s' =>
      if decide (c = quote) then Some (EmptyString, s')
      else match until_quote s' with
           | Some (tok, rest) => Some (String c tok, rest)
           | None => None
           end
  end.

Definition skip_space (s : string) : string :=
  match s with
  | String " " s' => s'
  | _ => s
  end.

Definition expect (c : ascii) (s : string) : option string :=
  match s with
  | String c' s' => if decide (c' = c) then Some s' else None
  | EmptyString => None
  end.

(** The members of an object, after the opening brace. *)
Fixpoint members (fuel : nat) (s : string) : option (list (string * json)) :=
  match fuel with
  | O => None
  | S fuel' =>
      s1 ← expect quote s;
      '(key, s2) ← until_quote s1;
      s3 ← expect ":" s2;
      s4 ← expect quote (skip_space s3);
      '(val, s5) ← until_quote s4;
      match s5 with
      | String "}" EmptyString => Some [(key, JStr val)]
      | String "," s6 =>
          rest ← members fuel' (skip_space s6);
          Some ((key, JStr val) :: rest)
      | _ => None
      end
  end.

Definition loads (text : string) : result json :=
  match text with
  | String "{" (String "}" EmptyString) => OK (JDict [])
  | String "{" s =>
      match members (String.length s) s with
      | Some d => OK (JDict d)
      | None => Raise (Exn JSONDecodeError "Expecting value")
      end
  | _ => Raise (Exn JSONDecodeError "Expecting value")
  end.

Definition dumps_atom (v : json) : string :=
  match v with
  | JStr s => String quote s ++ String quote EmptyString
  | JNum z => pretty z
  | JBool true => "true"
  | JBool false => "false"
  | JNull => "null"
  | JList _ => "[]"
  | JDict _ => "{}"
  end.

Fixpoint dumps_members (d : list (string * json)) : string :=
  match d with
  | [] => ""
  | [(k, v)] =>
      String quote k ++ String quote ": " ++ dumps_atom v
  | (k, v) :: d' =>
      String quote k ++ String quote ": " ++ dumps_atom v ++ ", "
      ++ dumps_members d'
  end.

Definition dumps (v : json) : string :=
  match v with
  | JDict d => "{" ++ dumps_members d ++ "}"
  | _ => dumps_atom v
  end.

Definition write_temp (code : json) (w : world) : result string * world :=
  match code with
  | JStr _ => (tempfile_script w, w)
  | _ => (Raise (Exn TypeError "write() argument must be str"), w)
  end.

Definition connect (url : string) (w : world) : result unit * world :=
  match connect_script w with
  | [] => (OK tt, w)
  | r :: rest =>
      (r, {| cursor := cursor w; clock := clock w;
             tempfile_script := tempfile_script w; run_script := run_script w;
             connect_script := rest |})
  end.

Definition sleep (seconds : Z) (w : world) : world :=
  {| cursor := cursor w; clock := (clock w + seconds)%Z;
     tempfile_script := tempfile_script w; run_script := run_script w;
     connect_script := connect_script w |}.

#[export] Instance host : NodeHost := {|
  json_loads := loads;
  json_dumps := dumps;
  time_time := clock;
  PeerConnection := unit;
  Channel := nat;
  channel_send := fun _ _ w => (OK tt, w);
  channel_close := fun _ w => (OK tt, w);
  write_temp_file := write_temp;
  run_command_wait_for := fun _ w => (run_script w, w);
  os_unlink := fun _ w => w;
  sio_connect := connect;
  asyncio_sleep := sleep;
|}.

(** A world in which the host succeeds at everything. *)
Definition w0 : world :=
  {| cursor := 0; clock := 0;
     tempfile_script := OK "/tmp/tmpk3v9.py";
     run_script := OK (0%Z, "2", "");
     connect_script := [] |}.

(** A 32-byte key, and a session that holds it. *)
Definition key32 : bytes := map entropy (seq 100 32).

Definition fresh_session : CryptoSession := fst (CryptoSession_init w0).

Definition keyed_session : CryptoSession := set_aes_key fresh_session key32.

End Ref.

Example ref_loads_dumps :
  Ref.loads (Ref.dumps (JDict [("type", JStr "key_exchange");
                               ("action", JStr "aes_key_received")]))
  = OK (JDict [("type", JStr "key_exchange");
               ("action", JStr "aes_key_received")])
  /\ Ref.dumps (JDict [("type", JStr "key_exchange"); ("n", JNum 3)])
     = String "{" (String Ref.quote "type") ++ String Ref.quote ": "
       ++ String Ref.quote "key_exchange" ++ String Ref.quote ", "
       ++ String Ref.quote "n" ++ String Ref.quote ": 3}".
Proof. vm_compute. split; reflexivity. Qed.

Example ref_seal_open :
  encrypt_payload Ref.keyed_session "print(1+1)" Ref.w0
  = (OK "AwoRGB8mLTQ7QklQMDIpLjRocWtxaRsAAAAAAAAAAAAAAAAAAAA=",
     snd (Ref.urandom 12 Ref.w0))
  /\ decrypt_payload Ref.keyed_session
       "AwoRGB8mLTQ7QklQMDIpLjRocWtxaRsAAAAAAAAAAAAAAAAAAAA="
     = OK "print(1+1)".
Proof. vm_compute. split; reflexivity. Qed.

(* ===================================================================== *)
(** ** Properties of [CryptoSession] *)
(* ===================================================================== *)

Import Base64Facts StrFacts.

Section CryptoLaws.

Context `{Platform}.

(** [os.urandom(n)] returns [n] bytes. *)
Definition urandom_length : Prop :=
  forall n w, length (fst (os_urandom n w)) = n.

(** AES-GCM is correct: opening what was sealed under the same key and
    nonce gives the plaintext, and the sealed data is the plaintext's length
    plus the 16 bytes of the tag. *)
Definition gcm_correct : Prop :=
  forall key nonce plaintext,
    aes_key_ok key = true -> nonce_ok nonce = true ->
    gcm_open key nonce (gcm_seal key nonce plaintext) = Some plaintext
    /\ length (gcm_seal key nonce plaintext) = (length plaintext + 16)%nat.

(** AES-GCM authenticates under [key]: sealed data in which one bit was
    inverted does not validate.  (For the real cipher a changed tag never
    validates, and a changed ciphertext validates only under a key whose
    hash subkey is zero.) *)
Definition gcm_authentic (key : bytes) : Prop :=
  forall nonce plaintext i j,
    nonce_ok nonce = true ->
    (i < length (gcm_seal key nonce plaintext))%nat -> (j < 8)%N ->
    gcm_open key nonce (flip_bit i j (gcm_seal key nonce plaintext)) = None.

(** The text of the sealed payload [full]:
    [base64.urlsafe_b64encode(full).decode('utf-8')]. *)
Definition b64_text (full : bytes) : string :=
  string_of_list_byte (urlsafe_b64encode full).

Lemma str_encode_b64_text (full : bytes) :
  str_encode (b64_text full) = urlsafe_b64encode full.
Proof. apply list_byte_of_string_of_list_byte. Qed.

Lemma b64_text_decode (full : bytes) :
  urlsafe_b64decode (str_encode (b64_text full)) = OK full.
Proof. rewrite str_encode_b64_text. apply urlsafe_b64decode_encode. Qed.

Lemma bytes_decode_b64 (full : bytes) :
  bytes_decode (urlsafe_b64encode full) = OK (b64_text full).
Proof. apply bytes_decode_ascii, urlsafe_b64encode_ascii. Qed.

Lemma aes_key_ok_truthy (key : bytes) :
  aes_key_ok key = true -> truthy (Some key) = true.
Proof. destruct key; [discriminate | reflexivity]. Qed.

Lemma nonce_ok_12 (nonce : bytes) : length nonce = 12%nat -> nonce_ok nonce = true.
Proof. unfold nonce_ok. now intros ->. Qed.

(** [encrypt_payload] on a session that holds a key of a valid length. *)
Lemma encrypt_payload_established (self : CryptoSession) (key : bytes)
    (plaintext : string) (w : World) :
  urandom_length ->
  aes_key self = Some key -> aes_key_ok key = true ->
  encrypt_payload self plaintext w =
  (OK (b64_text (fst (os_urandom 12 w)
                 ++ gcm_seal key (fst (os_urandom 12 w)) (str_encode plaintext))),
   snd (os_urandom 12 w)).
Proof.
  intros Hlen Hkey Hok. unfold encrypt_payload.
  rewrite Hkey, (aes_key_ok_truthy key Hok). cbn [negb default from_option id].
  pose proof (Hlen 12%nat w) as Hn.
  destruct (os_urandom 12 w) as [nonce w1]. cbn [fst snd] in *.
  unfold AESGCM, AESGCM_encrypt, check_params.
  rewrite Hok, (nonce_ok_12 nonce Hn). cbn [bind].
  now rewrite bytes_decode_b64.
Qed.

(** [decrypt_payload] on such a session, once the text has been decoded. *)
Lemma decrypt_payload_established (self : CryptoSession) (key : bytes)
    (encrypted_b64 : string) (full : bytes) :
  aes_key self = Some key -> aes_key_ok key = true ->
  urlsafe_b64decode (str_encode encrypted_b64) = OK full ->
  decrypt_payload self encrypted_b64 =
  reraise_InvalidTag_as integrity_error
    (let! plaintext_bytes :=
       AESGCM_decrypt key (slice_to 12 full) (slice_from 12 full) in
     bytes_decode plaintext_bytes).
Proof.
  intros Hkey Hok Hdec. unfold decrypt_payload.
  rewrite Hkey, (aes_key_ok_truthy key Hok), Hdec. cbn [negb default from_option id bind].
  unfold AESGCM. now rewrite Hok.
Qed.

(** Every error of the base64 decoder is a [binascii.Error]. *)
Lemma a2b_loop_error (s : bytes) :
  forall q l p w e,
    a2b_loop s q l p w = Raise e -> exn_class_of e = binascii_Error.
Proof.
  induction s as [|ch rest IH]; intros q l p w e.
  - destruct q as [|[|q]]; cbn; intros [= <-]; reflexivity.
  - cbn [a2b_loop].
    destruct (decide (ch = BASE64_PAD)).
    + destruct (2 <=? q)%nat; [destruct (4 <=? q + S p)%nat|];
        try discriminate; apply IH.
    + destruct (table_a2b_base64 ch) as [v|]; [|apply IH].
      destruct q as [|[|[|q]]]; [apply IH| | |];
        (match goal with
         | |- bind ?r _ = _ -> _ => destruct r eqn:E; cbn [bind];
                                    [discriminate | intros [= <-]; eapply IH, E]
         end).
Qed.

Lemma urlsafe_b64decode_error (s : bytes) (e : exn) :
  urlsafe_b64decode s = Raise e -> exn_class_of e = binascii_Error.
Proof. apply a2b_loop_error. Qed.

Lemma flip_bit_app_r (l1 l2 : bytes) (i : nat) (j : N) :
  (length l1 <= i)%nat ->
  flip_bit i j (l1 ++ l2) = (l1 ++ flip_bit (i - length l1) j l2)%list.
Proof.
  revert i. induction l1 as [|b l1 IH]; intros i Hi; cbn [length app] in *.
  - now rewrite Nat.sub_0_r.
  - destruct i as [|i]; [lia|]. cbn [flip_bit Nat.sub].
    f_equal. apply IH. lia.
Qed.

End CryptoLaws.

Section CryptoProperties.

Context `{Platform}.

Lemma slices_of_sealed (nonce ciphertext : bytes) :
  length nonce = 12%nat ->
  slice_to 12 (nonce ++ ciphertext) = nonce
  /\ slice_from 12 (nonce ++ ciphertext) = ciphertext.
Proof.
  intros Hn. unfold slice_to, slice_from. split.
  - now apply take_app_length'.
  - now apply drop_app_length'.
Qed.

(** The key that [generate_and_encrypt_aes_key] stores has 32 bytes, a
    length that [AESGCM] accepts, whether or not the rest of the call
    succeeds. *)
Lemma generated_key_is_valid (self : CryptoSession) (pem : string) (w : World) :
  urandom_length ->
  exists key,
    aes_key (snd (fst (generate_and_encrypt_aes_key self pem w))) = Some key
    /\ aes_key_ok key = true.
Proof.
  intros Hlen. exists (fst (os_urandom 32 w)). split.
  - unfold generate_and_encrypt_aes_key.
    destruct (os_urandom 32 w) as [k w1]. cbn [fst].
    destruct (load_pem_public_key (str_encode pem)) as [pk|]; [|reflexivity].
    now destruct (rsa_oaep_encrypt pk k w1) as [[c|] w2].
  - unfold aes_key_ok. now rewrite (Hlen 32%nat w).
Qed.

(** C1.  On a session whose symmetric key is set (to a key of a length
    AES accepts: 16, 24 or 32 bytes) and for every plaintext [P],
    [encrypt_payload(P)] returns a text [e] and [decrypt_payload(e)]
    returns [P]. *)
Theorem decrypt_encrypt_round_trip (self : CryptoSession) (key : bytes)
    (P : string) (w : World) :
  urandom_length -> gcm_correct ->
  aes_key self = Some key -> aes_key_ok key = true -> is_str P ->
  exists e,
    fst (encrypt_payload self P w) = OK e
    /\ decrypt_payload self e = OK P.
Proof.
  intros Hlen Hgcm Hkey Hok HP.
  rewrite (encrypt_payload_established self key P w Hlen Hkey Hok).
  eexists. split; [reflexivity|].
  rewrite (decrypt_payload_established self key _ _ Hkey Hok
             (b64_text_decode _)).
  pose proof (Hlen 12%nat w) as Hn.
  set (nonce := fst (os_urandom 12 w)) in *.
  destruct (slices_of_sealed nonce (gcm_seal key nonce (str_encode P)) Hn)
    as [-> ->].
  destruct (Hgcm key nonce (str_encode P) Hok (nonce_ok_12 nonce Hn))
    as [Hopen Hsize].
  unfold AESGCM_decrypt, check_params.
  rewrite (nonce_ok_12 nonce Hn). cbn [bind].
  replace (length (gcm_seal key nonce (str_encode P)) <? 16)%nat with false
    by (symmetry; apply Nat.ltb_ge; lia).
  rewrite Hopen. cbn [bind].
  rewrite (bytes_decode_encode P HP). reflexivity.
Qed.

(** C2.  On a session with an established key, take any sealed payload
    (of a plaintext of any length) and invert one bit of its ciphertext or
    tag, that is of a byte after the 12 bytes of the nonce:
    [decrypt_payload] of the re-encoded payload raises the integrity error
    [ValueError("Decryption failed: data integrity check failed")], given
    that AES-GCM authenticates under the session's key.  A text that is not
    base64 makes [decrypt_payload] raise the decoder's own
    [binascii.Error], which is another error. *)
Theorem tampering_raises_integrity_error (self : CryptoSession) (key : bytes)
    (P : string) (w : World) (e : string) (full : bytes) (i : nat) (j : N) :
  urandom_length -> gcm_authentic key ->
  aes_key self = Some key -> aes_key_ok key = true ->
  fst (encrypt_payload self P w) = OK e ->
  urlsafe_b64decode (str_encode e) = OK full ->
  (12 <= i < length full)%nat -> (j < 8)%N ->
  decrypt_payload self (b64_text (flip_bit i j full)) = Raise integrity_error
  /\ forall malformed err,
       urlsafe_b64decode (str_encode malformed) = Raise err ->
       decrypt_payload self malformed = Raise err
       /\ err <> integrity_error.
Proof.
  intros Hlen Hauth Hkey Hok Henc Hdec Hi Hj.
  rewrite (encrypt_payload_established self key P w Hlen Hkey Hok) in Henc.
  cbn [fst] in Henc. injection Henc as <-.
  rewrite b64_text_decode in Hdec. injection Hdec as <-.
  pose proof (Hlen 12%nat w) as Hn.
  set (nonce := fst (os_urandom 12 w)) in *.
  set (sealed := gcm_seal key nonce (str_encode P)) in *.
  split.
  - rewrite (decrypt_payload_established self key _ _ Hkey Hok
               (b64_text_decode _)).
    rewrite flip_bit_app_r by lia.
    destruct (slices_of_sealed nonce (flip_bit (i - length nonce) j sealed) Hn)
      as [-> ->].
    unfold AESGCM_decrypt, check_params.
    rewrite (nonce_ok_12 nonce Hn). cbn [bind].
    destruct (length (flip_bit (i - length nonce) j sealed) <? 16)%nat;
      [reflexivity|].
    rewrite length_app in Hi.
    unfold sealed.
    rewrite (Hauth nonce (str_encode P) (i - length nonce)%nat j
               (nonce_ok_12 nonce Hn)) by (fold sealed; lia || assumption).
    reflexivity.
  - intros malformed err Herr.
    pose proof (urlsafe_b64decode_error _ _ Herr) as Hcls.
    split.
    + unfold decrypt_payload.
      rewrite Hkey, (aes_key_ok_truthy key Hok), Herr.
      cbn [negb bind reraise_InvalidTag_as].
      rewrite Hcls. reflexivity.
    + intros ->. discriminate Hcls.
Qed.

(** C3 (what the code does).  [get_public_key_pem] looks up the method
    [serialize] on the public key; an [RSAPublicKey] has no such attribute
    (its serialisation method is [public_bytes]), so on every session the
    call raises [AttributeError] instead of returning the PEM text. *)
Theorem get_public_key_pem_raises (self : CryptoSession) :
  get_public_key_pem self =
  Raise (Exn AttributeError
           "'RSAPublicKey' object has no attribute 'serialize'").
Proof. reflexivity. Qed.

(** C4.  On a session whose symmetric key has not been set, every call of
    [encrypt_payload] and of [decrypt_payload] raises
    [ValueError("AES key not initialized. Perform key exchange first.")]:
    it returns nothing, draws no nonce and leaves the world as it was. *)
Theorem key_not_set_raises_not_ready (self : CryptoSession) :
  aes_key self = None ->
  (forall P w, encrypt_payload self P w = (Raise not_ready_error, w))
  /\ (forall e, decrypt_payload self e = Raise not_ready_error).
Proof.
  intros Hkey. unfold encrypt_payload, decrypt_payload.
  rewrite Hkey. split; reflexivity.
Qed.

(** C5.  On a session with an established key, [encrypt_payload(P)] draws
    12 bytes from [os.urandom] in the world of the call (so every call
    draws its own nonce), and returns the URL-safe base64 text of the nonce
    followed by the AES-GCM output (ciphertext and tag) for that nonce;
    [decrypt_payload] decodes its argument, takes the first 12 bytes as the
    nonce and gives the rest to AES-GCM, and a sealed payload splits back
    into exactly its nonce and its AES-GCM output. *)
Theorem sealed_payload_wire_format (self : CryptoSession) (key : bytes) :
  urandom_length ->
  aes_key self = Some key -> aes_key_ok key = true ->
  (forall P w,
     let nonce := fst (os_urandom 12 w) in
     let sealed := gcm_seal key nonce (str_encode P) in
     length nonce = 12%nat
     /\ encrypt_payload self P w =
        (OK (b64_text (nonce ++ sealed)), snd (os_urandom 12 w))
     /\ urlsafe_b64decode (str_encode (b64_text (nonce ++ sealed)))
        = OK (nonce ++ sealed)%list
     /\ slice_to 12 (nonce ++ sealed) = nonce
     /\ slice_from 12 (nonce ++ sealed) = sealed)
  /\ (forall e full,
        urlsafe_b64decode (str_encode e) = OK full ->
        decrypt_payload self e =
        reraise_InvalidTag_as integrity_error
          (let! plaintext_bytes :=
             AESGCM_decrypt key (slice_to 12 full) (slice_from 12 full) in
           bytes_decode plaintext_bytes)).
Proof.
  intros Hlen Hkey Hok. split.
  - intros P w nonce sealed.
    pose proof (Hlen 12%nat w) as Hn. fold nonce in Hn.
    destruct (slices_of_sealed nonce sealed Hn) as [Hto Hfrom].
    repeat split; try assumption.
    + apply (encrypt_payload_established self key P w Hlen Hkey Hok).
    + apply b64_text_decode.
  - intros e full Hdec.
    apply (decrypt_payload_established self key e full Hkey Hok Hdec).
Qed.

(** C10 (as the code has it).  On a session with an established key, for
    an argument whose decoded form has fewer than 12 bytes the split never
    fails (the nonce is the whole input, the ciphertext is empty) and the
    call never returns a value: it raises the integrity error when the
    decoded form has 8 to 11 bytes, and the [ValueError] with which the
    AEAD package refuses a nonce shorter than 8 bytes, passed on unchanged,
    when it has fewer (the empty string included). *)
Theorem decrypt_payload_short_input (self : CryptoSession) (key : bytes)
    (e : string) (full : bytes) :
  aes_key self = Some key -> aes_key_ok key = true ->
  urlsafe_b64decode (str_encode e) = OK full ->
  (length full < 12)%nat ->
  slice_to 12 full = full /\ slice_from 12 full = []
  /\ decrypt_payload self e =
     if (8 <=? length full)%nat then Raise integrity_error
     else Raise (Exn ValueError "Nonce must be between 8 and 128 bytes").
Proof.
  intros Hkey Hok Hdec Hshort.
  assert (Hto : slice_to 12 full = full) by (apply firstn_all2; lia).
  assert (Hfrom : slice_from 12 full = []) by (apply skipn_all2; lia).
  repeat split; try assumption.
  rewrite (decrypt_payload_established self key e full Hkey Hok Hdec).
  rewrite Hto, Hfrom.
  unfold AESGCM_decrypt, check_params, nonce_ok.
  destruct (8 <=? length full)%nat eqn:E; cbn [andb bind].
  - replace (length full <=? 128)%nat with true
      by (symmetry; apply Nat.leb_le; lia).
    reflexivity.
  - reflexivity.
Qed.

End CryptoProperties.

(* ===================================================================== *)
(** ** The reference instance satisfies the laws *)
(* ===================================================================== *)

Module RefFacts.

Import Ref.

Lemma byte_xor_cancel_l (a b : byte) : byte_xor a (byte_xor a b) = b.
Proof.
  pose proof (for_all_bytes2_spec
    (fun a b => bool_decide (byte_xor a (byte_xor a b) = b))) as Hall.
  specialize (Hall ltac:(vm_compute; reflexivity) a b).
  now apply bool_decide_eq_true in Hall.
Qed.

Lemma byte_xor_cancel_r (a b : byte) : byte_xor (byte_xor a b) b = a.
Proof.
  pose proof (for_all_bytes2_spec
    (fun a b => bool_decide (byte_xor (byte_xor a b) b = a))) as Hall.
  specialize (Hall ltac:(vm_compute; reflexivity) a b).
  now apply bool_decide_eq_true in Hall.
Qed.

Lemma flip_byte_neq (j : N) (b : byte) : (j < 8)%N -> flip_byte j b <> b.
Proof.
  intros Hj.
  assert (Hall : forallb
            (fun j => for_all_bytes (fun b => bool_decide (flip_byte j b <> b)))
            [0; 1; 2; 3; 4; 5; 6; 7]%N = true) by (vm_compute; reflexivity).
  rewrite forallb_forall in Hall.
  assert (Hin : In j [0; 1; 2; 3; 4; 5; 6; 7]%N).
  { assert (j = 0 \/ j = 1 \/ j = 2 \/ j = 3 \/ j = 4 \/ j = 5 \/ j = 6
            \/ j = 7)%N as Hcases by lia.
    cbn [In]. intuition auto. }
  pose proof (for_all_bytes_spec _ (Hall j Hin) b) as Hb.
  now apply bool_decide_eq_true in Hb.
Qed.

Lemma flip_bit_length (i : nat) (j : N) (l : bytes) :
  length (flip_bit i j l) = length l.
Proof.
  revert i. induction l as [|b l IH]; intros [|i]; cbn; auto.
Qed.

Lemma flip_bit_app_l (l1 l2 : bytes) (i : nat) (j : N) :
  (i < length l1)%nat ->
  flip_bit i j (l1 ++ l2) = (flip_bit i j l1 ++ l2)%list.
Proof.
  revert i. induction l1 as [|b l1 IH]; intros i Hi; cbn [length] in Hi.
  - lia.
  - destruct i as [|i]; cbn; [reflexivity|].
    f_equal. apply IH. lia.
Qed.

Lemma flip_bit_neq (i : nat) (j : N) (l : bytes) :
  (i < length l)%nat -> (j < 8)%N -> flip_bit i j l <> l.
Proof.
  revert i. induction l as [|b l IH]; intros i Hi Hj; cbn [length] in Hi.
  - lia.
  - destruct i as [|i]; cbn [flip_bit]; intros [= E].
    + now apply (flip_byte_neq j b).
    + apply (IH i); [lia | assumption | assumption].
Qed.

Lemma xor_all_flip_bit (init : byte) (i : nat) (j : N) (l : bytes) :
  (i < length l)%nat -> (j < 8)%N ->
  xor_all init (flip_bit i j l) <> xor_all init l.
Proof.
  revert i. induction l as [|b l IH]; intros i Hi Hj; cbn [length] in Hi.
  - lia.
  - destruct i as [|i]; cbn [flip_bit xor_all fold_right]; intros E.
    + apply (flip_byte_neq j b Hj).
      rewrite <- (byte_xor_cancel_r (flip_byte j b) (fold_right byte_xor init l)).
      rewrite E. apply byte_xor_cancel_r.
    + apply (IH i); [lia | assumption |].
      unfold xor_all.
      rewrite <- (byte_xor_cancel_l b (fold_right byte_xor init (flip_bit i j l))).
      rewrite E. apply byte_xor_cancel_l.
Qed.

Lemma tag_length (key nonce body : bytes) : length (tag key nonce body) = 16%nat.
Proof. reflexivity. Qed.

(** Opening a body followed by any 16 bytes compares them with the tag. *)
Lemma open_split (key nonce body t : bytes) :
  length t = 16%nat ->
  open key nonce (body ++ t) =
  if decide (t = tag key nonce body)
  then Some (map (byte_xor (pad key nonce)) body)
  else None.
Proof.
  intros Ht. unfold open.
  rewrite length_app, Ht.
  replace (length body + 16 - 16)%nat with (length body) by lia.
  now rewrite take_app_length, drop_app_length.
Qed.

Lemma urandom_length_holds : urandom_length.
Proof.
  intros n w. cbn. now rewrite length_map, length_seq.
Qed.

Lemma gcm_correct_holds : gcm_correct.
Proof.
  intros key nonce plaintext _ _.
  change (gcm_open key nonce (gcm_seal key nonce plaintext))
    with (open key nonce (seal key nonce plaintext)).
  change (gcm_seal key nonce plaintext) with (seal key nonce plaintext).
  unfold seal. split.
  - rewrite open_split by apply tag_length.
    rewrite decide_True by reflexivity.
    f_equal. rewrite map_map.
    rewrite <- (map_id plaintext) at 2.
    apply map_ext. intros b. apply byte_xor_cancel_l.
  - now rewrite length_app, length_map, tag_length.
Qed.

Lemma gcm_authentic_holds (key : bytes) : gcm_authentic key.
Proof.
  intros nonce plaintext i j _ Hi Hj.
  change (gcm_open key nonce (flip_bit i j (gcm_seal key nonce plaintext)))
    with (open key nonce (flip_bit i j (seal key nonce plaintext))).
  change (gcm_seal key nonce plaintext) with (seal key nonce plaintext) in Hi.
  unfold seal in *.
  set (body := map (byte_xor (pad key nonce)) plaintext) in *.
  rewrite length_app, tag_length in Hi.
  destruct (Nat.lt_ge_cases i (length body)) as [Hbody|Htag].
  - rewrite flip_bit_app_l by assumption.
    rewrite open_split by apply tag_length.
    rewrite decide_False; [reflexivity|].
    unfold tag. intros [= E].
    now apply (xor_all_flip_bit (pad key nonce) i j body Hbody Hj).
  - rewrite flip_bit_app_r by assumption.
    rewrite open_split by (rewrite flip_bit_length; apply tag_length).
    rewrite decide_False; [reflexivity|].
    apply flip_bit_neq; [rewrite tag_length; lia | assumption].
Qed.

End RefFacts.

(* ===================================================================== *)
(** ** [CryptoSession] on the reference instance *)
(* ===================================================================== *)

(** The payload that [Ref.keyed_session] seals for ["print(1+1)"] in [Ref.w0]. *)
Definition sealed_example : bytes :=
  let nonce := fst (Ref.urandom 12 Ref.w0) in
  nonce ++ Ref.seal Ref.key32 nonce (str_encode "print(1+1)").

(** The round trip on the reference session, for ["print(1+1)"]. *)
Lemma decrypt_encrypt_round_trip_witness :
  aes_key Ref.keyed_session = Some Ref.key32
  /\ aes_key_ok Ref.key32 = true
  /\ is_str "print(1+1)"
  /\ exists e,
       fst (encrypt_payload Ref.keyed_session "print(1+1)" Ref.w0) = OK e
       /\ decrypt_payload Ref.keyed_session e = OK "print(1+1)".
Proof.
  split; [reflexivity|]. split; [reflexivity|]. split; [reflexivity|].
  apply (decrypt_encrypt_round_trip Ref.keyed_session Ref.key32 "print(1+1)"
           Ref.w0 RefFacts.urandom_length_holds RefFacts.gcm_correct_holds);
    reflexivity.
Defined.

(** The first bit of the ciphertext and the last bit of the tag, inverted
    in the payload sealed by the reference session. *)
Lemma tampering_raises_integrity_error_witness :
  fst (encrypt_payload Ref.keyed_session "print(1+1)" Ref.w0)
  = OK (b64_text sealed_example)
  /\ length sealed_example = 38%nat
  /\ decrypt_payload Ref.keyed_session (b64_text (flip_bit 12 0 sealed_example))
     = Raise integrity_error
  /\ decrypt_payload Ref.keyed_session (b64_text (flip_bit 37 7 sealed_example))
     = Raise integrity_error.
Proof.
  assert (Henc : fst (encrypt_payload Ref.keyed_session "print(1+1)" Ref.w0)
                 = OK (b64_text sealed_example)) by (vm_compute; reflexivity).
  assert (Hdec : urlsafe_b64decode (str_encode (b64_text sealed_example))
                 = OK sealed_example) by (vm_compute; reflexivity).
  assert (Hlen : length sealed_example = 38%nat) by (vm_compute; reflexivity).
  split; [exact Henc|]. split; [exact Hlen|].
  split.
  - refine (proj1 (tampering_raises_integrity_error Ref.keyed_session
                     Ref.key32 "print(1+1)" Ref.w0 (b64_text sealed_example)
                     sealed_example 12 0
                     RefFacts.urandom_length_holds
                     (RefFacts.gcm_authentic_holds Ref.key32)
                     eq_refl eq_refl Henc Hdec _ _)); [rewrite Hlen|]; lia.
  - refine (proj1 (tampering_raises_integrity_error Ref.keyed_session
                     Ref.key32 "print(1+1)" Ref.w0 (b64_text sealed_example)
                     sealed_example 37 7
                     RefFacts.urandom_length_holds
                     (RefFacts.gcm_authentic_holds Ref.key32)
                     eq_refl eq_refl Henc Hdec _ _)); [rewrite Hlen|]; lia.
Defined.

(** A session that was just created refuses to seal and to unseal. *)
Lemma key_not_set_raises_not_ready_witness :
  aes_key Ref.fresh_session = None
  /\ encrypt_payload Ref.fresh_session "print(1+1)" Ref.w0
     = (Raise not_ready_error, Ref.w0)
  /\ decrypt_payload Ref.fresh_session (b64_text sealed_example)
     = Raise not_ready_error.
Proof.
  split; [reflexivity|].
  destruct (key_not_set_raises_not_ready Ref.fresh_session eq_refl)
    as [Henc Hdec].
  split; [apply Henc | apply Hdec].
Defined.

(** The payload sealed by the reference session, and its nonce. *)
Lemma sealed_payload_wire_format_witness :
  aes_key Ref.keyed_session = Some Ref.key32
  /\ aes_key_ok Ref.key32 = true
  /\ encrypt_payload Ref.keyed_session "print(1+1)" Ref.w0
     = (OK (b64_text sealed_example), snd (Ref.urandom 12 Ref.w0))
  /\ slice_to 12 sealed_example = fst (Ref.urandom 12 Ref.w0).
Proof.
  split; [reflexivity|]. split; [reflexivity|].
  destruct (sealed_payload_wire_format Ref.keyed_session Ref.key32
              RefFacts.urandom_length_holds eq_refl eq_refl) as [Hseal _].
  destruct (Hseal "print(1+1)" Ref.w0) as (_ & Henc & _ & Hto & _).
  split; [exact Henc | exact Hto].
Defined.

(** Eight zero bytes, encoded: shorter than a nonce. *)
Lemma decrypt_payload_short_input_witness :
  urlsafe_b64decode (str_encode "AAAAAAAAAAA=") = OK (repeat x00 8)
  /\ decrypt_payload Ref.keyed_session "AAAAAAAAAAA=" = Raise integrity_error.
Proof.
  split; [vm_compute; reflexivity|].
  apply (decrypt_payload_short_input Ref.keyed_session Ref.key32
           "AAAAAAAAAAA=" (repeat x00 8) eq_refl eq_refl);
    [vm_compute; reflexivity | cbn; lia].
Defined.

(** C10, as stated, fails on the empty string: its decoded form is empty,
    the nonce handed to the AEAD package is empty, and the error raised is
    the package's [ValueError] for the nonce, not the integrity error. *)
Lemma decrypt_payload_empty_string_counterexample :
  aes_key Ref.keyed_session = Some Ref.key32
  /\ aes_key_ok Ref.key32 = true
  /\ urlsafe_b64decode (str_encode "") = OK []
  /\ decrypt_payload Ref.keyed_session ""
     = Raise (Exn ValueError "Nonce must be between 8 and 128 bytes")
  /\ decrypt_payload Ref.keyed_session "" <> Raise integrity_error.
Proof.
  repeat split; try (vm_compute; reflexivity).
  vm_compute. discriminate.
Qed.

(* ===================================================================== *)
(** ** Properties of the compute node *)
(* ===================================================================== *)

Section ComputeNodeProperties.

Context `{NodeHost}.

Local Open Scope Z_scope.

(** The handler's path to [handle_encrypted_task] and to the
    [send_aes_key] branch. *)
Lemma handle_message_encrypted_task (session_id message : string)
    (st : NodeSt) (data : json) (sd : session_data) :
  json_loads message = OK data ->
  json_get data "type" = OK (Some (JStr "encrypted_task")) ->
  sessions (node st) !! session_id = Some sd ->
  handle_message_body session_id message st =
  handle_encrypted_task session_id sd data st.
Proof.
  intros Hload Htype Hsd.
  unfold handle_message_body, bindM, lift, get_node.
  now rewrite Hload, Htype, Hsd.
Qed.

Lemma handle_message_key_exchange (session_id message : string)
    (st : NodeSt) (data : json) (sd : session_data) :
  json_loads message = OK data ->
  json_get data "type" = OK (Some (JStr "key_exchange")) ->
  sessions (node st) !! session_id = Some sd ->
  handle_message_body session_id message st =
  handle_key_exchange session_id sd data st.
Proof.
  intros Hload Htype Hsd.
  unfold handle_message_body, bindM, lift, get_node.
  now rewrite Hload, Htype, Hsd.
Qed.

(** A call of the host changes the world and the trace, not the node. *)
Lemma host_call_node {A} (ev : io_event Channel)
    (op : World -> result A * World) (st : NodeSt) :
  node (snd (host_call ev op st)) = node st.
Proof. unfold host_call. now destruct (op (world st)). Qed.

Lemma send_node (ch : Channel) (message : json) (st : NodeSt) :
  node (snd (send ch message st)) = node st.
Proof. apply host_call_node. Qed.

(** C6 (as the code has it).  The symmetric key is absent when the session
    is created.  [exchange_aes_key] stores the key it decrypted and
    [generate_and_encrypt_aes_key] the key it drew, whatever the session
    held before; a failed [exchange_aes_key] leaves the session as it was.
    On the compute node, a [send_aes_key] message whose key decrypts
    replaces the key of the session's [CryptoSession], also when one was
    already set. *)
Theorem aes_key_is_replaced_by_each_exchange :
  (forall w, aes_key (fst (CryptoSession_init w)) = None)
  /\ (forall self encrypted_aes_key,
        match exchange_aes_key self encrypted_aes_key with
        | (OK _, self') =>
            exists c k,
              urlsafe_b64decode (str_encode encrypted_aes_key) = OK c
              /\ decrypt_rsa self c = OK k
              /\ self' = set_aes_key self k
        | (Raise _, self') => self' = self
        end)
  /\ (forall self pem w,
        aes_key (snd (fst (generate_and_encrypt_aes_key self pem w)))
        = Some (fst (os_urandom 32 w)))
  /\ (forall session_id message st data sd encrypted_aes_key c k,
        json_loads message = OK data ->
        json_get data "type" = OK (Some (JStr "key_exchange")) ->
        json_get data "action" = OK (Some (JStr "send_aes_key")) ->
        json_getitem data "encrypted_aes_key" = OK (JStr encrypted_aes_key) ->
        sessions (node st) !! session_id = Some sd ->
        urlsafe_b64decode (str_encode encrypted_aes_key) = OK c ->
        decrypt_rsa (crypto sd) c = OK k ->
        sessions (node (_handle_message session_id message st)) !! session_id
        = Some (with_crypto (set_aes_key (crypto sd) k) sd)).
Proof.
  split; [|split; [|split]].
  - intros w. unfold CryptoSession_init.
    now destruct (rsa_generate_private_key w).
  - intros self e. unfold exchange_aes_key.
    destruct (urlsafe_b64decode (str_encode e)) as [c|]; [|reflexivity].
    destruct (decrypt_rsa self c) as [k|] eqn:E; [|reflexivity].
    now exists c, k.
  - intros self pem w. unfold generate_and_encrypt_aes_key.
    destruct (os_urandom 32 w) as [k w1]. cbn [fst].
    destruct (load_pem_public_key (str_encode pem)) as [pk|]; [|reflexivity].
    now destruct (rsa_oaep_encrypt pk k w1) as [[c|] w2].
  - intros session_id message st data sd e c k
      Hload Htype Haction Hitem Hsd Hdec Hrsa.
    unfold _handle_message.
    rewrite (handle_message_key_exchange _ _ _ _ _ Hload Htype Hsd).
    unfold handle_key_exchange, bindM, lift.
    rewrite Haction. cbn [py_eq_str].
    rewrite bool_decide_eq_false_2 by discriminate.
    rewrite bool_decide_eq_true_2 by reflexivity.
    rewrite Hitem.
    unfold session_exchange_aes_key, exchange_aes_key, bindM, lift.
    cbn [str_arg]. rewrite Hdec, Hrsa.
    cbn [update_session set_sessions].
    rewrite send_node. cbn [node sessions].
    now rewrite lookup_alter_eq, Hsd.
Qed.

(** C7 (as the code has it).  On the compute node, when the unseal of an
    [encrypted_task] message fails, for whatever reason (tampered or
    corrupted data, malformed encoding, no key yet), the exception is caught
    by the handler and logged: the handler sends nothing and does not close
    the channel, and it leaves the node as it was, the session still
    registered with its state unchanged. *)
Theorem failed_unseal_leaves_session_registered (session_id message : string)
    (st : NodeSt) (data v : json) (sd : session_data) (e : exn) :
  json_loads message = OK data ->
  json_get data "type" = OK (Some (JStr "encrypted_task")) ->
  json_getitem data "encrypted_data" = OK v ->
  sessions (node st) !! session_id = Some sd ->
  session_decrypt_payload sd v = Raise e ->
  _handle_message session_id message st = st
  /\ trace (_handle_message session_id message st) = trace st
  /\ sessions (node (_handle_message session_id message st)) !! session_id
     = Some sd.
Proof.
  intros Hload Htype Hitem Hsd Hfail.
  assert (Hsame : _handle_message session_id message st = st).
  { unfold _handle_message.
    rewrite (handle_message_encrypted_task _ _ _ _ _ Hload Htype Hsd).
    unfold handle_encrypted_task, bindM, lift.
    now rewrite Hitem, Hfail. }
  rewrite Hsame. auto.
Qed.

Lemma could_not_execute_shape (e : exn) (start_time now : Z) :
  could_not_execute e start_time now =
  {| exit_code := -1;
     stdout := "";
     stderr := if decide (exn_class_of e = asyncio_TimeoutError)
               then "Execution timeout (30 seconds)"
               else ("Execution error: " ++ exn_msg e)%string;
     execution_time := now - start_time |}.
Proof.
  unfold could_not_execute.
  now destruct (decide (exn_class_of e = asyncio_TimeoutError)).
Qed.

(** C8 (as the code has it).  When the executor itself finds that it cannot
    attempt or complete the task, it returns (it does not raise) a result
    with exit code [-1], an empty stdout and a non-empty stderr that says
    why: the Docker flag of the node is false, and then nothing is written
    or run and the stderr names the unavailability; writing the task to its
    temporary file raises; or running the command raises, the time limit
    ([asyncio.TimeoutError]) included.  The stderr of the last two is
    ["Execution timeout (30 seconds)"] for the time limit and
    ["Execution error: "] followed by the text of the exception for every
    other one.  A command that completes is reported with the exit status
    and the streams it gave, whatever they are. *)
Theorem sandbox_could_not_execute (code task_type : json) (st : NodeSt) :
  let run := _execute_in_sandbox code task_type st in
  let reported (e : exn) (now : Z) : ExecutionResult :=
    {| exit_code := -1;
       stdout := "";
       stderr := if decide (exn_class_of e = asyncio_TimeoutError)
                 then "Execution timeout (30 seconds)"
                 else ("Execution error: " ++ exn_msg e)%string;
       execution_time := now - time_time (world st) |} in
  (docker_available (node st) = false ->
   run = (OK {| exit_code := -1;
                stdout := "";
                stderr := "Docker not available. Please install Docker to enable sandbox execution.";
                execution_time := 0 |}, st))
  /\ (docker_available (node st) = true ->
      forall e w1,
        write_temp_file code (world st) = (Raise e, w1) ->
        fst run = OK (reported e (time_time w1))
        /\ world (snd run) = w1)
  /\ (docker_available (node st) = true ->
      forall temp_file w1 e w2,
        write_temp_file code (world st) = (OK temp_file, w1) ->
        run_command_wait_for (docker_cmd temp_file) w1 = (Raise e, w2) ->
        fst run = OK (reported e (time_time (os_unlink temp_file w2))))
  /\ (docker_available (node st) = true ->
      forall temp_file w1 returncode out err w2,
        write_temp_file code (world st) = (OK temp_file, w1) ->
        run_command_wait_for (docker_cmd temp_file) w1
        = (OK (returncode, out, err), w2) ->
        fst run = OK {| exit_code := returncode;
                        stdout := out;
                        stderr := err;
                        execution_time :=
                          time_time w2 - time_time (world st) |})
  /\ (forall e now, stderr (reported e now) <> "").
Proof.
  cbv zeta. unfold _execute_in_sandbox, world_call.
  split; [|split; [|split; [|split]]].
  - intros Hdocker. now rewrite Hdocker.
  - intros Hdocker e w1 Hwrite. rewrite Hdocker, Hwrite. cbn [negb fst snd world].
    now rewrite could_not_execute_shape.
  - intros Hdocker temp_file w1 e w2 Hwrite Hrun.
    rewrite Hdocker, Hwrite. cbn [negb world]. rewrite Hrun.
    cbn [fst snd world]. now rewrite could_not_execute_shape.
  - intros Hdocker temp_file w1 returncode out err w2 Hwrite Hrun.
    rewrite Hdocker, Hwrite. cbn [negb world]. rewrite Hrun. reflexivity.
  - intros e now. cbn [stderr].
    destruct (decide (exn_class_of e = asyncio_TimeoutError)); discriminate.
Qed.

End ComputeNodeProperties.

Section ConnectProperties.

Context `{NodeHost}.

Local Open Scope Z_scope.

Definition with_reconnect (n : NeuraXComputeNode) : NeuraXComputeNode :=
  {| signaling_url := signaling_url n;
     reconnect_count := S (reconnect_count n);
     docker_available := docker_available n;
     sessions := sessions n |}.

Definition connected_node (n : NeuraXComputeNode) : NeuraXComputeNode :=
  {| signaling_url := signaling_url n;
     reconnect_count := 0;
     docker_available := docker_available n;
     sessions := sessions n |}.

(** One turn of the retry loop. *)
Lemma connect_attempts_step (attempt : nat) (rest : list nat)
    (max_retries : nat) (retry_delay : Z) (st : NodeSt) :
  connect_attempts (attempt :: rest) max_retries retry_delay st =
  let url := signaling_url (node st) in
  match sio_connect url (world st) with
  | (OK _, w1) =>
      (OK tt,
       {| node := connected_node (node st); world := w1;
          trace := trace st ++ [EvConnect url] |})
  | (Raise e, w1) =>
      if (attempt <? max_retries - 1)%nat then
        connect_attempts rest max_retries (Z.min (retry_delay * 2) 30)
          {| node := with_reconnect (node st);
             world := asyncio_sleep retry_delay w1;
             trace := (trace st ++ [EvConnect url]) ++ [EvSleep retry_delay] |}
      else
        (Raise (Exn ConnectionError
                  ("Signaling connection failed: " ++ exn_msg e)%string),
         {| node := with_reconnect (node st); world := w1;
            trace := trace st ++ [EvConnect url] |})
  end.
Proof.
  cbn [connect_attempts].
  unfold host_call, incr_reconnect_count, reset_reconnect_count.
  destruct (sio_connect (signaling_url (node st)) (world st)) as [[[]|e] w1];
    cbn; [reflexivity|].
  destruct (attempt <? max_retries - 1)%nat; reflexivity.
Qed.

(** The events of [k] failed attempts that are followed by another one:
    a connect, then a sleep of 5, 10, 20, 30 seconds. *)
Definition failed_attempts (url : string) (k : nat) : list (io_event Channel) :=
  flat_map (fun d => [EvConnect url; EvSleep d]) (firstn k [5; 10; 20; 30]).

(** The world in which attempt number [i] (from 0) is made when every
    attempt before it has failed: the world that the failed attempt before
    it left, after a wait of 5, 10, 20, 30 seconds. *)
Fixpoint attempt_world (url : string) (w : World) (i : nat) : World :=
  match i with
  | O => w
  | S j =>
      asyncio_sleep (nth j [5; 10; 20; 30] 30)
        (snd (sio_connect url (attempt_world url w j)))
  end.

(** An attempt that is known to have failed raised something. *)
Lemma failed_attempt (r : result unit * World) :
  is_ok (fst r) = false -> exists e w, r = (Raise e, w).
Proof. destruct r as [[[]|e] w]; [discriminate | eauto]. Qed.

(** C9.  [connect_to_signaling] makes at most 5 connection attempts, and
    sleeps after each failed attempt but the fifth: 5, 10, 20 and 30
    seconds, in this order.  When attempt [k + 1] is the first that
    succeeds ([k < 5]) it returns after [k] failed attempts and their [k]
    sleeps, and makes no further attempt.  When all 5 attempts fail it has
    slept 5, 10, 20 and 30 seconds between them and raises
    [ConnectionError] with the text of the fifth failure, with no sleep
    after the last attempt, and has added 5 to [reconnect_count]. *)
Theorem connect_to_signaling_backoff (st : NodeSt) :
  let url := signaling_url (node st) in
  let attempt i := sio_connect url (attempt_world url (world st) i) in
  let run := connect_to_signaling st in
  (forall k,
     (k < 5)%nat ->
     (forall i, (i < k)%nat -> is_ok (fst (attempt i)) = false) ->
     is_ok (fst (attempt k)) = true ->
     fst run = OK tt
     /\ trace (snd run) =
        (trace st ++ failed_attempts url k ++ [EvConnect url])%list
     /\ world (snd run) = snd (attempt k)
     /\ node (snd run) = connected_node (node st))
  /\ (forall e,
        (forall i, (i < 4)%nat -> is_ok (fst (attempt i)) = false) ->
        fst (attempt 4%nat) = Raise e ->
        fst run = Raise (Exn ConnectionError
                           ("Signaling connection failed: " ++ exn_msg e)%string)
        /\ trace (snd run) =
           (trace st ++ failed_attempts url 4 ++ [EvConnect url])%list
        /\ world (snd run) = snd (attempt 4%nat)
        /\ reconnect_count (node (snd run))
           = (reconnect_count (node st) + 5)%nat
        /\ sessions (node (snd run)) = sessions (node st)).
Proof.
  cbv zeta. unfold connect_to_signaling. cbn [seq].
  destruct st as [n w t]. cbn [node world trace].
  set (url := signaling_url n).
  assert (Hstep : forall i,
            is_ok (fst (sio_connect url (attempt_world url w i))) = false ->
            exists e w',
              sio_connect url (attempt_world url w i) = (Raise e, w')
              /\ attempt_world url w (S i)
                 = asyncio_sleep (nth i [5; 10; 20; 30] 30) w').
  { intros i Hi. destruct (failed_attempt _ Hi) as (e & w' & E).
    exists e, w'. split; [exact E|]. cbn [attempt_world]. now rewrite E. }
  assert (Hlast : forall r : result unit * World,
            is_ok (fst r) = true -> r = (OK tt, snd r)).
  { intros [[[]|e] w']; [reflexivity | discriminate]. }
  split.
  - intros k Hk Hfail Hok.
    pose proof (Hlast _ Hok) as Ek.
    destruct k as [|[|[|[|[|k]]]]]; [| | | | |lia].
    + cbn [attempt_world] in Ek.
      rewrite connect_attempts_step. cbn [node world trace]. fold url.
      rewrite Ek. cbn. now repeat split.
    + destruct (Hstep 0%nat (Hfail 0%nat ltac:(lia))) as (e0 & w0 & E0 & W0).
      cbn [attempt_world] in E0. cbn [nth] in W0.
      rewrite W0 in Ek.
      rewrite connect_attempts_step. cbn [node world trace]. fold url.
      rewrite E0. cbn [Nat.ltb Nat.leb Nat.sub].
      rewrite connect_attempts_step.
      cbn [node world trace with_reconnect signaling_url]. fold url.
      rewrite ?W0, Ek. cbn. rewrite <- !app_assoc. now repeat split.
    + destruct (Hstep 0%nat (Hfail 0%nat ltac:(lia))) as (e0 & w0 & E0 & W0).
      destruct (Hstep 1%nat (Hfail 1%nat ltac:(lia))) as (e1 & w1 & E1 & W1).
      cbn [attempt_world] in E0. cbn [nth] in W0. rewrite W0 in E1.
      cbn [nth] in W1. rewrite W1 in Ek.
      rewrite connect_attempts_step. cbn [node world trace]. fold url.
      rewrite E0. cbn [Nat.ltb Nat.leb Nat.sub].
      rewrite connect_attempts_step.
      cbn [node world trace with_reconnect signaling_url]. fold url.
      rewrite E1. cbn [Nat.ltb Nat.leb Nat.sub].
      rewrite connect_attempts_step.
      cbn [node world trace with_reconnect signaling_url]. fold url.
      change (Z.min (5 * 2) 30) with 10.
      rewrite ?W1, Ek. cbn. rewrite <- !app_assoc. now repeat split.
    + destruct (Hstep 0%nat (Hfail 0%nat ltac:(lia))) as (e0 & w0 & E0 & W0).
      destruct (Hstep 1%nat (Hfail 1%nat ltac:(lia))) as (e1 & w1 & E1 & W1).
      destruct (Hstep 2%nat (Hfail 2%nat ltac:(lia))) as (e2 & w2 & E2 & W2).
      cbn [attempt_world] in E0. cbn [nth] in W0. rewrite W0 in E1.
      cbn [nth] in W1. rewrite W1 in E2.
      cbn [nth] in W2. rewrite W2 in Ek.
      rewrite connect_attempts_step. cbn [node world trace]. fold url.
      rewrite E0. cbn [Nat.ltb Nat.leb Nat.sub].
      rewrite connect_attempts_step.
      cbn [node world trace with_reconnect signaling_url]. fold url.
      rewrite E1. cbn [Nat.ltb Nat.leb Nat.sub].
      rewrite connect_attempts_step.
      cbn [node world trace with_reconnect signaling_url]. fold url.
      change (Z.min (5 * 2) 30) with 10.
      rewrite E2. cbn [Nat.ltb Nat.leb Nat.sub].
      rewrite connect_attempts_step.
      cbn [node world trace with_reconnect signaling_url]. fold url.
      change (Z.min (10 * 2) 30) with 20.
      rewrite ?W2, Ek. cbn. rewrite <- !app_assoc. now repeat split.
    + destruct (Hstep 0%nat (Hfail 0%nat ltac:(lia))) as (e0 & w0 & E0 & W0).
      destruct (Hstep 1%nat (Hfail 1%nat ltac:(lia))) as (e1 & w1 & E1 & W1).
      destruct (Hstep 2%nat (Hfail 2%nat ltac:(lia))) as (e2 & w2 & E2 & W2).
      destruct (Hstep 3%nat (Hfail 3%nat ltac:(lia))) as (e3 & w3 & E3 & W3).
      cbn [attempt_world] in E0. cbn [nth] in W0. rewrite W0 in E1.
      cbn [nth] in W1. rewrite W1 in E2.
      cbn [nth] in W2. rewrite W2 in E3.
      cbn [nth] in W3. rewrite W3 in Ek.
      rewrite connect_attempts_step. cbn [node world trace]. fold url.
      rewrite E0. cbn [Nat.ltb Nat.leb Nat.sub].
      rewrite connect_attempts_step.
      cbn [node world trace with_reconnect signaling_url]. fold url.
      rewrite E1. cbn [Nat.ltb Nat.leb Nat.sub].
      rewrite connect_attempts_step.
      cbn [node world trace with_reconnect signaling_url]. fold url.
      change (Z.min (5 * 2) 30) with 10.
      rewrite E2. cbn [Nat.ltb Nat.leb Nat.sub].
      rewrite connect_attempts_step.
      cbn [node world trace with_reconnect signaling_url]. fold url.
      change (Z.min (10 * 2) 30) with 20.
      rewrite E3. cbn [Nat.ltb Nat.leb Nat.sub].
      rewrite connect_attempts_step.
      cbn [node world trace with_reconnect signaling_url]. fold url.
      change (Z.min (20 * 2) 30) with 30.
      rewrite ?W3, Ek. cbn. rewrite <- !app_assoc. now repeat split.
  - intros e Hfail E4.
    destruct (Hstep 0%nat (Hfail 0%nat ltac:(lia))) as (e0 & w0 & E0 & W0).
    destruct (Hstep 1%nat (Hfail 1%nat ltac:(lia))) as (e1 & w1 & E1 & W1).
    destruct (Hstep 2%nat (Hfail 2%nat ltac:(lia))) as (e2 & w2 & E2 & W2).
    destruct (Hstep 3%nat (Hfail 3%nat ltac:(lia))) as (e3 & w3 & E3 & W3).
    cbn [attempt_world] in E0. cbn [nth] in W0. rewrite W0 in E1.
    cbn [nth] in W1. rewrite W1 in E2.
    cbn [nth] in W2. rewrite W2 in E3.
    cbn [nth] in W3. rewrite W3 in E4. rewrite ?W3.
    destruct (sio_connect url (asyncio_sleep 30 w3)) as [r4 w4] eqn:E4'.
    cbn [fst snd] in *. subst r4.
    rewrite connect_attempts_step. cbn [node world trace]. fold url.
    rewrite E0. cbn [Nat.ltb Nat.leb Nat.sub].
    rewrite connect_attempts_step.
    cbn [node world trace with_reconnect signaling_url]. fold url.
    rewrite E1. cbn [Nat.ltb Nat.leb Nat.sub].
    rewrite connect_attempts_step.
    cbn [node world trace with_reconnect signaling_url]. fold url.
    change (Z.min (5 * 2) 30) with 10.
    rewrite E2. cbn [Nat.ltb Nat.leb Nat.sub].
    rewrite connect_attempts_step.
    cbn [node world trace with_reconnect signaling_url]. fold url.
    change (Z.min (10 * 2) 30) with 20.
    rewrite E3. cbn [Nat.ltb Nat.leb Nat.sub].
    rewrite connect_attempts_step.
    cbn [node world trace with_reconnect signaling_url]. fold url.
    change (Z.min (20 * 2) 30) with 30.
    rewrite E4'. cbn [Nat.ltb Nat.leb Nat.sub].
    cbn. rewrite <- !app_assoc. repeat split. f_equal. lia.
Qed.

End ConnectProperties.

(* ===================================================================== *)
(** ** The compute node on the reference instance *)
(* ===================================================================== *)

Module RefNode.

#[local] Existing Instances Ref.platform Ref.host.

Definition sd_fresh : @session_data Ref.platform Ref.host :=
  @Build_session_data Ref.platform Ref.host tt 7%nat Ref.fresh_session None.

Definition sd_keyed : @session_data Ref.platform Ref.host :=
  @Build_session_data Ref.platform Ref.host tt 7%nat Ref.keyed_session None.

(** A node that holds one session, ["s1"]. *)
Definition node_with (docker : bool)
    (sd : @session_data Ref.platform Ref.host) (w : Ref.world)
    : @NodeSt Ref.platform Ref.host :=
  @Build_NodeSt Ref.platform Ref.host
    (@Build_NeuraXComputeNode Ref.platform Ref.host
       "http://localhost:10000" 0 docker {[ "s1" := sd ]})
    w [].

(** An [encrypted_task] message whose payload had one bit of its
    ciphertext inverted. *)
Definition tampered_data : json :=
  JDict [("type", JStr "encrypted_task");
         ("encrypted_data", JStr (b64_text (flip_bit 12 0 sealed_example)))].

Definition tampered_task : string := Ref.dumps tampered_data.

(** A second key, and the [send_aes_key] message that carries a key
    encrypted for the private key [0] of [Ref.fresh_session]. *)
Definition other_key : bytes := map Ref.entropy (seq 200 32).

Definition encrypted_key (k : bytes) : string :=
  b64_text (byte_of_N 0 :: k).

Definition aes_key_data (k : bytes) : json :=
  JDict [("type", JStr "key_exchange");
         ("action", JStr "send_aes_key");
         ("encrypted_aes_key", JStr (encrypted_key k))].

Definition aes_key_message (k : bytes) : string := Ref.dumps (aes_key_data k).

(** The key that the session ["s1"] holds. *)
Definition session_key (st : @NodeSt Ref.platform Ref.host)
    : option (option bytes) :=
  (fun sd => aes_key (crypto sd)) <$> (sessions (node st) !! "s1").

(** A world in which the container runs into the time limit. *)
Definition w_timeout : Ref.world :=
  {| Ref.cursor := 0; Ref.clock := 0;
     Ref.tempfile_script := OK "/tmp/tmpk3v9.py";
     Ref.run_script := Raise (Exn asyncio_TimeoutError "");
     Ref.connect_script := [] |}.

End RefNode.

Import RefNode.

#[local] Existing Instances Ref.platform Ref.host.

(** C6, as stated, fails on a repeated [send_aes_key]: the session that
    took the first key takes the second one in its place. *)
Lemma repeated_send_aes_key_counterexample :
  let st1 := _handle_message "s1" (aes_key_message Ref.key32)
               (node_with true sd_fresh Ref.w0) in
  let st2 := _handle_message "s1" (aes_key_message other_key) st1 in
  session_key (node_with true sd_fresh Ref.w0) = Some None
  /\ session_key st1 = Some (Some Ref.key32)
  /\ session_key st2 = Some (Some other_key)
  /\ Ref.key32 <> other_key.
Proof.
  cbv zeta. repeat split; try reflexivity.
  vm_compute. discriminate.
Qed.

(** Two [send_aes_key] messages in a row, each handled as the theorem
    says. *)
Lemma aes_key_is_replaced_by_each_exchange_witness :
  let st1 := _handle_message "s1" (aes_key_message Ref.key32)
               (node_with true sd_fresh Ref.w0) in
  sessions (node st1) !! "s1" = Some sd_keyed
  /\ sessions (node (_handle_message "s1" (aes_key_message other_key) st1))
       !! "s1"
     = Some (with_crypto (set_aes_key Ref.keyed_session other_key) sd_keyed).
Proof.
  cbv zeta.
  destruct aes_key_is_replaced_by_each_exchange as (_ & _ & _ & Hnode).
  assert (H1 : sessions
                 (node (_handle_message "s1" (aes_key_message Ref.key32)
                          (node_with true sd_fresh Ref.w0))) !! "s1"
               = Some sd_keyed).
  { rewrite (Hnode "s1" (aes_key_message Ref.key32)
               (node_with true sd_fresh Ref.w0) (aes_key_data Ref.key32)
               sd_fresh (encrypted_key Ref.key32) (byte_of_N 0 :: Ref.key32)
               Ref.key32);
      reflexivity. }
  split; [exact H1|].
  apply (Hnode "s1" (aes_key_message other_key) _ (aes_key_data other_key)
           sd_keyed (encrypted_key other_key) (byte_of_N 0 :: other_key)
           other_key);
    first [exact H1 | reflexivity].
Defined.

(** C7, as stated, fails on a tampered task: after the handler has caught
    the integrity error the session is still registered and its channel
    has not been closed. *)
Lemma tampered_task_counterexample :
  let st := node_with true sd_keyed Ref.w0 in
  let st' := _handle_message "s1" tampered_task st in
  json_loads tampered_task = OK tampered_data
  /\ session_decrypt_payload sd_keyed
       (JStr (b64_text (flip_bit 12 0 sealed_example)))
     = Raise integrity_error
  /\ sessions (node st') !! "s1" = Some sd_keyed
  /\ trace st' = []
  /\ ~ (sessions (node st') !! "s1" = None /\ In (EvClose 7%nat) (trace st')).
Proof.
  cbv zeta.
  assert (Hreg : sessions
                   (node (_handle_message "s1" tampered_task
                            (node_with true sd_keyed Ref.w0))) !! "s1"
                 = Some sd_keyed) by reflexivity.
  repeat split; try reflexivity; try exact Hreg.
  intros [Hnone _]. rewrite Hreg in Hnone. discriminate.
Qed.

(** The tampered task leaves the node as it was. *)
Lemma failed_unseal_leaves_session_registered_witness :
  let st := node_with true sd_keyed Ref.w0 in
  _handle_message "s1" tampered_task st = st
  /\ trace (_handle_message "s1" tampered_task st) = trace st
  /\ sessions (node (_handle_message "s1" tampered_task st)) !! "s1"
     = Some sd_keyed.
Proof.
  cbv zeta.
  apply (failed_unseal_leaves_session_registered "s1" tampered_task
           (node_with true sd_keyed Ref.w0) tampered_data
           (JStr (b64_text (flip_bit 12 0 sealed_example))) sd_keyed
           integrity_error);
    reflexivity.
Defined.

(** A world in which the runtime cannot be reached although the node
    found it at start: [docker run] completes, with the status and the
    message of the [docker] command itself. *)
Definition w_daemon_down : Ref.world :=
  {| Ref.cursor := 0; Ref.clock := 0;
     Ref.tempfile_script := OK "/tmp/tmpk3v9.py";
     Ref.run_script :=
       OK (125%Z, "",
           "docker: Cannot connect to the Docker daemon at unix:///var/run/docker.sock. Is the docker daemon running?");
     Ref.connect_script := [] |}.

(** C8, as stated, fails when the runtime is unreachable at the time of the
    run: the task is not attempted, and the result carries the status 125
    of the [docker] command, not [-1]. *)
Lemma unreachable_runtime_counterexample :
  let st := node_with true sd_keyed w_daemon_down in
  let run :=
    _execute_in_sandbox (JStr "print(1+1)") (JStr "python_code") st in
  run_command_wait_for (docker_cmd "/tmp/tmpk3v9.py") (world st)
  = (OK (125%Z, "",
         "docker: Cannot connect to the Docker daemon at unix:///var/run/docker.sock. Is the docker daemon running?"),
     w_daemon_down)
  /\ fst run
     = OK {| exit_code := 125;
             stdout := "";
             stderr := "docker: Cannot connect to the Docker daemon at unix:///var/run/docker.sock. Is the docker daemon running?";
             execution_time := 0 |}
  /\ ~ (exists res, fst run = OK res /\ exit_code res = (-1)%Z).
Proof.
  cbv zeta. split; [reflexivity|]. split; [reflexivity|].
  intros (res & Hres & Hcode).
  assert (E : fst (_execute_in_sandbox (JStr "print(1+1)") (JStr "python_code")
                     (node_with true sd_keyed w_daemon_down))
              = OK {| exit_code := 125; stdout := "";
                      stderr := "docker: Cannot connect to the Docker daemon at unix:///var/run/docker.sock. Is the docker daemon running?";
                      execution_time := 0 |}) by reflexivity.
  rewrite E in Hres. injection Hres as <-. discriminate.
Qed.

(** A world in which the task cannot be written to its file. *)
Definition w_disk_full : Ref.world :=
  {| Ref.cursor := 0; Ref.clock := 0;
     Ref.tempfile_script :=
       Raise (Exn OSError "[Errno 28] No space left on device");
     Ref.run_script := OK (0%Z, "2", "");
     Ref.connect_script := [] |}.

(** Docker unavailable, a task that cannot be written, a run that hits the
    time limit, and a run that completes. *)
Lemma sandbox_could_not_execute_witness :
  let code := JStr "print(1+1)" in
  let type := JStr "python_code" in
  _execute_in_sandbox code type (node_with false sd_keyed Ref.w0)
  = (OK {| exit_code := -1;
           stdout := "";
           stderr := "Docker not available. Please install Docker to enable sandbox execution.";
           execution_time := 0 |},
     node_with false sd_keyed Ref.w0)
  /\ fst (_execute_in_sandbox code type (node_with true sd_keyed w_disk_full))
     = OK {| exit_code := -1;
             stdout := "";
             stderr := "Execution error: [Errno 28] No space left on device";
             execution_time := 0 |}
  /\ fst (_execute_in_sandbox code type (node_with true sd_keyed w_timeout))
     = OK {| exit_code := -1;
             stdout := "";
             stderr := "Execution timeout (30 seconds)";
             execution_time := 0 |}
  /\ fst (_execute_in_sandbox code type (node_with true sd_keyed Ref.w0))
     = OK {| exit_code := 0; stdout := "2"; stderr := "";
             execution_time := 0 |}.
Proof.
  cbv zeta. split; [|split; [|split]].
  - pose proof (sandbox_could_not_execute (JStr "print(1+1)")
                  (JStr "python_code") (node_with false sd_keyed Ref.w0)) as H.
    cbv zeta in H. destruct H as (H & _).
    exact (H eq_refl).
  - pose proof (sandbox_could_not_execute (JStr "print(1+1)")
                  (JStr "python_code") (node_with true sd_keyed w_disk_full))
      as H.
    cbv zeta in H. destruct H as (_ & H & _).
    exact (proj1 (H eq_refl (Exn OSError "[Errno 28] No space left on device")
                    w_disk_full eq_refl)).
  - pose proof (sandbox_could_not_execute (JStr "print(1+1)")
                  (JStr "python_code") (node_with true sd_keyed w_timeout))
      as H.
    cbv zeta in H. destruct H as (_ & _ & H & _).
    exact (H eq_refl "/tmp/tmpk3v9.py" w_timeout
             (Exn asyncio_TimeoutError "") w_timeout eq_refl eq_refl).
  - pose proof (sandbox_could_not_execute (JStr "print(1+1)")
                  (JStr "python_code") (node_with true sd_keyed Ref.w0)) as H.
    cbv zeta in H. destruct H as (_ & _ & _ & H & _).
    exact (H eq_refl "/tmp/tmpk3v9.py" Ref.w0 0%Z "2" "" Ref.w0
             eq_refl eq_refl).
Defined.

(** A world in which the relay refuses every connection. *)
Definition w_refused : Ref.world :=
  {| Ref.cursor := 0; Ref.clock := 0;
     Ref.tempfile_script := OK "/tmp/tmpk3v9.py";
     Ref.run_script := OK (0%Z, "2", "");
     Ref.connect_script :=
       repeat (Raise (Exn OSError "Connection refused")) 7 |}.

(** Five attempts, the four sleeps, 65 seconds on the clock, two refusals
    left unused, and [ConnectionError]. *)
Example connect_to_signaling_unreachable :
  let url := "http://localhost:10000" in
  let run := connect_to_signaling (node_with true sd_keyed w_refused) in
  fst run = Raise (Exn ConnectionError
                     "Signaling connection failed: Connection refused")
  /\ trace (snd run) =
     [EvConnect url; EvSleep 5; EvConnect url; EvSleep 10; EvConnect url;
      EvSleep 20; EvConnect url; EvSleep 30; EvConnect url]
  /\ Ref.clock (world (snd run)) = 65%Z
  /\ reconnect_count (node (snd run)) = 5%nat
  /\ length (Ref.connect_script (world (snd run))) = 2%nat.
Proof. cbv zeta. repeat split; vm_compute; reflexivity. Qed.

(** A world in which the relay refuses two connections and accepts the
    third. *)
Definition w_two_refusals : Ref.world :=
  {| Ref.cursor := 0; Ref.clock := 0;
     Ref.tempfile_script := OK "/tmp/tmpk3v9.py";
     Ref.run_script := OK (0%Z, "2", "");
     Ref.connect_script := repeat (Raise (Exn OSError "Connection refused")) 2 |}.

(** The third attempt succeeds; and all five attempts fail. *)
Lemma connect_to_signaling_backoff_witness :
  let url := "http://localhost:10000" in
  let run3 := connect_to_signaling (node_with true sd_keyed w_two_refusals) in
  let run5 := connect_to_signaling (node_with true sd_keyed w_refused) in
  (fst run3 = OK tt
   /\ trace (snd run3) =
      [EvConnect url; EvSleep 5; EvConnect url; EvSleep 10; EvConnect url]
   /\ reconnect_count (node (snd run3)) = 0%nat)
  /\ (fst run5 = Raise (Exn ConnectionError
                          "Signaling connection failed: Connection refused")
      /\ trace (snd run5) =
         [EvConnect url; EvSleep 5; EvConnect url; EvSleep 10; EvConnect url;
          EvSleep 20; EvConnect url; EvSleep 30; EvConnect url]
      /\ reconnect_count (node (snd run5)) = 5%nat).
Proof.
  cbv zeta. split.
  - destruct (proj1 (connect_to_signaling_backoff
                       (node_with true sd_keyed w_two_refusals)) 2%nat)
      as (Hr & Ht & _ & Hn).
    + lia.
    + intros [|[|i]] Hi; [reflexivity | reflexivity | lia].
    + reflexivity.
    + split; [exact Hr|]. split; [exact Ht|]. now rewrite Hn.
  - destruct (proj2 (connect_to_signaling_backoff
                       (node_with true sd_keyed w_refused))
                (Exn OSError "Connection refused"))
      as (Hr & Ht & _ & Hn & _).
    + intros [|[|[|[|i]]]] Hi; first [reflexivity | lia].
    + reflexivity.
    + split; [exact Hr|]. split; [exact Ht|]. exact Hn.
Defined.

(* ===================================================================== *)
(** ** Further properties of [CryptoSession] *)
(* ===================================================================== *)

#[local] Remove Hints Ref.platform Ref.host : typeclass_instances.

Section CryptoSessionMore.

Context `{Platform}.

(** RSA-OAEP is correct: what was encrypted for the public key of a private
    key decrypts under that private key. *)
Definition rsa_correct : Prop :=
  forall sk m w c,
    fst (rsa_oaep_encrypt (rsa_public_key sk) m w) = OK c ->
    rsa_oaep_decrypt sk c = OK m.

(** The two keys of a session belong together. *)
Definition keypair_ok (self : CryptoSession) : Prop :=
  public_key self = rsa_public_key (private_key self).

(** [decrypt_payload] on a payload sealed under the session's key with any
    nonce of 12 bytes. *)
Lemma decrypt_payload_sealed (self : CryptoSession) (key nonce data : bytes) :
  gcm_correct ->
  aes_key self = Some key -> aes_key_ok key = true ->
  length nonce = 12%nat ->
  decrypt_payload self (b64_text (nonce ++ gcm_seal key nonce data)) =
  bytes_decode data.
Proof.
  intros Hgcm Hkey Hok Hn.
  rewrite (decrypt_payload_established self key _ _ Hkey Hok
             (b64_text_decode _)).
  destruct (slices_of_sealed nonce (gcm_seal key nonce data) Hn) as [-> ->].
  destruct (Hgcm key nonce data Hok (nonce_ok_12 nonce Hn)) as [Hopen Hsize].
  unfold AESGCM_decrypt, check_params.
  rewrite (nonce_ok_12 nonce Hn). cbn [bind].
  replace (length (gcm_seal key nonce data) <? 16)%nat with false
    by (symmetry; apply Nat.ltb_ge; lia).
  rewrite Hopen. cbn [bind].
  unfold bytes_decode. now destruct (utf8_valid data).
Qed.

Lemma exchange_aes_key_ok (self : CryptoSession) (e : string) (c k : bytes) :
  urlsafe_b64decode (str_encode e) = OK c ->
  decrypt_rsa self c = OK k ->
  exchange_aes_key self e = (OK tt, set_aes_key self k).
Proof.
  intros Hdec Hrsa. unfold exchange_aes_key. now rewrite Hdec, Hrsa.
Qed.

(** X1.  The empty key. When the key that [exchange_aes_key] decrypts is the
    empty [bytes] object the call succeeds and stores it, and the session
    still refuses to seal and to unseal: [if not self.aes_key] treats [b'']
    like [None]. *)
Theorem empty_key_counts_as_no_key (self : CryptoSession)
    (encrypted_aes_key : string) (c : bytes) :
  urlsafe_b64decode (str_encode encrypted_aes_key) = OK c ->
  decrypt_rsa self c = OK [] ->
  let self' := snd (exchange_aes_key self encrypted_aes_key) in
  fst (exchange_aes_key self encrypted_aes_key) = OK tt
  /\ aes_key self' = Some []
  /\ (forall P w, encrypt_payload self' P w = (Raise not_ready_error, w))
  /\ (forall e, decrypt_payload self' e = Raise not_ready_error).
Proof.
  intros Hdec Hrsa. cbv zeta.
  rewrite (exchange_aes_key_ok self _ c [] Hdec Hrsa). cbn [fst snd].
  repeat split.
Qed.

(** X2.  A key of a length AES does not have. On a session whose key is set
    to a non-empty value that is not 16, 24 or 32 bytes long,
    [encrypt_payload] raises the [ValueError] of [AESGCM(key)], after it has
    drawn the nonce; [decrypt_payload] raises the same error for every
    argument that is base64, and the decoder's error for the others. Neither
    ever returns a value. *)
Theorem invalid_key_length_raises (self : CryptoSession) (key : bytes) :
  aes_key self = Some key -> key <> [] -> aes_key_ok key = false ->
  let bad_key :=
    Exn ValueError "AESGCM key must be 128, 192, or 256 bits." in
  (forall P w,
     encrypt_payload self P w = (Raise bad_key, snd (os_urandom 12 w)))
  /\ (forall e,
        decrypt_payload self e =
        match urlsafe_b64decode (str_encode e) with
        | OK _ => Raise bad_key
        | Raise err => Raise err
        end)
  /\ (forall e, is_ok (decrypt_payload self e) = false).
Proof.
  intros Hkey Hne Hbad. cbv zeta.
  assert (Htruthy : truthy (Some key) = true) by (now destruct key).
  assert (Hdec : forall e,
             decrypt_payload self e =
             match urlsafe_b64decode (str_encode e) with
             | OK _ =>
                 Raise (Exn ValueError
                          "AESGCM key must be 128, 192, or 256 bits.")
             | Raise err => Raise err
             end).
  { intros e. unfold decrypt_payload.
    rewrite Hkey, Htruthy. cbn [negb default from_option id].
    destruct (urlsafe_b64decode (str_encode e)) as [full|err] eqn:E;
      cbn [bind].
    - unfold AESGCM. now rewrite Hbad.
    - cbn [reraise_InvalidTag_as].
      now rewrite (urlsafe_b64decode_error _ _ E). }
  split; [|split].
  - intros P w. unfold encrypt_payload.
    rewrite Hkey, Htruthy. cbn [negb default from_option id].
    destruct (os_urandom 12 w) as [nonce w1]. cbn [snd].
    unfold AESGCM. now rewrite Hbad.
  - exact Hdec.
  - intros e. rewrite Hdec.
    now destruct (urlsafe_b64decode (str_encode e)).
Qed.

(** X3.  Unsealing what a peer sealed. On a session with an established key,
    [decrypt_payload] of the encoding of a 12-byte nonce followed by the
    AES-GCM output for that nonce and any data returns the data decoded as
    UTF-8: the text when the data is one, and otherwise the codec's
    [UnicodeDecodeError], which is not the integrity error. *)
Theorem decrypt_payload_of_sealed_data (self : CryptoSession)
    (key nonce data : bytes) :
  gcm_correct ->
  aes_key self = Some key -> aes_key_ok key = true ->
  length nonce = 12%nat ->
  let payload := b64_text (nonce ++ gcm_seal key nonce data) in
  (forall text, bytes_decode data = OK text ->
     decrypt_payload self payload = OK text /\ str_encode text = data)
  /\ (utf8_valid data = false ->
      exists err,
        decrypt_payload self payload = Raise err
        /\ exn_class_of err = UnicodeDecodeError
        /\ err <> integrity_error).
Proof.
  intros Hgcm Hkey Hok Hn. cbv zeta.
  rewrite (decrypt_payload_sealed self key nonce data Hgcm Hkey Hok Hn).
  split.
  - intros text Htext. split; [exact Htext|].
    now apply str_encode_decode.
  - intros Hbad. unfold bytes_decode. rewrite Hbad.
    eexists. split; [reflexivity|]. split; [reflexivity|discriminate].
Qed.

(** X4.  The RSA keys of a session. A new session holds a private key and
    the public key that belongs to it, and no call of [exchange_aes_key] or
    [generate_and_encrypt_aes_key], successful or not, changes either. *)
Theorem rsa_keys_never_change :
  (forall w, keypair_ok (fst (CryptoSession_init w)))
  /\ (forall self e,
        private_key (snd (exchange_aes_key self e)) = private_key self
        /\ public_key (snd (exchange_aes_key self e)) = public_key self)
  /\ (forall self pem w,
        let self' := snd (fst (generate_and_encrypt_aes_key self pem w)) in
        private_key self' = private_key self
        /\ public_key self' = public_key self).
Proof.
  split; [|split].
  - intros w. unfold CryptoSession_init, keypair_ok.
    now destruct (rsa_generate_private_key w).
  - intros self e. unfold exchange_aes_key.
    destruct (urlsafe_b64decode (str_encode e)) as [c|]; [|now split].
    destruct (decrypt_rsa self c); now split.
  - intros self pem w. cbv zeta. unfold generate_and_encrypt_aes_key.
    destruct (os_urandom 32 w) as [k w1].
    destruct (load_pem_public_key (str_encode pem)) as [pk|]; [|now split].
    destruct (rsa_oaep_encrypt pk k w1) as [[c|] w2]; now split.
Qed.

(** X5.  Key agreement. Let [pem] load as the public key of the session
    [node]. When [initiator.generate_and_encrypt_aes_key(pem)] returns a
    text and [node.exchange_aes_key] is given that text, the call succeeds
    and both sessions hold the same key, of 32 bytes; from then on what
    either of them seals the other unseals. *)
Theorem key_agreement (initiator node : CryptoSession) (pem : string)
    (w : World) (e : string) :
  urandom_length -> gcm_correct -> rsa_correct ->
  keypair_ok node ->
  load_pem_public_key (str_encode pem) = OK (public_key node) ->
  fst (fst (generate_and_encrypt_aes_key initiator pem w)) = OK e ->
  let initiator' := snd (fst (generate_and_encrypt_aes_key initiator pem w)) in
  let node' := snd (exchange_aes_key node e) in
  fst (exchange_aes_key node e) = OK tt
  /\ aes_key node' = aes_key initiator'
  /\ aes_key initiator' = Some (fst (os_urandom 32 w))
  /\ (forall P w1, is_str P ->
        exists t, fst (encrypt_payload initiator' P w1) = OK t
                  /\ decrypt_payload node' t = OK P)
  /\ (forall P w1, is_str P ->
        exists t, fst (encrypt_payload node' P w1) = OK t
                  /\ decrypt_payload initiator' t = OK P).
Proof.
  intros Hlen Hgcm Hrsa Hpair Hpem He. cbv zeta.
  unfold generate_and_encrypt_aes_key in *.
  pose proof (Hlen 32%nat w) as Hk.
  destruct (os_urandom 32 w) as [k w1]. cbn [fst] in Hk.
  rewrite Hpem in *.
  destruct (rsa_oaep_encrypt (public_key node) k w1) as [[c|err] w2] eqn:Eenc;
    cbn [fst snd] in *; [|discriminate].
  rewrite bytes_decode_b64 in He. injection He as <-.
  assert (Hdec : decrypt_rsa node c = OK k).
  { unfold decrypt_rsa. apply (Hrsa (private_key node) k w1 c).
    rewrite <- Hpair. now rewrite Eenc. }
  rewrite (exchange_aes_key_ok node _ c k (b64_text_decode c) Hdec).
  cbn [fst snd].
  assert (Hok : aes_key_ok k = true) by (unfold aes_key_ok; now rewrite Hk).
  split; [reflexivity|]. split; [reflexivity|]. split; [reflexivity|].
  split; intros P w' HP.
  - rewrite (encrypt_payload_established (set_aes_key initiator k) k P w'
               Hlen eq_refl Hok).
    eexists. split; [reflexivity|].
    rewrite (decrypt_payload_sealed (set_aes_key node k) k _ _ Hgcm eq_refl
               Hok (Hlen 12%nat w')).
    now apply bytes_decode_encode.
  - rewrite (encrypt_payload_established (set_aes_key node k) k P w'
               Hlen eq_refl Hok).
    eexists. split; [reflexivity|].
    rewrite (decrypt_payload_sealed (set_aes_key initiator k) k _ _ Hgcm
               eq_refl Hok (Hlen 12%nat w')).
    now apply bytes_decode_encode.
Qed.

End CryptoSessionMore.

Section SealedText.

Context `{Platform}.

(** The characters of a sealed payload: the URL-safe alphabet and the pad. *)
Definition urlsafe_alphabet : bytes :=
  str_encode
    "ABCDEFGHIJKLMNOPQRSTUVWXYZabcdefghijklmnopqrstuvwxyz0123456789-_=".

Lemma urlsafe_char_in_alphabet (v : N) :
  (v < 64)%N -> In (urlsafe_encode_translation (b2a v)) urlsafe_alphabet.
Proof.
  intros Hv.
  assert (Hall : forallb
            (fun v => bool_decide
                        (urlsafe_encode_translation (b2a v) ∈ urlsafe_alphabet))
            sextets = true) by (vm_compute; reflexivity).
  rewrite forallb_forall in Hall.
  specialize (Hall v (sextets_complete v Hv)).
  apply bool_decide_eq_true in Hall. now apply list_elem_of_In.
Qed.

Lemma urlsafe_b64encode_alphabet (s : bytes) :
  Forall (fun c => In c urlsafe_alphabet) (urlsafe_b64encode s).
Proof.
  assert (Hpad : In (urlsafe_encode_translation BASE64_PAD) urlsafe_alphabet).
  { apply list_elem_of_In.
    apply (bool_decide_eq_true_1 _). vm_compute. reflexivity. }
  induction s as [|a|a b|a b c rest IH] using bytes_ind3.
  - constructor.
  - destruct (sextet_bounds a a) as (H0 & _ & H1 & _).
    change (urlsafe_b64encode [a]) with
      [urlsafe_encode_translation (b2a (sx0 a));
       urlsafe_encode_translation (b2a (sx1_last a));
       urlsafe_encode_translation BASE64_PAD;
       urlsafe_encode_translation BASE64_PAD].
    repeat (constructor;
            [first [exact Hpad | apply urlsafe_char_in_alphabet; assumption]|]).
    constructor.
  - destruct (sextet_bounds a b) as (H0 & H1 & _).
    destruct (sextet_bounds b b) as (_ & _ & _ & _ & H2 & _).
    change (urlsafe_b64encode [a; b]) with
      [urlsafe_encode_translation (b2a (sx0 a));
       urlsafe_encode_translation (b2a (sx1 a b));
       urlsafe_encode_translation (b2a (sx2_last b));
       urlsafe_encode_translation BASE64_PAD].
    repeat (constructor;
            [first [exact Hpad | apply urlsafe_char_in_alphabet; assumption]|]).
    constructor.
  - destruct (sextet_bounds a b) as (H0 & H1 & _).
    destruct (sextet_bounds b c) as (_ & _ & _ & H2 & _).
    destruct (sextet_bounds c c) as (_ & _ & _ & _ & _ & H3).
    change (urlsafe_b64encode (a :: b :: c :: rest)) with
      (urlsafe_encode_translation (b2a (sx0 a))
       :: urlsafe_encode_translation (b2a (sx1 a b))
       :: urlsafe_encode_translation (b2a (sx2 b c))
       :: urlsafe_encode_translation (b2a (sx3 c))
       :: urlsafe_b64encode rest).
    repeat (constructor;
            [apply urlsafe_char_in_alphabet; assumption|]).
    exact IH.
Qed.

Lemma urlsafe_b64encode_length (s : bytes) :
  length (urlsafe_b64encode s) = (4 * ((length s + 2) / 3))%nat.
Proof.
  unfold urlsafe_b64encode. rewrite length_map.
  induction s as [|a|a b|a b c rest IH] using bytes_ind3.
  - reflexivity.
  - reflexivity.
  - reflexivity.
  - cbn [b2a_base64 length]. rewrite IH.
    replace (S (S (S (length rest))) + 2)%nat
      with (length rest + 2 + 1 * 3)%nat by lia.
    rewrite Nat.div_add by lia. lia.
Qed.

Lemma string_of_list_byte_length (l : bytes) :
  String.length (string_of_list_byte l) = length l.
Proof. induction l as [|b l IH]; simpl; [reflexivity | now f_equal]. Qed.

(** X6.  The text of a sealed payload. On a session with an established key,
    what [encrypt_payload] returns for a plaintext of [n] bytes is a [str]
    of [4 * ceil((n + 28) / 3)] characters, all of them letters, digits,
    [-], [_] or [=]. *)
Theorem sealed_text_shape (self : CryptoSession) (key : bytes) (P : string)
    (w : World) (e : string) :
  urandom_length -> gcm_correct ->
  aes_key self = Some key -> aes_key_ok key = true ->
  fst (encrypt_payload self P w) = OK e ->
  String.length e = (4 * ((length (str_encode P) + 30) / 3))%nat
  /\ Forall (fun c => In c urlsafe_alphabet) (str_encode e)
  /\ is_str e.
Proof.
  intros Hlen Hgcm Hkey Hok He.
  rewrite (encrypt_payload_established self key P w Hlen Hkey Hok) in He.
  cbn [fst] in He. injection He as <-.
  pose proof (Hlen 12%nat w) as Hn.
  set (nonce := fst (os_urandom 12 w)) in *.
  destruct (Hgcm key nonce (str_encode P) Hok (nonce_ok_12 nonce Hn))
    as [_ Hsize].
  split; [|split].
  - unfold b64_text.
    rewrite string_of_list_byte_length, urlsafe_b64encode_length.
    rewrite length_app, Hn, Hsize. f_equal. f_equal. lia.
  - rewrite str_encode_b64_text. apply urlsafe_b64encode_alphabet.
  - unfold is_str. rewrite str_encode_b64_text.
    apply utf8_valid_ascii, urlsafe_b64encode_ascii.
Qed.

End SealedText.

(* ===================================================================== *)
(** ** Further properties of the compute node *)
(* ===================================================================== *)

Section HandlerMore.

Context `{NodeHost}.

Local Open Scope Z_scope.

Lemma node_st_eta (st : NodeSt) :
  {| node := node st; world := world st; trace := trace st |} = st.
Proof. now destruct st. Qed.

Lemma node_eta (n : NeuraXComputeNode) :
  {| signaling_url := signaling_url n;
     reconnect_count := reconnect_count n;
     docker_available := docker_available n;
     sessions := sessions n |} = n.
Proof. now destruct n. Qed.

Lemma with_crypto_same (sd : session_data) : with_crypto (crypto sd) sd = sd.
Proof. now destruct sd. Qed.

(** An update that changes nothing. *)
Lemma update_session_id (session_id : string) (f : session_data -> session_data)
    (st : NodeSt) (sd : session_data) :
  sessions (node st) !! session_id = Some sd -> f sd = sd ->
  update_session session_id f st = (OK tt, st).
Proof.
  intros Hsd Hf. unfold update_session, set_sessions.
  destruct st as [[url count docker registry] w t]. cbn in *.
  do 3 f_equal.
  apply alter_id. intros x Hx. rewrite Hsd in Hx. now injection Hx as <-.
Qed.

Lemma get_public_key_pem_error (self : CryptoSession) :
  exists e, get_public_key_pem self = Raise e.
Proof. eexists. reflexivity. Qed.

Lemma aes_key_is_unchanged_on_failure (self : CryptoSession) (e : string) :
  is_ok (fst (exchange_aes_key self e)) = false ->
  snd (exchange_aes_key self e) = self.
Proof.
  unfold exchange_aes_key.
  destruct (urlsafe_b64decode (str_encode e)) as [c|]; [|reflexivity].
  now destruct (decrypt_rsa self c).
Qed.

(** The executor returns a result, and touches neither the node nor the
    trace. *)
Lemma execute_in_sandbox_frame (code task_type : json) (st : NodeSt) :
  is_ok (fst (_execute_in_sandbox code task_type st)) = true
  /\ node (snd (_execute_in_sandbox code task_type st)) = node st
  /\ trace (snd (_execute_in_sandbox code task_type st)) = trace st.
Proof.
  unfold _execute_in_sandbox, world_call. cbv zeta.
  destruct (negb (docker_available (node st))); [now repeat split|].
  destruct (write_temp_file code (world st)) as [[temp_file|e] w1];
    [|now repeat split].
  cbn [world].
  destruct (run_command_wait_for (docker_cmd temp_file) w1)
    as [[[[rc out] err]|e] w2]; now repeat split.
Qed.

(** X7.  The temporary file. When Docker is available, the executor writes
    the task to a temporary file; if that fails nothing is run and nothing
    is removed. Otherwise it runs [docker_cmd] on that file and, whatever
    the outcome of the run (completion, failure or time limit), removes the
    file afterwards; a run that completed gives its return code and its two
    streams as they are, with the time measured before the removal. *)
Theorem sandbox_removes_its_temp_file (code task_type : json) (st : NodeSt) :
  docker_available (node st) = true ->
  match write_temp_file code (world st) with
  | (Raise _, w1) =>
      world (snd (_execute_in_sandbox code task_type st)) = w1
  | (OK temp_file, w1) =>
      let ran := run_command_wait_for (docker_cmd temp_file) w1 in
      world (snd (_execute_in_sandbox code task_type st))
      = os_unlink temp_file (snd ran)
      /\ forall returncode out err,
           fst ran = OK (returncode, out, err) ->
           fst (_execute_in_sandbox code task_type st)
           = OK {| exit_code := returncode;
                   stdout := out;
                   stderr := err;
                   execution_time :=
                     time_time (snd ran) - time_time (world st) |}
  end.
Proof.
  intros Hdocker. unfold _execute_in_sandbox, world_call.
  rewrite Hdocker. cbn [negb].
  destruct (write_temp_file code (world st)) as [[temp_file|e] w1];
    [|reflexivity].
  cbv zeta. cbn [world].
  destruct (run_command_wait_for (docker_cmd temp_file) w1)
    as [[[[rc out] err]|e] w2]; cbn [fst snd world].
  - split; [reflexivity|]. now intros ? ? ? [= <- <- <-].
  - split; [reflexivity|]. discriminate.
Qed.

(** The messages that the handler does not act on. *)
Definition unhandled (session_id message : string) (st : NodeSt) : Prop :=
  (* the session is not registered *)
  sessions (node st) !! session_id = None
  (* the text is not JSON *)
  \/ (exists e, json_loads message = Raise e)
  (* the document is not an object *)
  \/ (exists data e,
        json_loads message = OK data /\ json_get data "type" = Raise e)
  (* the type is neither [key_exchange] nor [encrypted_task] *)
  \/ (exists data msg_type,
        json_loads message = OK data
        /\ json_get data "type" = OK msg_type
        /\ py_eq_str msg_type "key_exchange" = false
        /\ py_eq_str msg_type "encrypted_task" = false)
  (* a [key_exchange] with another action, [aes_key_received] included *)
  \/ (exists data action,
        json_loads message = OK data
        /\ json_get data "type" = OK (Some (JStr "key_exchange"))
        /\ json_get data "action" = OK action
        /\ py_eq_str action "send_public_key" = false
        /\ py_eq_str action "send_aes_key" = false).

(** X8.  What the handler ignores. A message for a session that is not
    registered, a text that is not a JSON object, a message of an unknown
    type and a key exchange message with an unknown action change nothing:
    no session is created, nothing is sent, no error leaves the handler. *)
Theorem unhandled_message_changes_nothing (session_id message : string)
    (st : NodeSt) :
  unhandled session_id message st ->
  _handle_message session_id message st = st.
Proof.
  unfold _handle_message, handle_message_body, bindM, lift, get_node.
  intros [Hnone | [[e He] | [(data & e & Hd & He)
          | [(data & ty & Hd & Hty & Hk & Ht)
            | (data & action & Hd & Hty & Ha & Hp & Hs)]]]].
  - destruct (json_loads message) as [data|]; [|reflexivity].
    destruct (json_get data "type"); [|reflexivity].
    now rewrite Hnone.
  - now rewrite He.
  - now rewrite Hd, He.
  - rewrite Hd, Hty.
    destruct (sessions (node st) !! session_id); [|reflexivity].
    now rewrite Hk, Ht.
  - rewrite Hd, Hty.
    destruct (sessions (node st) !! session_id); [|reflexivity].
    cbn [py_eq_str]. rewrite bool_decide_eq_true_2 by reflexivity.
    unfold handle_key_exchange, bindM, lift.
    now rewrite Ha, Hp, Hs.
Qed.

(** X9.  The node never sends its public key. On a [send_public_key] message
    for a registered session the handler stores the peer's key in the
    session and then fails in [get_public_key_pem]: it sends no reply and
    leaves the world and the session's [CryptoSession] as they were. Without
    a [public_key] member it changes nothing at all. *)
Theorem send_public_key_is_never_answered (session_id message : string)
    (st : NodeSt) (data : json) (sd : session_data) :
  json_loads message = OK data ->
  json_get data "type" = OK (Some (JStr "key_exchange")) ->
  json_get data "action" = OK (Some (JStr "send_public_key")) ->
  sessions (node st) !! session_id = Some sd ->
  let st' := _handle_message session_id message st in
  trace st' = trace st
  /\ world st' = world st
  /\ sessions (node st') !! session_id
     = Some (match json_getitem data "public_key" with
             | OK v => with_remote_public_key v sd
             | Raise _ => sd
             end)
  /\ (crypto <$> sessions (node st') !! session_id) = Some (crypto sd).
Proof.
  intros Hload Htype Haction Hsd. cbv zeta.
  unfold _handle_message.
  rewrite (handle_message_key_exchange _ _ _ _ _ Hload Htype Hsd).
  unfold handle_key_exchange, bindM, lift.
  rewrite Haction. cbn [py_eq_str].
  rewrite bool_decide_eq_true_2 by reflexivity.
  destruct (json_getitem data "public_key") as [v|e].
  - destruct (get_public_key_pem_error (crypto sd)) as [e ->].
    cbn [update_session set_sessions snd node sessions world trace].
    rewrite lookup_alter_eq, Hsd. now repeat split.
  - cbn [snd]. rewrite Hsd. now repeat split.
Qed.

(** X10.  The acknowledgement of a key. On a [send_aes_key] message that
    carries a text, the handler calls [exchange_aes_key] on the session's
    [CryptoSession]. When that succeeds it sends one message,
    [aes_key_received], on the session's channel and nothing else; when it
    fails (not base64, RSA decryption error) it sends nothing and the node
    is left exactly as it was, the old key included. *)
Theorem send_aes_key_is_acknowledged (session_id message : string)
    (st : NodeSt) (data : json) (sd : session_data)
    (encrypted_aes_key : string) :
  json_loads message = OK data ->
  json_get data "type" = OK (Some (JStr "key_exchange")) ->
  json_get data "action" = OK (Some (JStr "send_aes_key")) ->
  json_getitem data "encrypted_aes_key" = OK (JStr encrypted_aes_key) ->
  sessions (node st) !! session_id = Some sd ->
  let st' := _handle_message session_id message st in
  let ack := json_dumps (JDict [("type", JStr "key_exchange");
                                ("action", JStr "aes_key_received")]) in
  match fst (exchange_aes_key (crypto sd) encrypted_aes_key) with
  | OK _ =>
      trace st' = (trace st ++ [EvSend (channel sd) ack])%list
      /\ world st' = snd (channel_send (channel sd) ack (world st))
  | Raise _ => st' = st
  end.
Proof.
  intros Hload Htype Haction Hitem Hsd. cbv zeta.
  unfold _handle_message.
  rewrite (handle_message_key_exchange _ _ _ _ _ Hload Htype Hsd).
  unfold handle_key_exchange, bindM, lift.
  rewrite Haction. cbn [py_eq_str].
  rewrite bool_decide_eq_false_2 by discriminate.
  rewrite bool_decide_eq_true_2 by reflexivity.
  rewrite Hitem.
  unfold session_exchange_aes_key, bindM, lift. cbn [str_arg].
  pose proof (aes_key_is_unchanged_on_failure (crypto sd) encrypted_aes_key)
    as Hfail.
  destruct (exchange_aes_key (crypto sd) encrypted_aes_key) as [[[]|e] crypto'].
  - cbn [fst update_session set_sessions].
    unfold send, host_call. cbn [world trace].
    destruct (channel_send _ _ (world st)) as [r w']. now split.
  - cbn [fst snd is_ok] in *. rewrite (Hfail eq_refl).
    rewrite (update_session_id session_id _ st sd Hsd (with_crypto_same sd)).
    reflexivity.
Qed.

End HandlerMore.

Section HandlerConfinement.

Context `{NodeHost}.

(** The events on one channel. *)
Definition on_channel (ch : Channel) (ev : io_event Channel) : Prop :=
  match ev with
  | EvSend c _ => c = ch
  | EvClose c => c = ch
  | _ => False
  end.

(** [st'] differs from [st] only in what one session may do: the node's
    attributes are the same, every other session is the same, the session
    was not created and kept its peer connection and its channel, and the
    trace grew by events on the channel [ch]. *)
Definition confined (session_id : string) (ch : Channel) (st st' : NodeSt)
    : Prop :=
  signaling_url (node st') = signaling_url (node st)
  /\ reconnect_count (node st') = reconnect_count (node st)
  /\ docker_available (node st') = docker_available (node st)
  /\ (forall other, other <> session_id ->
        sessions (node st') !! other = sessions (node st) !! other)
  /\ (forall sd', sessions (node st') !! session_id = Some sd' ->
        exists sd, sessions (node st) !! session_id = Some sd
                   /\ pc sd' = pc sd /\ channel sd' = channel sd)
  /\ exists new, trace st' = (trace st ++ new)%list
                 /\ Forall (on_channel ch) new.

Definition keeps {A} (session_id : string) (ch : Channel) (m : NodeM A)
    : Prop :=
  forall st, confined session_id ch st (snd (m st)).

Lemma confined_refl (session_id : string) (ch : Channel) (st : NodeSt) :
  confined session_id ch st st.
Proof.
  repeat split; try reflexivity.
  - intros sd' Hsd'. now exists sd'.
  - exists []. split; [now rewrite app_nil_r | constructor].
Qed.

Lemma confined_trans (session_id : string) (ch : Channel)
    (st1 st2 st3 : NodeSt) :
  confined session_id ch st1 st2 -> confined session_id ch st2 st3 ->
  confined session_id ch st1 st3.
Proof.
  intros (Hu & Hr & Hd & Ho & Hs & new1 & Ht1 & Hn1)
         (Hu' & Hr' & Hd' & Ho' & Hs' & new2 & Ht2 & Hn2).
  repeat split; try congruence.
  - intros other Hne. rewrite (Ho' other Hne). now apply Ho.
  - intros sd3 H3.
    destruct (Hs' sd3 H3) as (sd2 & H2 & Hpc & Hch).
    destruct (Hs sd2 H2) as (sd1 & H1 & Hpc' & Hch').
    exists sd1. repeat split; congruence.
  - exists (new1 ++ new2)%list. split.
    + now rewrite Ht2, Ht1, app_assoc.
    + now apply Forall_app.
Qed.

Lemma keeps_ret {A} (session_id : string) (ch : Channel) (a : A) :
  keeps session_id ch (ret a).
Proof. intros st. apply confined_refl. Qed.

Lemma keeps_lift {A} (session_id : string) (ch : Channel) (r : result A) :
  keeps session_id ch (lift r).
Proof. intros st. apply confined_refl. Qed.

Lemma keeps_bind {A B} (session_id : string) (ch : Channel)
    (m : NodeM A) (k : A -> NodeM B) :
  keeps session_id ch m -> (forall a, keeps session_id ch (k a)) ->
  keeps session_id ch (bindM m k).
Proof.
  intros Hm Hk st. unfold bindM. specialize (Hm st).
  destruct (m st) as [[a|e] st1]; cbn [snd] in *; [|exact Hm].
  eapply confined_trans; [exact Hm | apply Hk].
Qed.

Lemma keeps_world_call {A} (session_id : string) (ch : Channel)
    (op : World -> result A * World) :
  keeps session_id ch (world_call op).
Proof.
  intros st. unfold world_call. destruct (op (world st)) as [r w'].
  repeat split; try reflexivity.
  - intros sd' Hsd'. now exists sd'.
  - exists []. split; [now rewrite app_nil_r | constructor].
Qed.

Lemma keeps_host_call {A} (session_id : string) (ch : Channel)
    (ev : io_event Channel) (op : World -> result A * World) :
  on_channel ch ev -> keeps session_id ch (host_call ev op).
Proof.
  intros Hev st. unfold host_call. destruct (op (world st)) as [r w'].
  repeat split; try reflexivity.
  - intros sd' Hsd'. now exists sd'.
  - exists [ev]. split; [reflexivity | now repeat constructor].
Qed.

Lemma keeps_update_session (session_id : string) (ch : Channel)
    (f : session_data -> session_data) :
  (forall sd, pc (f sd) = pc sd /\ channel (f sd) = channel sd) ->
  keeps session_id ch (update_session session_id f).
Proof.
  intros Hf st. unfold update_session, set_sessions, confined.
  cbn [snd node sessions signaling_url reconnect_count docker_available
       trace world].
  repeat split; try reflexivity.
  - intros other Hne. now apply lookup_alter_ne.
  - intros sd'. rewrite lookup_alter_eq.
    destruct (sessions (node st) !! session_id) as [sd|]; [|discriminate].
    cbn. intros [= <-]. exists sd. destruct (Hf sd). now repeat split.
  - exists []. split; [now rewrite app_nil_r | constructor].
Qed.

Lemma keeps_delete_session (session_id : string) (ch : Channel) :
  keeps session_id ch (set_sessions (delete session_id)).
Proof.
  intros st. unfold set_sessions, confined.
  cbn [snd node sessions signaling_url reconnect_count docker_available
       trace world].
  repeat split; try reflexivity.
  - intros other Hne. now apply lookup_delete_ne.
  - intros sd'. now rewrite lookup_delete_eq.
  - exists []. split; [now rewrite app_nil_r | constructor].
Qed.

Lemma keeps_execute_in_sandbox (session_id : string) (ch : Channel)
    (code task_type : json) :
  keeps session_id ch (_execute_in_sandbox code task_type).
Proof.
  intros st.
  destruct (execute_in_sandbox_frame code task_type st) as (_ & Hn & Ht).
  unfold confined. rewrite Hn, Ht.
  repeat split; try reflexivity.
  - intros sd' Hsd'. now exists sd'.
  - exists []. split; [now rewrite app_nil_r | constructor].
Qed.

Lemma keeps_send (session_id : string) (ch : Channel) (message : json) :
  keeps session_id ch (send ch message).
Proof. apply keeps_host_call. reflexivity. Qed.

Lemma keeps_handle_key_exchange (session_id : string) (sd : session_data)
    (data : json) :
  keeps session_id (channel sd) (handle_key_exchange session_id sd data).
Proof.
  unfold handle_key_exchange.
  apply keeps_bind; [apply keeps_lift|]. intros action.
  destruct (py_eq_str action "send_public_key").
  - apply keeps_bind; [apply keeps_lift|]. intros remote.
    apply keeps_bind; [now apply keeps_update_session|]. intros _.
    apply keeps_bind; [apply keeps_lift|]. intros pem.
    apply keeps_send.
  - destruct (py_eq_str action "send_aes_key"); [|apply keeps_ret].
    apply keeps_bind; [apply keeps_lift|]. intros v.
    apply keeps_bind; [|intros _; apply keeps_send].
    unfold session_exchange_aes_key.
    apply keeps_bind; [apply keeps_lift|]. intros e.
    destruct (exchange_aes_key (crypto sd) e) as [r crypto'].
    apply keeps_bind; [now apply keeps_update_session|]. intros _.
    apply keeps_lift.
Qed.

Lemma keeps_handle_encrypted_task (session_id : string) (sd : session_data)
    (data : json) :
  keeps session_id (channel sd) (handle_encrypted_task session_id sd data).
Proof.
  unfold handle_encrypted_task.
  do 6 (apply keeps_bind; [apply keeps_lift|]; intros ?).
  apply keeps_bind; [apply keeps_execute_in_sandbox|]. intros res.
  apply keeps_bind; [apply keeps_world_call|]. intros enc.
  apply keeps_bind; [apply keeps_send|]. intros _.
  apply keeps_bind; [now apply keeps_host_call|]. intros _.
  apply keeps_delete_session.
Qed.

(** X11.  One message, one session. Whatever the message, the handler leaves
    the node's own attributes and every other session as they were, creates
    no session, keeps the peer connection and the channel of the session it
    was called for, and sends or closes on no channel but that session's;
    when the session is not registered it changes nothing. *)
Theorem handler_is_confined_to_its_session (session_id message : string)
    (st : NodeSt) :
  match sessions (node st) !! session_id with
  | Some sd =>
      confined session_id (channel sd) st
        (_handle_message session_id message st)
  | None => _handle_message session_id message st = st
  end.
Proof.
  unfold _handle_message, handle_message_body, bindM, lift, get_node.
  destruct (sessions (node st) !! session_id) as [sd|] eqn:Hsd.
  - destruct (json_loads message) as [data|]; [|apply confined_refl].
    destruct (json_get data "type") as [msg_type|]; [|apply confined_refl].
    cbn [node]. rewrite ?Hsd.
    destruct (py_eq_str msg_type "key_exchange");
      [apply keeps_handle_key_exchange|].
    destruct (py_eq_str msg_type "encrypted_task");
      [apply keeps_handle_encrypted_task | apply confined_refl].
  - destruct (json_loads message) as [data|]; [|reflexivity].
    destruct (json_get data "type"); [|reflexivity].
    cbn [node]. now rewrite ?Hsd.
Qed.

End HandlerConfinement.

Section TaskPath.

Context `{NodeHost}.

(** A session that unseals something holds a key of a valid length. *)
Lemma decrypt_payload_ok_key (self : CryptoSession) (e p : string) :
  decrypt_payload self e = OK p ->
  exists key, aes_key self = Some key /\ aes_key_ok key = true.
Proof.
  unfold decrypt_payload.
  destruct (aes_key self) as [key|]; [|discriminate].
  destruct (truthy (Some key)); [|discriminate].
  cbn [negb default from_option id].
  intros Hdec. exists key. split; [reflexivity|].
  destruct (urlsafe_b64decode (str_encode e)) as [full|err]; cbn [bind] in Hdec.
  - unfold AESGCM in Hdec. destruct (aes_key_ok key); [reflexivity|].
    discriminate.
  - cbn in Hdec. now destruct (decide (exn_class_of err = InvalidTag)).
Qed.

(** The JSON text of a result, as the handler builds it. *)
Definition result_json (res : ExecutionResult) : string :=
  json_dumps
    (JDict [("exit_code", JNum (exit_code res));
            ("stdout", JStr (stdout res));
            ("stderr", JStr (stderr res));
            ("execution_time", JNum (execution_time res))]).

(** The [encrypted_result] message for a sealed result. *)
Definition encrypted_result_message (encrypted_result : string) : string :=
  json_dumps
    (JDict [("type", JStr "encrypted_result");
            ("encrypted_data", JStr encrypted_result)]).

(** X12.  A task that goes through.  Take an [encrypted_task] message for
    a registered session whose payload unseals to a JSON object, with a
    [code] that has a length.  Then the handler runs the executor once on
    the [code] and [type] of the task (defaults [''] and ['python_code']),
    seals the JSON of the result and sends it as one [encrypted_result]
    message on the session's channel; the payload it sends unseals, under
    the session's key, to the JSON of the result.  What follows depends on
    the awaited [send]: when it raises, the error is logged, the channel is
    not closed and the session stays registered; when it returns, the
    handler closes the channel, and removes the session only if the awaited
    [close] returns too. *)
Theorem task_is_executed_and_answered (session_id message : string)
    (st : NodeSt) (data : json) (sd : session_data) (e plaintext : string)
    (task_json code task_type : json) (res : ExecutionResult) (st1 : NodeSt)
    (sealed : string) (w2 : World) :
  urandom_length -> gcm_correct ->
  json_loads message = OK data ->
  json_get data "type" = OK (Some (JStr "encrypted_task")) ->
  json_getitem data "encrypted_data" = OK (JStr e) ->
  sessions (node st) !! session_id = Some sd ->
  decrypt_payload (crypto sd) e = OK plaintext ->
  json_loads plaintext = OK task_json ->
  json_get_default task_json "code" (JStr "") = OK code ->
  json_get_default task_json "type" (JStr "python_code") = OK task_type ->
  is_ok (py_len code) = true ->
  _execute_in_sandbox code task_type st = (OK res, st1) ->
  is_str (result_json res) ->
  encrypt_payload (crypto sd) (result_json res) (world st1) = (OK sealed, w2) ->
  let st' := _handle_message session_id message st in
  let reply := encrypted_result_message sealed in
  let sent := channel_send (channel sd) reply w2 in
  let closed := channel_close (channel sd) (snd sent) in
  decrypt_payload (crypto sd) sealed = OK (result_json res)
  /\ match fst sent with
     | Raise _ =>
         trace st' = (trace st ++ [EvSend (channel sd) reply])%list
         /\ world st' = snd sent
         /\ sessions (node st') = sessions (node st)
     | OK _ =>
         trace st' =
         (trace st ++ [EvSend (channel sd) reply; EvClose (channel sd)])%list
         /\ world st' = snd closed
         /\ sessions (node st') =
            match fst closed with
            | OK _ => delete session_id (sessions (node st))
            | Raise _ => sessions (node st)
            end
     end.
Proof.
  intros Hlen Hgcm Hload Htype Hitem Hsd Hdec Htask Hcode Hty Hpl Hrun Hstr
    Henc. cbv zeta.
  destruct (execute_in_sandbox_frame code task_type st) as (_ & Hn & Ht).
  rewrite Hrun in Hn, Ht. cbn [snd] in Hn, Ht.
  split.
  { destruct (decrypt_payload_ok_key _ _ _ Hdec) as (key & Hkey & Hok).
    rewrite (encrypt_payload_established (crypto sd) key _ _ Hlen Hkey Hok)
      in Henc.
    injection Henc as <- _.
    rewrite (decrypt_payload_sealed (crypto sd) key _ _ Hgcm Hkey Hok
               (Hlen 12%nat (world st1))).
    now apply bytes_decode_encode. }
  unfold _handle_message.
  rewrite (handle_message_encrypted_task _ _ _ _ _ Hload Htype Hsd).
  unfold handle_encrypted_task, bindM, lift.
  rewrite Hitem. cbn [session_decrypt_payload].
  rewrite Hdec, Htask, Hcode, Hty.
  destruct (py_len code) as [n|]; [|discriminate].
  rewrite Hrun.
  unfold world_call. fold (result_json res). rewrite Henc.
  unfold send, host_call. cbn [world trace node].
  fold (encrypted_result_message sealed).
  destruct (channel_send (channel sd) (encrypted_result_message sealed) w2)
    as [[[]|err] w3]; cbn [fst snd world trace node].
  - destruct (channel_close (channel sd) w3) as [[[]|err] w4];
      cbn [fst snd set_sessions world trace node sessions];
      rewrite ?Hn, Ht, <- app_assoc; now repeat split.
  - rewrite Hn, Ht. now repeat split.
Qed.

(** The tasks that the handler does not run, although they unseal. *)
Definition malformed_task (plaintext : string) : Prop :=
  (* the text is not JSON *)
  (exists err, json_loads plaintext = Raise err)
  (* the document is not an object *)
  \/ (exists task_json err,
        json_loads plaintext = OK task_json
        /\ json_get task_json "code" = Raise err)
  (* the code is a number, a boolean or [null] *)
  \/ (exists d code err,
        json_loads plaintext = OK (JDict d)
        /\ assoc "code" d = Some code
        /\ py_len code = Raise err).

(** X13.  A task that is not run. Take an [encrypted_task] message for a
    registered session whose payload unseals, but to a text that is not
    JSON, or not a JSON object, or to an object whose [code] has no length.
    Then the handler fails before it calls the executor: nothing is written
    or run, nothing is sent, the channel stays open and the session stays
    registered; the node is left as it was. *)
Theorem malformed_task_is_not_run (session_id message : string)
    (st : NodeSt) (data : json) (sd : session_data) (e plaintext : string) :
  json_loads message = OK data ->
  json_get data "type" = OK (Some (JStr "encrypted_task")) ->
  json_getitem data "encrypted_data" = OK (JStr e) ->
  sessions (node st) !! session_id = Some sd ->
  decrypt_payload (crypto sd) e = OK plaintext ->
  malformed_task plaintext ->
  _handle_message session_id message st = st.
Proof.
  intros Hload Htype Hitem Hsd Hdec Hbad.
  unfold _handle_message.
  rewrite (handle_message_encrypted_task _ _ _ _ _ Hload Htype Hsd).
  unfold handle_encrypted_task, bindM, lift.
  rewrite Hitem. cbn [session_decrypt_payload]. rewrite Hdec.
  destruct Hbad as [[err Herr] | [(task_json & err & Htask & Hcode)
                                 | (d & code & err & Htask & Hcode & Hlen)]].
  - now rewrite Herr.
  - rewrite Htask.
    destruct task_json; cbn in Hcode; try discriminate; reflexivity.
  - rewrite Htask. cbn [json_get_default json_get bind]. rewrite Hcode.
    cbn [default from_option id]. now rewrite Hlen.
Qed.

End TaskPath.

(* ===================================================================== *)
(** ** The signaling handlers of the compute node *)
(* ===================================================================== *)

(** [await pc.addIceCandidate(RTCIceCandidate(candidate=..., sdpMid=...,
    sdpMLineIndex=...))], with the values read from the message. *)
Class IceHost `{NodeHost} := {
  add_ice_candidate :
    PeerConnection -> json -> option json -> option json ->
    World -> result unit * World;
}.

Section SignalingHandlers.

Context `{IceHost}.

(** The node with the attribute [self.connected], which only the
    signaling handlers and [run] use. *)
Record Signaling := {
  state : NodeSt;
  connected : bool;
}.

Definition with_sessions (registry : gmap string session_data)
    (reconnects : nat) (st : NodeSt) : NodeSt :=
  {| node := {| signaling_url := signaling_url (node st);
                reconnect_count := reconnects;
                docker_available := docker_available (node st);
                sessions := registry |};
     world := world st;
     trace := trace st |}.

(** The [connect] event handler. *)
Definition on_connect (s : Signaling) : Signaling :=
  {| state := with_sessions (sessions (node (state s))) 0 (state s);
     connected := true |}.

(** The [disconnect] event handler: [self.sessions.clear()]. *)
Definition on_disconnect (s : Signaling) : Signaling :=
  {| state := with_sessions ∅ (reconnect_count (node (state s))) (state s);
     connected := false |}.

(** The [connect_error] event handler. *)
Definition on_connect_error (data : json) (s : Signaling) : Signaling :=
  {| state := state s; connected := false |}.

(** A JSON value used as a key of [self.sessions], whose keys are session
    identifiers, strings: a string is looked up, a list or an object is
    unhashable, any other value is a key that the registry does not hold. *)
Definition registry_key (v : json) : result (option string) :=
  match v with
  | JStr s => OK (Some s)
  | JList _ => Raise (Exn TypeError "unhashable type: 'list'")
  | JDict _ => Raise (Exn TypeError "unhashable type: 'dict'")
  | _ => OK None
  end.

(** The [ice_candidate] event handler.  It has no [try]: what is raised
    leaves the handler. *)
Definition on_ice_candidate (data : json) : NodeM unit :=
  let* session_id := lift (json_getitem data "session_id") in
  let* key := lift (registry_key session_id) in
  let* self := get_node in
  match key ≫= (fun k => sessions self !! k) with
  | None => ret tt
  | Some sd =>
      let* candidate_dict := lift (json_getitem data "candidate") in
      let* candidate := lift (json_getitem candidate_dict "candidate") in
      let* sdp_mid := lift (json_get candidate_dict "sdpMid") in
      let* sdp_mline_index := lift (json_get candidate_dict "sdpMLineIndex") in
      world_call (add_ice_candidate (pc sd) candidate sdp_mid sdp_mline_index)
  end.

(** The [close] handler of the data channel of [session_id]. *)
Definition on_close (session_id : string) : NodeM unit :=
  let* self := get_node in
  match sessions self !! session_id with
  | Some _ => set_sessions (delete session_id)
  | None => ret tt
  end.

(** The [datachannel] handler of the peer connection [pc] made for the
    offer of [session_id]: a new [CryptoSession], and the session's entry. *)
Definition on_datachannel (session_id : string) (peer : PeerConnection)
    (ch : Channel) : NodeM unit :=
  let* crypto :=
    world_call (fun w => let '(c, w') := CryptoSession_init w in (OK c, w')) in
  set_sessions
    (insert session_id
       {| pc := peer; channel := ch; crypto := crypto;
          remote_public_key := None |}).

(** A message for a session that is not registered changes nothing. *)
Lemma handle_message_unknown_session (session_id message : string)
    (st : NodeSt) :
  sessions (node st) !! session_id = None ->
  _handle_message session_id message st = st.
Proof.
  intros Hnone.
  unfold _handle_message, handle_message_body, bindM, lift, get_node.
  destruct (json_loads message) as [data|]; [|reflexivity].
  destruct (json_get data "type"); [|reflexivity].
  now rewrite Hnone.
Qed.

Lemma on_ice_candidate_unknown (data session_id : json) (key : option string)
    (st : NodeSt) :
  json_getitem data "session_id" = OK session_id ->
  registry_key session_id = OK key ->
  key ≫= (fun k => sessions (node st) !! k) = None ->
  on_ice_candidate data st = (OK tt, st).
Proof.
  intros Hid Hkey Hnone. unfold on_ice_candidate, bindM, lift, get_node.
  now rewrite Hid, Hkey, Hnone.
Qed.

Lemma on_close_sessions (session_id : string) (st : NodeSt) :
  fst (on_close session_id st) = OK tt
  /\ sessions (node (snd (on_close session_id st)))
     = delete session_id (sessions (node st))
  /\ world (snd (on_close session_id st)) = world st
  /\ trace (snd (on_close session_id st)) = trace st.
Proof.
  unfold on_close, bindM, get_node.
  destruct (sessions (node st) !! session_id) eqn:E; cbn.
  - now repeat split.
  - repeat split. symmetry. now apply delete_id.
Qed.

(** X14.  Closing a session. The [close] handler of a session's channel
    removes that session and no other, sends nothing and never fails, also
    when the session is already gone: a second close changes nothing. After
    it, a message for the session changes nothing and an ICE candidate for
    it is accepted and ignored, whatever else it holds. *)
Theorem closed_session_is_gone (session_id : string) (st : NodeSt) :
  let st' := snd (on_close session_id st) in
  fst (on_close session_id st) = OK tt
  /\ sessions (node st') = delete session_id (sessions (node st))
  /\ trace st' = trace st
  /\ on_close session_id st' = (OK tt, st')
  /\ (forall message, _handle_message session_id message st' = st')
  /\ (forall data,
        json_getitem data "session_id" = OK (JStr session_id) ->
        on_ice_candidate data st' = (OK tt, st')).
Proof.
  cbv zeta.
  destruct (on_close_sessions session_id st) as (Hr & Hs & Hw & Ht).
  assert (Hgone : sessions (node (snd (on_close session_id st))) !! session_id
                  = None) by (rewrite Hs; apply lookup_delete_eq).
  split; [exact Hr|]. split; [exact Hs|]. split; [exact Ht|].
  split; [|split].
  - unfold on_close at 1 3. unfold bindM, get_node. now rewrite Hgone.
  - intros message. now apply handle_message_unknown_session.
  - intros data Hid.
    now apply (on_ice_candidate_unknown data (JStr session_id)
                 (Some session_id)).
Qed.

(** X15.  Losing the relay. The [disconnect] handler empties the registry
    and clears [connected]; it keeps the rest of the node, the world and the
    trace. After it every message, for whatever session, changes nothing,
    and so does every ICE candidate whose session identifier is hashable. *)
Theorem disconnect_clears_every_session (s : Signaling) :
  let st' := state (on_disconnect s) in
  connected (on_disconnect s) = false
  /\ sessions (node st') = ∅
  /\ signaling_url (node st') = signaling_url (node (state s))
  /\ reconnect_count (node st') = reconnect_count (node (state s))
  /\ docker_available (node st') = docker_available (node (state s))
  /\ world st' = world (state s) /\ trace st' = trace (state s)
  /\ (forall session_id message,
        _handle_message session_id message st' = st')
  /\ (forall data session_id key,
        json_getitem data "session_id" = OK session_id ->
        registry_key session_id = OK key ->
        on_ice_candidate data st' = (OK tt, st')).
Proof.
  cbv zeta. cbn [on_disconnect state connected with_sessions node sessions
                 signaling_url reconnect_count docker_available world trace].
  repeat split.
  - intros session_id message.
    apply handle_message_unknown_session. apply lookup_empty.
  - intros data session_id key Hid Hkey.
    apply (on_ice_candidate_unknown data session_id key); [assumption..|].
    destruct key as [k|]; [apply lookup_empty | reflexivity].
Qed.

(** X16.  A new session. The [datachannel] handler registers the session
    with a [CryptoSession] made for it, which has no AES key and whose
    public key belongs to its private key, and with no peer public key; an
    entry that was registered under the same identifier is replaced, the
    other sessions are kept. An [encrypted_task] that arrives before the key
    exchange leaves the new session as it is and gets no reply. *)
Theorem new_session_has_no_key (session_id : string) (peer : PeerConnection)
    (ch : Channel) (st : NodeSt) :
  let st' := snd (on_datachannel session_id peer ch st) in
  fst (on_datachannel session_id peer ch st) = OK tt
  /\ (exists sd,
        sessions (node st') !! session_id = Some sd
        /\ pc sd = peer /\ channel sd = ch
        /\ crypto sd = fst (CryptoSession_init (world st))
        /\ aes_key (crypto sd) = None
        /\ keypair_ok (crypto sd)
        /\ remote_public_key sd = None)
  /\ (forall other, other <> session_id ->
        sessions (node st') !! other = sessions (node st) !! other)
  /\ world st' = snd (CryptoSession_init (world st))
  /\ trace st' = trace st
  /\ (forall message data,
        json_loads message = OK data ->
        json_get data "type" = OK (Some (JStr "encrypted_task")) ->
        _handle_message session_id message st' = st').
Proof.
  cbv zeta. unfold on_datachannel, bindM, world_call.
  assert (Hnone : aes_key (fst (CryptoSession_init (world st))) = None
                  /\ keypair_ok (fst (CryptoSession_init (world st)))).
  { unfold CryptoSession_init, keypair_ok.
    now destruct (rsa_generate_private_key (world st)). }
  destruct (CryptoSession_init (world st)) as [c w'].
  cbn [fst snd set_sessions node sessions world trace] in *.
  destruct Hnone as [Hkey Hpair].
  split; [reflexivity|]. split; [|split; [|split; [|split]]].
  - eexists. split; [apply lookup_insert_eq|]. now repeat split.
  - intros other Hne. now apply lookup_insert_ne.
  - reflexivity.
  - reflexivity.
  - intros message data Hload Htype.
    unfold _handle_message.
    erewrite handle_message_encrypted_task;
      [|exact Hload | exact Htype | apply lookup_insert_eq].
    unfold handle_encrypted_task, bindM, lift.
    destruct (json_getitem data "encrypted_data") as [v|]; [|reflexivity].
    assert (Hfail : session_decrypt_payload
                      {| pc := peer; channel := ch; crypto := c;
                         remote_public_key := None |} v
                    = Raise not_ready_error).
    { unfold session_decrypt_payload, decrypt_payload. cbn [crypto].
      rewrite Hkey. now destruct v. }
    now rewrite Hfail.
Qed.

End SignalingHandlers.

(* ===================================================================== *)
(** ** client/client.py *)
(* ===================================================================== *)

(** What the client takes from outside, beyond what the compute node
    takes. *)
Class ClientHost `{NodeHost} := {
  (** [str(v)], as an f-string interpolates a value read from a decoded
      JSON document; [None] is a member that is absent. *)
  format_value : option json -> string;
  (** [self.channel.close()] *)
  channel_close_now : Channel -> World -> result unit * World;
  (** [await self.pc.close()] *)
  pc_close : PeerConnection -> World -> result unit * World;
  (** [self.sio.connected] *)
  sio_connected : World -> bool;
  (** [await self.sio.disconnect()] *)
  sio_disconnect : World -> result unit * World;
}.

(** What the client does to the outside, in order. *)
Inductive client_event :=
  | CSend (text : string)        (* self.channel.send(text) *)
  | CPrint (line : string)       (* print(line) *)
  | CChannelClose                (* self.channel.close() *)
  | CPcClose                     (* self.pc.close() *)
  | CSioDisconnect.              (* self.sio.disconnect() *)

(** Truthiness of a value read with [get]. *)
Definition py_truthy (v : option json) : bool :=
  match v with
  | None => false
  | Some JNull => false
  | Some (JBool b) => b
  | Some (JNum z) => negb (z =? 0)%Z
  | Some (JStr s) => negb (bool_decide (s = ""))
  | Some (JList l) => negb (bool_decide (l = []))
  | Some (JDict d) => negb (bool_decide (d = []))
  end.

Definition newline : string := String (ascii_of_nat 10) EmptyString.

Fixpoint string_times (s : string) (n : nat) : string :=
  match n with
  | O => ""
  | S n' => s ++ string_times s n'
  end.

(** ["=" * 60] *)
Definition rule : string := string_times "=" 60.

Section Client.

Context `{ClientHost}.

(** The attributes of [NeuraXClient] that the modelled methods use. *)
Record NeuraXClient := {
  client_session_id : string;
  client_pc : PeerConnection;
  client_crypto : CryptoSession;
  client_channel : option Channel;
  client_connected : bool;
  client_remote_public_key : option json;
}.

Record ClientSt := {
  client : NeuraXClient;
  client_world : World;
  client_trace : list client_event;
}.

Definition ClientM (A : Type) : Type := ClientSt -> result A * ClientSt.

Definition retC {A} (a : A) : ClientM A := fun st => (OK a, st).

Definition bindC {A B} (m : ClientM A) (k : A -> ClientM B) : ClientM B :=
  fun st =>
    match m st with
    | (OK a, st') => k a st'
    | (Raise e, st') => (Raise e, st')
    end.

Definition liftC {A} (r : result A) : ClientM A := fun st => (r, st).

Definition get_client : ClientM NeuraXClient :=
  fun st => (OK (client st), st).

Definition set_client (f : NeuraXClient -> NeuraXClient) : ClientM unit :=
  fun st =>
    (OK tt,
     {| client := f (client st);
        client_world := client_world st;
        client_trace := client_trace st |}).

(** An operation of the host, recorded in the trace. *)
Definition client_call {A} (ev : client_event)
    (op : World -> result A * World) : ClientM A :=
  fun st =>
    let '(r, w') := op (client_world st) in
    (r, {| client := client st; client_world := w';
           client_trace := client_trace st ++ [ev] |}).

(** [print(line)] *)
Definition print (line : string) : ClientM unit :=
  fun st =>
    (OK tt,
     {| client := client st; client_world := client_world st;
        client_trace := client_trace st ++ [CPrint line] |}).

End Client.

Notation "'let+' x := e 'in' k" := (bindC e (fun x => k))
  (at level 10, x name, e at level 100, k at level 200, only parsing).

Section ClientMethods.

Context `{ClientHost}.

Definition with_client_crypto (c : CryptoSession) (self : NeuraXClient)
    : NeuraXClient :=
  {| client_session_id := client_session_id self;
     client_pc := client_pc self;
     client_crypto := c;
     client_channel := client_channel self;
     client_connected := client_connected self;
     client_remote_public_key := client_remote_public_key self |}.

Definition with_client_remote_key (v : json) (self : NeuraXClient)
    : NeuraXClient :=
  {| client_session_id := client_session_id self;
     client_pc := client_pc self;
     client_crypto := client_crypto self;
     client_channel := client_channel self;
     client_connected := client_connected self;
     client_remote_public_key := Some v |}.

(** [await self.channel.send(json.dumps(message))]; [self.channel] is
    [None] until [setup_data_channel] has run. *)
Definition client_send (message : json) : ClientM unit :=
  let+ self := get_client in
  match client_channel self with
  | Some ch =>
      let text := json_dumps message in
      client_call (CSend text) (channel_send ch text)
  | None =>
      liftC (Raise (Exn AttributeError
                      "'NoneType' object has no attribute 'send'"))
  end.

(** [NeuraXClient._initiate_key_exchange]: its [except] logs. *)
Definition _initiate_key_exchange (st : ClientSt) : ClientSt :=
  snd ((let+ self := get_client in
        let+ public_key_pem :=
          liftC (get_public_key_pem (client_crypto self)) in
        client_send
          (JDict [("type", JStr "key_exchange");
                  ("action", JStr "send_public_key");
                  ("public_key", JStr public_key_pem)])) st).

(** [self.crypto.generate_and_encrypt_aes_key(v)]: the key is drawn and
    stored before [v.encode] is called. *)
Definition client_generate_key (v : json) : ClientM string :=
  fun st =>
    let self := client st in
    match v with
    | JStr pem =>
        let '(r, crypto', w') :=
          generate_and_encrypt_aes_key (client_crypto self) pem
            (client_world st) in
        (r, {| client := with_client_crypto crypto' self;
               client_world := w';
               client_trace := client_trace st |})
    | _ =>
        let '(aes_key_bytes, w') := os_urandom 32 (client_world st) in
        (Raise (Exn AttributeError "object has no attribute 'encode'"),
         {| client :=
              with_client_crypto
                (set_aes_key (client_crypto self) aes_key_bytes) self;
            client_world := w';
            client_trace := client_trace st |})
    end.

(** [self.crypto.decrypt_payload(v)] *)
Definition client_decrypt_payload (self : NeuraXClient) (v : json)
    : result string :=
  match v with
  | JStr s => decrypt_payload (client_crypto self) s
  | _ =>
      if negb (truthy (aes_key (client_crypto self)))
      then Raise not_ready_error
      else Raise (Exn AttributeError "object has no attribute 'encode'")
  end.

(** [NeuraXClient.disconnect] *)
Definition disconnect : ClientM unit :=
  let+ self := get_client in
  let+ _ :=
    match client_channel self with
    | Some ch => client_call CChannelClose (channel_close_now ch)
    | None => retC tt
    end in
  let+ _ := client_call CPcClose (pc_close (client_pc self)) in
  fun st =>
    if sio_connected (client_world st)
    then client_call CSioDisconnect sio_disconnect st
    else (OK tt, st).

(** The block of [print] calls that displays a result. *)
Definition display_result (result_data : json) : ClientM unit :=
  let+ _ := print (newline ++ rule) in
  let+ _ := print "COMPUTE NODE RESULT:" in
  let+ _ := print rule in
  let+ exit := liftC (json_get result_data "exit_code") in
  let+ _ := print ("Exit Code: " ++ format_value exit) in
  let+ out := liftC (json_get_default result_data "stdout" (JStr "")) in
  let+ _ := print (newline ++ "STDOUT:" ++ newline ++ format_value (Some out)) in
  let+ err := liftC (json_get result_data "stderr") in
  let+ _ :=
    if py_truthy err then
      print (newline ++ "STDERR:" ++ newline
             ++ format_value (Some (default (JStr "") err)))
    else retC tt in
  print (rule ++ newline).

(** The body of the [try] block of [NeuraXClient._handle_message]. *)
Definition client_handle_message_body (message : string) : ClientM unit :=
  let+ data := liftC (json_loads message) in
  let+ msg_type := liftC (json_get data "type") in
  if py_eq_str msg_type "key_exchange" then
    let+ action := liftC (json_get data "action") in
    if py_eq_str action "send_public_key" then
      let+ remote := liftC (json_getitem data "public_key") in
      let+ _ := set_client (with_client_remote_key remote) in
      let+ encrypted_aes := client_generate_key remote in
      client_send
        (JDict [("type", JStr "key_exchange");
                ("action", JStr "send_aes_key");
                ("encrypted_aes_key", JStr encrypted_aes)])
    else retC tt
  else if py_eq_str msg_type "encrypted_result" then
    let+ encrypted_result := liftC (json_getitem data "encrypted_data") in
    let+ self := get_client in
    let+ result := liftC (client_decrypt_payload self encrypted_result) in
    let+ result_data := liftC (json_loads result) in
    let+ _ := display_result result_data in
    disconnect
  else retC tt.

(** [NeuraXClient._handle_message]: [except Exception] logs the error. *)
Definition client_handle_message (message : string) (st : ClientSt)
    : ClientSt :=
  snd (client_handle_message_body message st).

End ClientMethods.

Section ClientProperties.

Context `{ClientHost}.

(** X17.  The client never sends its public key. [_initiate_key_exchange]
    fails in [get_public_key_pem] before it sends anything, and its [except]
    only logs: it leaves the client, the world and the trace as they were. *)
Theorem client_never_sends_its_public_key (st : ClientSt) :
  _initiate_key_exchange st = st.
Proof.
  unfold _initiate_key_exchange, bindC, get_client, liftC.
  now destruct (get_public_key_pem_error (client_crypto (client st)))
    as [e ->].
Qed.

(** The [send_aes_key] message for an encrypted key. *)
Definition send_aes_key_message (encrypted_aes : string) : json :=
  JDict [("type", JStr "key_exchange");
         ("action", JStr "send_aes_key");
         ("encrypted_aes_key", JStr encrypted_aes)].

(** X18.  The handshake. Let the client, whose channel is set, receive a
    [send_public_key] message whose key loads as the public key of a session
    registered on a compute node, and let the encryption of the new key
    succeed. Then the client stores a key of 32 bytes drawn from
    [os.urandom] and sends one [send_aes_key] message; and when the node's
    handler is given the text of that message, the node's session holds the
    same key and the node answers with one [aes_key_received]. *)
Theorem handshake_establishes_one_key (cst : ClientSt) (ch : Channel)
    (message : string) (data : json) (pem : string) (e : string)
    (nst : NodeSt) (session_id : string) (sd : session_data) :
  urandom_length -> rsa_correct ->
  client_channel (client cst) = Some ch ->
  json_loads message = OK data ->
  json_get data "type" = OK (Some (JStr "key_exchange")) ->
  json_get data "action" = OK (Some (JStr "send_public_key")) ->
  json_getitem data "public_key" = OK (JStr pem) ->
  sessions (node nst) !! session_id = Some sd ->
  keypair_ok (crypto sd) ->
  load_pem_public_key (str_encode pem) = OK (public_key (crypto sd)) ->
  fst (fst (generate_and_encrypt_aes_key (client_crypto (client cst)) pem
              (client_world cst))) = OK e ->
  let sent := json_dumps (send_aes_key_message e) in
  json_loads sent = OK (send_aes_key_message e) ->
  let key := fst (os_urandom 32 (client_world cst)) in
  let cst' := client_handle_message message cst in
  let nst' := _handle_message session_id sent nst in
  client_trace cst' = (client_trace cst ++ [CSend sent])%list
  /\ aes_key (client_crypto (client cst')) = Some key
  /\ length key = 32%nat
  /\ (fun s => aes_key (crypto s)) <$> (sessions (node nst') !! session_id)
     = Some (Some key)
  /\ trace nst' =
     (trace nst
      ++ [EvSend (channel sd)
            (json_dumps (JDict [("type", JStr "key_exchange");
                                ("action", JStr "aes_key_received")]))])%list.
Proof.
  intros Hlen Hrsa Hch Hload Htype Haction Hitem Hsd Hpair Hpem He.
  cbv zeta. intros Hsent.
  (* the client *)
  assert (Hclient :
    client_trace (client_handle_message message cst)
    = (client_trace cst ++ [CSend (json_dumps (send_aes_key_message e))])%list
    /\ aes_key (client_crypto (client (client_handle_message message cst)))
       = Some (fst (os_urandom 32 (client_world cst)))).
  { unfold client_handle_message, client_handle_message_body, bindC, liftC.
    rewrite Hload, Htype. cbn [py_eq_str].
    rewrite bool_decide_eq_true_2 by reflexivity.
    rewrite Haction. cbn [py_eq_str].
    rewrite bool_decide_eq_true_2 by reflexivity.
    rewrite Hitem.
    cbn [set_client client_generate_key client client_world client_trace
         with_client_remote_key client_crypto].
    unfold generate_and_encrypt_aes_key in *.
    destruct (os_urandom 32 (client_world cst)) as [k w1].
    rewrite Hpem in *.
    destruct (rsa_oaep_encrypt (public_key (crypto sd)) k w1)
      as [[c|err] w2]; cbn [fst snd] in *; [|discriminate].
    rewrite He.
    unfold client_send, bindC, get_client.
    cbn [client with_client_crypto with_client_remote_key client_channel].
    rewrite Hch. unfold client_call. cbn [client_world client_trace].
    fold (send_aes_key_message e).
    destruct (channel_send ch _ w2) as [r w3].
    cbn [snd client_trace client client_crypto with_client_crypto].
    split; reflexivity. }
  destruct Hclient as [Htrace Hkey].
  split; [exact Htrace|]. split; [exact Hkey|].
  split; [apply Hlen|].
  (* the node *)
  unfold generate_and_encrypt_aes_key in He.
  destruct (os_urandom 32 (client_world cst)) as [k w1] eqn:Hur.
  rewrite Hpem in He.
  destruct (rsa_oaep_encrypt (public_key (crypto sd)) k w1)
    as [[c|err] w2] eqn:Eenc; cbn [fst snd] in *; [|discriminate].
  rewrite bytes_decode_b64 in He. injection He as <-.
  assert (Hdec : decrypt_rsa (crypto sd) c = OK k).
  { unfold decrypt_rsa. apply (Hrsa (private_key (crypto sd)) k w1 c).
    rewrite <- Hpair. now rewrite Eenc. }
  unfold _handle_message.
  rewrite (handle_message_key_exchange _ _ _ _ _ Hsent eq_refl Hsd).
  unfold handle_key_exchange, bindM, lift.
  cbn [send_aes_key_message json_get json_getitem assoc].
  rewrite !decide_False by discriminate.
  rewrite !decide_True by reflexivity.
  cbn [py_eq_str].
  rewrite bool_decide_eq_false_2 by discriminate.
  rewrite bool_decide_eq_true_2 by reflexivity.
  rewrite !decide_False by discriminate.
  rewrite !decide_True by reflexivity.
  unfold session_exchange_aes_key, bindM, lift. cbn [str_arg].
  rewrite (exchange_aes_key_ok (crypto sd) _ c k (b64_text_decode c) Hdec).
  cbn [update_session set_sessions].
  unfold send, host_call. cbn [world trace node].
  destruct (channel_send (channel sd) _ (world nst)) as [r w3].
  cbn [snd node sessions trace].
  rewrite lookup_alter_eq, Hsd. split; reflexivity.
Qed.

(** X19.  A result that does not unseal. When the payload of an
    [encrypted_result] message fails to unseal (tampered, sealed under
    another key, not base64, no key yet), or unseals to a text that is not
    JSON, the client displays nothing and does not disconnect: the error is
    logged and the client is left as it was. *)
Theorem unreadable_result_is_dropped (message : string) (st : ClientSt)
    (data v : json) :
  json_loads message = OK data ->
  json_get data "type" = OK (Some (JStr "encrypted_result")) ->
  json_getitem data "encrypted_data" = OK v ->
  is_ok (let! text := client_decrypt_payload (client st) v in
         json_loads text) = false ->
  client_handle_message message st = st.
Proof.
  intros Hload Htype Hitem Hfail.
  unfold client_handle_message, client_handle_message_body, bindC, liftC,
    get_client.
  rewrite Hload, Htype. cbn [py_eq_str].
  rewrite bool_decide_eq_false_2 by discriminate.
  rewrite bool_decide_eq_true_2 by reflexivity.
  rewrite Hitem.
  destruct (client_decrypt_payload (client st) v) as [text|]; [|reflexivity].
  cbn [bind] in Hfail.
  now destruct (json_loads text).
Qed.



End ClientProperties.

(* ===================================================================== *)
(** ** The further properties on the reference instance *)
(* ===================================================================== *)

Module RefMore.

#[local] Existing Instances Ref.platform Ref.host.

Lemma rsa_correct_holds : rsa_correct.
Proof.
  intros sk m w c Henc. cbn in Henc. injection Henc as <-.
  change (Ref.rsa_decrypt sk (byte_of_N (N.of_nat sk) :: m) = OK m).
  unfold Ref.rsa_decrypt.
  destruct (decide _) as [|Hne]; [reflexivity | now destruct Hne].
Qed.

#[export] Instance ice : IceHost := {|
  add_ice_candidate := fun _ _ _ _ w => (OK tt, w);
|}.

(** [str(v)] for the values that the reference codec reads. *)
Definition format (v : option json) : string :=
  match v with
  | None => "None"
  | Some (JStr s) => s
  | Some v => Ref.dumps v
  end.

#[export] Instance client_host : ClientHost := {|
  format_value := format;
  channel_close_now := fun _ w => (OK tt, w);
  pc_close := fun _ w => (OK tt, w);
  sio_connected := fun _ => true;
  sio_disconnect := fun w => (OK tt, w);
|}.

(** The nonce that [Ref.w0] gives, and a payload sealed with it under
    [Ref.key32]. *)
Definition nonce0 : bytes := fst (Ref.urandom 12 Ref.w0).

Definition sealed0 (text : string) : string :=
  b64_text (nonce0 ++ Ref.seal Ref.key32 nonce0 (str_encode text)).

(** A task, and the message that carries it. *)
Definition task_data : json :=
  JDict [("code", JStr "print(1+1)"); ("type", JStr "python_code")].

Definition task_text : string := Ref.dumps task_data.

Definition task_message_data : json :=
  JDict [("type", JStr "encrypted_task");
         ("encrypted_data", JStr (sealed0 task_text))].

Definition task_message : string := Ref.dumps task_message_data.

(** The result of the run that [Ref.w0] scripts. *)
Definition res0 : ExecutionResult :=
  {| exit_code := 0; stdout := "2"; stderr := ""; execution_time := 0 |}.

(** A [send_public_key] message. *)
Definition public_key_data (pem : string) : json :=
  JDict [("type", JStr "key_exchange");
         ("action", JStr "send_public_key");
         ("public_key", JStr pem)].

(** A session whose private key is [65], and its public key as the
    reference instance writes it. *)
Definition w65 : Ref.world :=
  {| Ref.cursor := 65; Ref.clock := 0;
     Ref.tempfile_script := OK "/tmp/tmpk3v9.py";
     Ref.run_script := OK (0%Z, "2", "");
     Ref.connect_script := [] |}.

Definition session65 : CryptoSession := fst (CryptoSession_init w65).

Definition sd65 : @session_data Ref.platform Ref.host :=
  @Build_session_data Ref.platform Ref.host tt 7%nat session65 None.

Definition pem65 : string := "-----BEGIN PUBLIC KEY-----A".

(** A client whose channel is set. *)
Definition client_with (c : CryptoSession) (w : Ref.world)
    : @ClientSt Ref.platform Ref.host :=
  @Build_ClientSt Ref.platform Ref.host
    (@Build_NeuraXClient Ref.platform Ref.host
       "s1" tt c (Some 9%nat) true None)
    w [].



Definition result_message_data (sealed : string) : json :=
  JDict [("type", JStr "encrypted_result");
         ("encrypted_data", JStr sealed)].

(** A host whose channel has plain [send] and [close] methods: the call
    is made, and the [await] of the [None] it returned raises. *)
Definition await_none : exn :=
  Exn TypeError "object NoneType can't be used in 'await' expression".

Definition host_plain : NodeHost := {|
  json_loads := Ref.loads;
  json_dumps := Ref.dumps;
  time_time := Ref.clock;
  PeerConnection := unit;
  Channel := nat;
  channel_send := fun _ _ w => (Raise await_none, w);
  channel_close := fun _ w => (Raise await_none, w);
  write_temp_file := Ref.write_temp;
  run_command_wait_for := fun _ w => (Ref.run_script w, w);
  os_unlink := fun _ w => w;
  sio_connect := Ref.connect;
  asyncio_sleep := Ref.sleep;
|}.

Definition sd_plain : @session_data Ref.platform host_plain :=
  @Build_session_data Ref.platform host_plain tt 7%nat Ref.keyed_session None.

Definition node_plain : @NodeSt Ref.platform host_plain :=
  @Build_NodeSt Ref.platform host_plain
    (@Build_NeuraXComputeNode Ref.platform host_plain
       "http://localhost:10000" 0 true {[ "s1" := sd_plain ]})
    Ref.w0 [].

End RefMore.

Import RefMore.

#[local] Existing Instances Ref.platform Ref.host RefMore.ice
  RefMore.client_host.

(** A key that decrypts to [b''], on the reference session. *)
Lemma empty_key_counts_as_no_key_witness :
  let self' := snd (exchange_aes_key Ref.fresh_session "AA==") in
  fst (exchange_aes_key Ref.fresh_session "AA==") = OK tt
  /\ aes_key self' = Some []
  /\ (forall P w, encrypt_payload self' P w = (Raise not_ready_error, w))
  /\ (forall e, decrypt_payload self' e = Raise not_ready_error).
Proof.
  apply (empty_key_counts_as_no_key Ref.fresh_session "AA==" [x00]);
    reflexivity.
Defined.

(** A key of three bytes. *)
Lemma invalid_key_length_raises_witness :
  let self := set_aes_key Ref.fresh_session [x01; x02; x03] in
  let bad_key :=
    Exn ValueError "AESGCM key must be 128, 192, or 256 bits." in
  (forall P w,
     encrypt_payload self P w = (Raise bad_key, snd (os_urandom 12 w)))
  /\ (forall e,
        decrypt_payload self e =
        match urlsafe_b64decode (str_encode e) with
        | OK _ => Raise bad_key
        | Raise err => Raise err
        end)
  /\ (forall e, is_ok (decrypt_payload self e) = false).
Proof.
  apply (invalid_key_length_raises
           (set_aes_key Ref.fresh_session [x01; x02; x03]) [x01; x02; x03]);
    [reflexivity | discriminate | reflexivity].
Defined.

(** A text, and two bytes that are not UTF-8, sealed for the reference
    session. *)
Lemma decrypt_payload_of_sealed_data_witness :
  decrypt_payload Ref.keyed_session (sealed0 "print(1+1)") = OK "print(1+1)"
  /\ exists err,
       decrypt_payload Ref.keyed_session
         (b64_text (nonce0 ++ Ref.seal Ref.key32 nonce0 [xff; xfe]))
       = Raise err
       /\ exn_class_of err = UnicodeDecodeError
       /\ err <> integrity_error.
Proof.
  split.
  - refine (proj1 (proj1 (decrypt_payload_of_sealed_data Ref.keyed_session
                     Ref.key32 nonce0 (str_encode "print(1+1)")
                     RefFacts.gcm_correct_holds eq_refl eq_refl eq_refl)
                     "print(1+1)" eq_refl)).
  - refine (proj2 (decrypt_payload_of_sealed_data Ref.keyed_session
                     Ref.key32 nonce0 [xff; xfe]
                     RefFacts.gcm_correct_holds eq_refl eq_refl eq_refl)
                  eq_refl).
Defined.

(** The reference session agrees on a key with the session whose private
    key is [65]. *)
Lemma key_agreement_witness :
  let initiator' :=
    snd (fst (generate_and_encrypt_aes_key Ref.fresh_session pem65 Ref.w0)) in
  let e := b64_text (byte_of_N 65 :: fst (Ref.urandom 32 Ref.w0)) in
  let node' := snd (exchange_aes_key session65 e) in
  fst (exchange_aes_key session65 e) = OK tt
  /\ aes_key node' = aes_key initiator'
  /\ aes_key initiator' = Some (fst (os_urandom 32 Ref.w0))
  /\ (forall P w1, is_str P ->
        exists t, fst (encrypt_payload initiator' P w1) = OK t
                  /\ decrypt_payload node' t = OK P)
  /\ (forall P w1, is_str P ->
        exists t, fst (encrypt_payload node' P w1) = OK t
                  /\ decrypt_payload initiator' t = OK P).
Proof.
  apply (key_agreement Ref.fresh_session session65 pem65 Ref.w0
           (b64_text (byte_of_N 65 :: fst (Ref.urandom 32 Ref.w0)))
           RefFacts.urandom_length_holds RefFacts.gcm_correct_holds
           rsa_correct_holds);
    reflexivity.
Defined.

(** The payload for ["print(1+1)"], ten bytes: 52 characters. *)
Lemma sealed_text_shape_witness :
  String.length (sealed0 "print(1+1)") = 52%nat
  /\ Forall (fun c => In c urlsafe_alphabet)
       (str_encode (sealed0 "print(1+1)"))
  /\ is_str (sealed0 "print(1+1)").
Proof.
  apply (sealed_text_shape Ref.keyed_session Ref.key32 "print(1+1)" Ref.w0
           (sealed0 "print(1+1)")
           RefFacts.urandom_length_holds RefFacts.gcm_correct_holds);
    reflexivity.
Defined.

(** A run that completes: the result is what the run gave, and the world
    after the removal of the file. *)
Lemma sandbox_removes_its_temp_file_witness :
  let st := node_with true sd_keyed Ref.w0 in
  let run := _execute_in_sandbox (JStr "print(1+1)") (JStr "python_code") st in
  world (snd run) = os_unlink "/tmp/tmpk3v9.py" Ref.w0
  /\ fst run = OK res0.
Proof.
  cbv zeta.
  pose proof (sandbox_removes_its_temp_file (JStr "print(1+1)")
                (JStr "python_code") (node_with true sd_keyed Ref.w0) eq_refl)
    as [Hworld Hres].
  split; [exact Hworld|].
  exact (Hres 0%Z "2" "" eq_refl).
Defined.

(** A text that is not JSON. *)
Lemma unhandled_message_changes_nothing_witness :
  _handle_message "s1" "hello" (node_with true sd_keyed Ref.w0)
  = node_with true sd_keyed Ref.w0.
Proof.
  apply (unhandled_message_changes_nothing "s1" "hello"
           (node_with true sd_keyed Ref.w0)).
  right. left. eexists. reflexivity.
Defined.

(** The public key of the session [65], sent to the reference node. *)
Lemma send_public_key_is_never_answered_witness :
  let st := node_with true sd_fresh Ref.w0 in
  let st' := _handle_message "s1" (Ref.dumps (public_key_data pem65)) st in
  trace st' = trace st
  /\ world st' = world st
  /\ sessions (node st') !! "s1"
     = Some (with_remote_public_key (JStr pem65) sd_fresh)
  /\ (crypto <$> sessions (node st') !! "s1") = Some (crypto sd_fresh).
Proof.
  apply (send_public_key_is_never_answered "s1"
           (Ref.dumps (public_key_data pem65))
           (node_with true sd_fresh Ref.w0) (public_key_data pem65) sd_fresh);
    reflexivity.
Defined.

(** A key encrypted for the reference session, and one that is not
    base64. *)
Lemma send_aes_key_is_acknowledged_witness :
  let st := node_with true sd_fresh Ref.w0 in
  let ack := json_dumps (JDict [("type", JStr "key_exchange");
                                ("action", JStr "aes_key_received")]) in
  trace (_handle_message "s1" (aes_key_message Ref.key32) st)
  = [EvSend 7%nat ack]
  /\ _handle_message "s1"
       (Ref.dumps (JDict [("type", JStr "key_exchange");
                          ("action", JStr "send_aes_key");
                          ("encrypted_aes_key", JStr "A")])) st
     = st.
Proof.
  cbv zeta. split.
  - exact (proj1 (send_aes_key_is_acknowledged "s1"
                    (aes_key_message Ref.key32)
                    (node_with true sd_fresh Ref.w0) (aes_key_data Ref.key32)
                    sd_fresh (encrypted_key Ref.key32)
                    eq_refl eq_refl eq_refl eq_refl eq_refl)).
  - exact (send_aes_key_is_acknowledged "s1"
             (Ref.dumps (JDict [("type", JStr "key_exchange");
                                ("action", JStr "send_aes_key");
                                ("encrypted_aes_key", JStr "A")]))
             (node_with true sd_fresh Ref.w0)
             (JDict [("type", JStr "key_exchange");
                     ("action", JStr "send_aes_key");
                     ("encrypted_aes_key", JStr "A")])
             sd_fresh "A"
             eq_refl eq_refl eq_refl eq_refl eq_refl).
Defined.

(** The task ["print(1+1)"], sealed for the reference session: on a
    channel whose awaited [send] and [close] return, and on one whose
    [send] is a plain method. *)
Lemma task_is_executed_and_answered_witness :
  let reply := encrypted_result_message (sealed0 (result_json res0)) in
  let st := node_with true sd_keyed Ref.w0 in
  let st' := _handle_message "s1" task_message st in
  let pt' := @_handle_message Ref.platform host_plain "s1" task_message
               node_plain in
  decrypt_payload Ref.keyed_session (sealed0 (result_json res0))
  = OK (result_json res0)
  /\ (trace st' = [EvSend 7%nat reply; EvClose 7%nat]
      /\ world st' = snd (Ref.urandom 12 Ref.w0)
      /\ sessions (node st') = delete "s1" (sessions (node st)))
  /\ (trace pt' = [EvSend 7%nat reply]
      /\ world pt' = snd (Ref.urandom 12 Ref.w0)
      /\ sessions (node pt') = sessions (node node_plain)).
Proof.
  cbv zeta.
  destruct (task_is_executed_and_answered "s1" task_message
                (node_with true sd_keyed Ref.w0) task_message_data sd_keyed
                (sealed0 task_text) task_text task_data
                (JStr "print(1+1)") (JStr "python_code") res0
                (node_with true sd_keyed Ref.w0)
                (sealed0 (result_json res0))
                (snd (Ref.urandom 12 Ref.w0))
                RefFacts.urandom_length_holds RefFacts.gcm_correct_holds)
    as [Hdec Hok]; [reflexivity..|].
  destruct (@task_is_executed_and_answered Ref.platform host_plain
                "s1" task_message node_plain task_message_data sd_plain
                (sealed0 task_text) task_text task_data
                (JStr "print(1+1)") (JStr "python_code") res0
                node_plain
                (sealed0 (result_json res0))
                (snd (Ref.urandom 12 Ref.w0))
                RefFacts.urandom_length_holds RefFacts.gcm_correct_holds)
    as [_ Hraise]; [reflexivity..|].
  split; [exact Hdec|]. split; [exact Hok | exact Hraise].
Defined.

(** The handshake between a client and the node that holds the session
    [65]: the client draws its key from [Ref.w0]. *)
Lemma handshake_establishes_one_key_witness :
  let cst := client_with Ref.fresh_session Ref.w0 in
  let nst := node_with true sd65 Ref.w0 in
  let key := fst (Ref.urandom 32 Ref.w0) in
  let sent :=
    Ref.dumps (send_aes_key_message (b64_text (byte_of_N 65 :: key))) in
  let cst' := client_handle_message (Ref.dumps (public_key_data pem65)) cst in
  let nst' := _handle_message "s1" sent nst in
  client_trace cst' = [CSend sent]
  /\ aes_key (client_crypto (client cst')) = Some key
  /\ length key = 32%nat
  /\ (fun s => aes_key (crypto s)) <$> (sessions (node nst') !! "s1")
     = Some (Some key)
  /\ trace nst' =
     [EvSend 7%nat
        (Ref.dumps (JDict [("type", JStr "key_exchange");
                           ("action", JStr "aes_key_received")]))].
Proof.
  apply (handshake_establishes_one_key
           (client_with Ref.fresh_session Ref.w0) 9%nat
           (Ref.dumps (public_key_data pem65)) (public_key_data pem65)
           pem65 (b64_text (byte_of_N 65 :: fst (Ref.urandom 32 Ref.w0)))
           (node_with true sd65 Ref.w0) "s1" sd65
           RefFacts.urandom_length_holds rsa_correct_holds);
    reflexivity.
Defined.

(** A result with one bit inverted. *)
Lemma unreadable_result_is_dropped_witness :
  let st := client_with Ref.keyed_session Ref.w0 in
  let sealed := b64_text (flip_bit 12 0 sealed_example) in
  client_handle_message (Ref.dumps (result_message_data sealed)) st = st.
Proof.
  apply (unreadable_result_is_dropped
           (Ref.dumps
              (result_message_data (b64_text (flip_bit 12 0 sealed_example))))
           (client_with Ref.keyed_session Ref.w0)
           (result_message_data (b64_text (flip_bit 12 0 sealed_example)))
           (JStr (b64_text (flip_bit 12 0 sealed_example))));
    reflexivity.
Defined.


(** A payload that unseals to ["print(1+1)"], which is not a task. *)
Lemma malformed_task_is_not_run_witness :
  let message :=
    Ref.dumps (JDict [("type", JStr "encrypted_task");
                      ("encrypted_data", JStr (sealed0 "print(1+1)"))]) in
  _handle_message "s1" message (node_with true sd_keyed Ref.w0)
  = node_with true sd_keyed Ref.w0.
Proof.
  apply (malformed_task_is_not_run "s1" _ (node_with true sd_keyed Ref.w0)
           (JDict [("type", JStr "encrypted_task");
                   ("encrypted_data", JStr (sealed0 "print(1+1)"))])
           sd_keyed (sealed0 "print(1+1)") "print(1+1)");
    try reflexivity.
  left. eexists. reflexivity.
Defined.
